(** * Momento growth and go-to-market simulations

    A shallow embedding of [Docs/simulations/growth_simulation.py] and
    [Docs/simulations/gtm_simulation.py].

    Python [int] is [Z]; Python [float] is IEEE 754 binary64, taken from the
    standard library's [SpecFloat] at [prec = 53], [emax = 1024] with
    round-to-nearest-even.  The conversions between the two raise, as in
    CPython: [int(x)] raises on NaN and on the infinities, and an [int] that
    does not fit a [float] raises when it meets a float operand. *)

From Stdlib Require Import ZArith Bool List Lia String.
From Stdlib Require Import Floats.SpecFloat.
Import ListNotations.
Open Scope Z_scope.

(** ** Python numbers *)

Module Py.

Inductive exn : Type :=
| OverflowError
| ValueError
| ZeroDivisionError
| KeyError.

Inductive result (A : Type) : Type :=
| Ok (a : A)
| Raise (e : exn).
Arguments Ok {A} a.
Arguments Raise {A} e.

Definition bind {A B : Type} (r : result A) (k : A -> result B) : result B :=
  match r with
  | Ok a => k a
  | Raise e => Raise e
  end.

Definition prec : Z := 53.
Definition emax : Z := 1024.

Definition float : Type := spec_float.

Definition float_mul : float -> float -> float := SFmul prec emax.
Definition float_add : float -> float -> float := SFadd prec emax.
Definition float_sub : float -> float -> float := SFsub prec emax.

(** [a <= b] on floats; false as soon as one side is NaN. *)
Definition float_le : float -> float -> bool := SFleb.

(** The nearest binary64 to an integer, ties to even; an infinity when the
    integer is out of range. *)
Definition round_int (z : Z) : float := binary_normalize prec emax z 0 false.

(** The implicit conversion of an [int] operand of a float operation. *)
Definition float_of_int (z : Z) : result float :=
  match round_int z with
  | S754_infinity _ => Raise OverflowError
  | x => Ok x
  end.

(** [int(x)]: truncation toward zero. *)
Definition int_of_float (x : float) : result Z :=
  match x with
  | S754_nan => Raise ValueError
  | S754_infinity _ => Raise OverflowError
  | S754_zero _ => Ok 0
  | S754_finite s m e =>
      Ok (cond_Zopp s (match e with
                       | Zneg p => Z.pos m / 2 ^ Z.pos p
                       | _ => Z.pos m * 2 ^ e
                       end))
  end.

(** [a * x], [x * a] and [a - x] with [a] an [int] and [x] a [float]. *)
Definition int_mul_float (a : Z) (x : float) : result float :=
  bind (float_of_int a) (fun fa => Ok (float_mul fa x)).

Definition float_mul_int (x : float) (a : Z) : result float :=
  bind (float_of_int a) (fun fa => Ok (float_mul x fa)).

Definition int_sub_float (a : Z) (x : float) : result float :=
  bind (float_of_int a) (fun fa => Ok (float_sub fa x)).

(** The correctly rounded quotient of two integers, [b] not zero. *)
Definition round_quotient (a b : Z) : float :=
  let s := xorb (a <? 0) (b <? 0) in
  match a with
  | 0 => S754_zero s
  | _ =>
      let '(q, e, l) := SFdiv_core_binary prec emax (Z.abs a) 0 (Z.abs b) 0 in
      binary_round_aux prec emax s q e l
  end.

(** [a / b] on two [int]s (true division). *)
Definition int_truediv (a b : Z) : result float :=
  if b =? 0 then Raise ZeroDivisionError
  else match round_quotient a b with
       | S754_infinity _ => Raise OverflowError
       | x => Ok x
       end.

(** A decimal literal [n / 10^k], such as [0.8] or [7.99]. *)
Definition literal (n : Z) (k : nat) : float := round_quotient n (10 ^ Z.of_nat k).

(** A value that is an [int] on one path and a [float] on another. *)
Inductive number : Type :=
| Int (z : Z)
| Float (x : float).

(** [range(lo, hi)] *)
Definition range (lo hi : Z) : list Z :=
  map (fun i => lo + Z.of_nat i) (seq 0 (Z.to_nat (hi - lo))).

(** [int(n * rate)]: one multiplicative step of a funnel, truncated. *)
Definition truncated_product (n : Z) (rate : float) : result Z :=
  bind (int_mul_float n rate) int_of_float.

(** A guarded ratio: [a / b if b > 0 else 0]. *)
Definition guarded_ratio (a b : Z) : number :=
  if b >? 0 then Float (round_quotient a b) else Int 0.

(** [v] is the value of [a / b if b > 0 else 0]: the quotient that the
    division returned when [b] is positive, the [int] 0 otherwise. *)
Definition guarded_division (a b : Z) (v : number) : Prop :=
  if b >? 0 then exists q, int_truediv a b = Ok q /\ v = Float q
  else v = Int 0.

(** [v] is [x] with its fraction dropped: [|v|] is the integer part of
    [|x|] and the sign is that of [x]. *)
Definition truncates (x : float) (v : Z) : Prop :=
  match x with
  | S754_zero _ => v = 0
  | S754_finite s m e =>
      (if s then v <= 0 else 0 <= v) /\
      (if e <? 0
       then Z.abs v * 2 ^ (- e) <= Z.pos m < (Z.abs v + 1) * 2 ^ (- e)
       else Z.abs v = Z.pos m * 2 ^ e)
  | _ => False
  end.

(** [0.0] and [1.0] *)
Definition zero : float := S754_zero false.
Definition one : float := S754_finite false 4503599627370496 (-52).

(** Left-to-right float accumulation from [0.0]. *)
Definition float_sum (xs : list float) : float :=
  fold_left float_add xs (S754_zero false).

(** [sum(xs)] on [int]s. *)
Definition int_sum (xs : list Z) : Z := fold_left Z.add xs 0.

(** A binary64 datum: a finite value is stored with its canonical mantissa
    and exponent. *)
Definition valid (x : float) : bool := valid_binary prec emax x.

(** Neither NaN nor an infinity. *)
Definition is_finite (x : float) : bool :=
  match x with
  | S754_zero _ | S754_finite _ _ _ => true
  | _ => false
  end.

Definition is_zero (x : float) : bool :=
  match x with
  | S754_zero _ => true
  | _ => false
  end.

(** [x / y] on [float]s: a zero divisor raises, an overflow gives an
    infinity. *)
Definition float_truediv (x y : float) : result float :=
  if is_zero y then Raise ZeroDivisionError else Ok (SFdiv prec emax x y).

(** [a / y] and [x / a] with [a] an [int]. *)
Definition int_div_float (a : Z) (y : float) : result float :=
  bind (float_of_int a) (fun fa => float_truediv fa y).

Definition float_div_int (x : float) (a : Z) : result float :=
  bind (float_of_int a) (fun fa => float_truediv x fa).

(** [x >= t] with [x] a [float] and [t] an [int]: the two values are
    compared exactly, and NaN is above nothing. *)
Definition float_ge_int (x : float) (t : Z) : bool :=
  match x with
  | S754_nan => false
  | S754_infinity s => negb s
  | S754_zero _ => t <=? 0
  | S754_finite s m e =>
      if 0 <=? e then t <=? cond_Zopp s (Z.pos m) * 2 ^ e
      else t * 2 ^ (- e) <=? cond_Zopp s (Z.pos m)
  end.

(** [v >= t] with [v] an [int] or a [float]. *)
Definition number_ge_int (v : number) (t : Z) : bool :=
  match v with
  | Int z => t <=? z
  | Float x => float_ge_int x t
  end.

(** [d[key]] on a dict with string keys, kept in insertion order. *)
Fixpoint item {A : Type} (d : list (string * A)) (key : string) : result A :=
  match d with
  | [] => Raise KeyError
  | (k, v) :: rest => if String.eqb k key then Ok v else item rest key
  end.

Section Loop.
Context {S R : Type}.
Variable body : S -> Z -> result (R * S).

(** [for m in ms: ...; results.append(r)] with the loop variables [st]
    threaded through; an exception leaves the loop and the function. *)
Fixpoint for_each (ms : list Z) (st : S) (results : list R) : result (list R) :=
  match ms with
  | [] => Ok results
  | m :: ms' =>
      bind (body st m) (fun p => for_each ms' (snd p) (results ++ [fst p]))
  end.

(** The iterations of a loop that ran to its end: the records appended
    and the state each iteration started from. *)
Inductive iterations : list Z -> S -> list R -> Prop :=
| iterations_nil : forall st, iterations [] st []
| iterations_cons : forall m ms st r st' rs,
    body st m = Ok (r, st') ->
    iterations ms st' rs ->
    iterations (m :: ms) st (r :: rs).

(** The state iteration [i] (from 0) started from, read off the record
    before it by [after]; [st] for the first. *)
Definition state_before (after : R -> S) (st : S) (rs : list R) (i : nat) : S :=
  match i with
  | O => st
  | Datatypes.S j => match nth_error rs j with
                     | Some r => after r
                     | None => st
                     end
  end.
End Loop.

End Py.

Notation "x <- c ;; k" := (Py.bind c (fun x => k))
  (at level 61, c at next level, right associativity).
Notation "' pat <- c ;; k" := (Py.bind c (fun x => match x with pat => k end))
  (at level 61, pat pattern, c at next level, right associativity).

(** ** growth_simulation.py *)

Module Growth.
Import Py.

Record SimulationConfig : Type := {
  initial_hosts : Z;
  events_per_host_per_month : float;
  avg_attendees_per_event : Z;
  attendees_already_have_app : float;
  post_reveal_upgrade_rate : float;
  web_album_share_rate : float;
  non_app_viewers_per_share : Z;
  web_viewer_download_rate : float;
  download_to_install_rate : float;
  new_install_becomes_host_rate : float;
  host_monthly_retention : float;
  premium_price_gbp : float
}.

(** [SimulationConfig()] *)
Definition default_config : SimulationConfig := {|
  initial_hosts := 50;
  events_per_host_per_month := literal 8 1;
  avg_attendees_per_event := 8;
  attendees_already_have_app := literal 3 1;
  post_reveal_upgrade_rate := literal 25 2;
  web_album_share_rate := literal 7 1;
  non_app_viewers_per_share := 5;
  web_viewer_download_rate := literal 4 1;
  download_to_install_rate := literal 15 2;
  new_install_becomes_host_rate := literal 3 1;
  host_monthly_retention := literal 85 2;
  premium_price_gbp := literal 799 2
|}.

(** [dataclasses.replace(c, initial_hosts=n)] and the like. *)
Definition set_initial_hosts (n : Z) (c : SimulationConfig) : SimulationConfig := {|
  initial_hosts := n;
  events_per_host_per_month := events_per_host_per_month c;
  avg_attendees_per_event := avg_attendees_per_event c;
  attendees_already_have_app := attendees_already_have_app c;
  post_reveal_upgrade_rate := post_reveal_upgrade_rate c;
  web_album_share_rate := web_album_share_rate c;
  non_app_viewers_per_share := non_app_viewers_per_share c;
  web_viewer_download_rate := web_viewer_download_rate c;
  download_to_install_rate := download_to_install_rate c;
  new_install_becomes_host_rate := new_install_becomes_host_rate c;
  host_monthly_retention := host_monthly_retention c;
  premium_price_gbp := premium_price_gbp c
|}.

Definition set_host_monthly_retention (x : float) (c : SimulationConfig)
  : SimulationConfig := {|
  initial_hosts := initial_hosts c;
  events_per_host_per_month := events_per_host_per_month c;
  avg_attendees_per_event := avg_attendees_per_event c;
  attendees_already_have_app := attendees_already_have_app c;
  post_reveal_upgrade_rate := post_reveal_upgrade_rate c;
  web_album_share_rate := web_album_share_rate c;
  non_app_viewers_per_share := non_app_viewers_per_share c;
  web_viewer_download_rate := web_viewer_download_rate c;
  download_to_install_rate := download_to_install_rate c;
  new_install_becomes_host_rate := new_install_becomes_host_rate c;
  host_monthly_retention := x;
  premium_price_gbp := premium_price_gbp c
|}.

Definition set_premium_price_gbp (x : float) (c : SimulationConfig)
  : SimulationConfig := {|
  initial_hosts := initial_hosts c;
  events_per_host_per_month := events_per_host_per_month c;
  avg_attendees_per_event := avg_attendees_per_event c;
  attendees_already_have_app := attendees_already_have_app c;
  post_reveal_upgrade_rate := post_reveal_upgrade_rate c;
  web_album_share_rate := web_album_share_rate c;
  non_app_viewers_per_share := non_app_viewers_per_share c;
  web_viewer_download_rate := web_viewer_download_rate c;
  download_to_install_rate := download_to_install_rate c;
  new_install_becomes_host_rate := new_install_becomes_host_rate c;
  host_monthly_retention := host_monthly_retention c;
  premium_price_gbp := x
|}.

Record MonthlyMetrics : Type := {
  month : Z;
  total_hosts : Z;
  active_hosts : Z;
  total_app_users : Z;
  events_created : Z;
  total_attendees : Z;
  new_app_installs_from_events : Z;
  premium_upgrades : Z;
  revenue_gbp : float;
  cumulative_revenue_gbp : float;
  web_albums_shared : Z;
  web_album_views : Z;
  web_downloads : Z;
  installs_from_web : Z;
  new_hosts_from_web : Z;
  conversion_rate : number;
  viral_coefficient : number
}.

(** The variables the loop carries from one month to the next. *)
Record running : Type := {
  r_total_hosts : Z;
  r_active_hosts : Z;
  r_total_app_users : Z;
  r_cumulative_revenue : float
}.

Definition initial (config : SimulationConfig) : running := {|
  r_total_hosts := initial_hosts config;
  r_active_hosts := initial_hosts config;
  r_total_app_users := initial_hosts config;
  r_cumulative_revenue := S754_zero false
|}.

(** The body of the [for month in range(1, months + 1)] loop. *)
Definition simulate_month (config : SimulationConfig) (st : running) (m : Z)
  : result (MonthlyMetrics * running) :=
  (* Event creation *)
  x <- int_mul_float (r_active_hosts st) (events_per_host_per_month config) ;;
  events <- int_of_float x ;;
  let attendees := events * avg_attendees_per_event config in
  y <- int_sub_float 1 (attendees_already_have_app config) ;;
  x <- int_mul_float attendees y ;;
  new_attendees_without_app <- int_of_float x ;;
  x <- int_mul_float new_attendees_without_app (literal 6 1) ;;
  new_installs_from_events <- int_of_float x ;;
  (* Monetization *)
  x <- int_mul_float events (post_reveal_upgrade_rate config) ;;
  upgrades <- int_of_float x ;;
  revenue <- int_mul_float upgrades (premium_price_gbp config) ;;
  let cumulative_revenue := float_add (r_cumulative_revenue st) revenue in
  (* Web album growth loop *)
  x <- int_mul_float upgrades (web_album_share_rate config) ;;
  shared <- int_of_float x ;;
  let views := shared * non_app_viewers_per_share config in
  x <- int_mul_float views (web_viewer_download_rate config) ;;
  downloads <- int_of_float x ;;
  x <- int_mul_float downloads (download_to_install_rate config) ;;
  web_installs <- int_of_float x ;;
  x <- int_mul_float web_installs (new_install_becomes_host_rate config) ;;
  web_hosts <- int_of_float x ;;
  (* Update totals *)
  x <- int_mul_float (r_active_hosts st) (host_monthly_retention config) ;;
  retained <- int_of_float x ;;
  x <- int_mul_float new_installs_from_events (literal 2 1) ;;
  new_hosts_from_events <- int_of_float x ;;
  let new_hosts := web_hosts + new_hosts_from_events in
  let total := r_total_hosts st + new_hosts in
  let active := retained + new_hosts in
  let app_users := r_total_app_users st + (new_installs_from_events + web_installs) in
  (* Derived metrics *)
  conversion <- (if events >? 0
                 then q <- int_truediv upgrades events ;; Ok (Float q)
                 else Ok (Int 0)) ;;
  viral <- (if active - new_hosts >? 0
            then q <- int_truediv new_hosts (active - new_hosts) ;; Ok (Float q)
            else Ok (Int 0)) ;;
  Ok ({| month := m;
         total_hosts := total;
         active_hosts := active;
         total_app_users := app_users;
         events_created := events;
         total_attendees := attendees;
         new_app_installs_from_events := new_installs_from_events;
         premium_upgrades := upgrades;
         revenue_gbp := revenue;
         cumulative_revenue_gbp := cumulative_revenue;
         web_albums_shared := shared;
         web_album_views := views;
         web_downloads := downloads;
         installs_from_web := web_installs;
         new_hosts_from_web := web_hosts;
         conversion_rate := conversion;
         viral_coefficient := viral |},
      {| r_total_hosts := total;
         r_active_hosts := active;
         r_total_app_users := app_users;
         r_cumulative_revenue := cumulative_revenue |}).

Definition run_simulation (config : SimulationConfig) (months : Z)
  : result (list MonthlyMetrics) :=
  for_each (simulate_month config) (range 1 (months + 1)) (initial config) [].

(** The loop variables as a record shows them once its month is over. *)
Definition running_after (r : MonthlyMetrics) : running := {|
  r_total_hosts := total_hosts r;
  r_active_hosts := active_hosts r;
  r_total_app_users := total_app_users r;
  r_cumulative_revenue := cumulative_revenue_gbp r
|}.

(** The running state entering the month of the record at position [i]
    (from 0) of a run's output. *)
Definition entering (config : SimulationConfig) (rs : list MonthlyMetrics) (i : nat)
  : running :=
  state_before running_after (initial config) rs i.

Definition with_month (m : Z) (r : MonthlyMetrics) : MonthlyMetrics := {|
  month := m;
  total_hosts := total_hosts r;
  active_hosts := active_hosts r;
  total_app_users := total_app_users r;
  events_created := events_created r;
  total_attendees := total_attendees r;
  new_app_installs_from_events := new_app_installs_from_events r;
  premium_upgrades := premium_upgrades r;
  revenue_gbp := revenue_gbp r;
  cumulative_revenue_gbp := cumulative_revenue_gbp r;
  web_albums_shared := web_albums_shared r;
  web_album_views := web_album_views r;
  web_downloads := web_downloads r;
  installs_from_web := installs_from_web r;
  new_hosts_from_web := new_hosts_from_web r;
  conversion_rate := conversion_rate r;
  viral_coefficient := viral_coefficient r
|}.

(** A configuration out of which nothing negative can come: counts and
    rates are not negative (nor NaN), at most all the attendees have the app
    already, and the price is finite. *)
Definition non_negative (c : SimulationConfig) : bool :=
  (0 <=? initial_hosts c) && (0 <=? avg_attendees_per_event c)
  && (0 <=? non_app_viewers_per_share c)
  && float_le zero (events_per_host_per_month c)
  && valid (attendees_already_have_app c)
  && float_le (attendees_already_have_app c) one
  && float_le zero (post_reveal_upgrade_rate c)
  && float_le zero (web_album_share_rate c)
  && float_le zero (web_viewer_download_rate c)
  && float_le zero (download_to_install_rate c)
  && float_le zero (new_install_becomes_host_rate c)
  && float_le zero (host_monthly_retention c)
  && float_le zero (premium_price_gbp c)
  && is_finite (premium_price_gbp c).

(** A rate that is a share of something: a number between 0 and 1. *)
Definition share (x : float) : bool :=
  valid x && float_le zero x && float_le x one.

(** The rates of the premium and web-album funnel are all shares. *)
Definition funnel_rates_are_shares (c : SimulationConfig) : bool :=
  share (post_reveal_upgrade_rate c) && share (web_album_share_rate c)
  && share (web_viewer_download_rate c) && share (download_to_install_rate c)
  && share (new_install_becomes_host_rate c).

(** The app installs a month adds, from events and from the web album. *)
Definition new_installs (r : MonthlyMetrics) : Z :=
  new_app_installs_from_events r + installs_from_web r.

(** The web-album chain as the specification words it: upgrades, shares,
    views, downloads, installs, new hosts, each population truncated right
    after its own step.  Returns (shares, views, downloads, installs,
    new hosts). *)
Definition web_album_chain (config : SimulationConfig) (upgrades : Z)
  : result (Z * Z * Z * Z * Z) :=
  shares <- truncated_product upgrades (web_album_share_rate config) ;;
  let views := shares * non_app_viewers_per_share config in
  downloads <- truncated_product views (web_viewer_download_rate config) ;;
  installs <- truncated_product downloads (download_to_install_rate config) ;;
  new_hosts <- truncated_product installs (new_install_becomes_host_rate config) ;;
  Ok (shares, views, downloads, installs, new_hosts).

(** The same chain with the truncations left out until the very end. *)
Definition web_album_chain_truncated_once (config : SimulationConfig) (upgrades : Z)
  : result Z :=
  x <- int_mul_float upgrades (web_album_share_rate config) ;;
  x <- float_mul_int x (non_app_viewers_per_share config) ;;
  let x := float_mul x (web_viewer_download_rate config) in
  let x := float_mul x (download_to_install_rate config) in
  let x := float_mul x (new_install_becomes_host_rate config) in
  int_of_float x.

(** [calculate_ltv_and_cac_ceiling(config)] *)
Definition calculate_ltv_and_cac_ceiling (config : SimulationConfig)
  : result (list (string * float)) :=
  avg_events_per_host_lifetime <- float_mul_int (events_per_host_per_month config) 6 ;;
  let avg_upgrades_per_host :=
    float_mul avg_events_per_host_lifetime (post_reveal_upgrade_rate config) in
  let ltv := float_mul avg_upgrades_per_host (premium_price_gbp config) in
  remainder <- int_sub_float 1 (literal 1 1) ;;
  viral_multiplier <- int_div_float 1 remainder ;;
  let adjusted_ltv := float_mul ltv viral_multiplier in
  cac_ceiling <- float_div_int adjusted_ltv 3 ;;
  Ok [("ltv_direct"%string, ltv);
      ("viral_multiplier"%string, viral_multiplier);
      ("ltv_with_virality"%string, adjusted_ltv);
      ("cac_ceiling_3to1"%string, cac_ceiling)].

End Growth.

(** ** gtm_simulation.py *)

Module Gtm.
Import Py.
Local Open Scope string_scope.
Local Open Scope Z_scope.

Record GTMConfig : Type := {
  (* Phase 1: seed *)
  seed_users : Z;
  seed_events_per_user_per_month : float;
  seed_avg_group_size : Z;
  seed_upgrade_rate : float;
  (* Phase 2: Hijack B2B *)
  hijack_attendees_per_rave : Z;
  hijack_raves_per_month : Z;
  hijack_app_install_rate : float;
  hijack_upgrade_rate : float;
  hijack_becomes_host_rate : float;
  hijack_monthly_fee : float;
  (* Phase 3: TikTok/UGC *)
  tiktok_monthly_installs_low : Z;
  tiktok_monthly_installs_mid : Z;
  tiktok_monthly_installs_high : Z;
  tiktok_install_to_host_rate : float;
  tiktok_upgrade_rate : float;
  (* Phase 4: festival *)
  festival_attendees : Z;
  festival_app_install_rate : float;
  festival_becomes_host_rate : float;
  festival_fee : float;
  (* General parameters *)
  premium_price : float;
  monthly_churn_rate : float;
  events_per_host_per_month : float;
  avg_group_size : Z;
  general_upgrade_rate : float;
  (* Web album loop *)
  web_share_rate : float;
  web_viewers_per_share : Z;
  web_download_rate : float;
  web_download_to_install : float;
  web_install_to_host : float
}.

(** [GTMConfig()] *)
Definition default_config : GTMConfig := {|
  seed_users := 50;
  seed_events_per_user_per_month := literal 12 1;
  seed_avg_group_size := 8;
  seed_upgrade_rate := literal 35 2;
  hijack_attendees_per_rave := 400;
  hijack_raves_per_month := 2;
  hijack_app_install_rate := literal 25 2;
  hijack_upgrade_rate := literal 0 1;
  hijack_becomes_host_rate := literal 5 2;
  hijack_monthly_fee := literal 0 1;
  tiktok_monthly_installs_low := 50;
  tiktok_monthly_installs_mid := 200;
  tiktok_monthly_installs_high := 1000;
  tiktok_install_to_host_rate := literal 15 2;
  tiktok_upgrade_rate := literal 20 2;
  festival_attendees := 5000;
  festival_app_install_rate := literal 10 2;
  festival_becomes_host_rate := literal 3 2;
  festival_fee := literal 0 1;
  premium_price := literal 799 2;
  monthly_churn_rate := literal 15 2;
  events_per_host_per_month := literal 6 1;
  avg_group_size := 6;
  general_upgrade_rate := literal 25 2;
  web_share_rate := literal 70 2;
  web_viewers_per_share := 5;
  web_download_rate := literal 40 2;
  web_download_to_install := literal 15 2;
  web_install_to_host := literal 25 2
|}.

Record MonthData : Type := {
  month : Z;
  phase : string;
  new_users_from_seed : Z;
  new_users_from_b2b : Z;
  new_users_from_tiktok : Z;
  new_users_from_festival : Z;
  total_users : Z;
  active_users : Z;
  events_created : Z;
  premium_upgrades : Z;
  revenue : float;
  cumulative_revenue : float;
  web_album_views : Z;
  installs_from_web : Z
}.

(** The user pools, host counts and revenue total carried by the loop. *)
Record running : Type := {
  r_seed_users : Z;
  r_b2b_users : Z;
  r_tiktok_users : Z;
  r_festival_users : Z;
  r_web_loop_users : Z;
  r_seed_hosts : Z;
  r_organic_hosts : Z;
  r_cumulative_revenue : float
}.

Definition initial : running := {|
  r_seed_users := 0;
  r_b2b_users := 0;
  r_tiktok_users := 0;
  r_festival_users := 0;
  r_web_loop_users := 0;
  r_seed_hosts := 0;
  r_organic_hosts := 0;
  r_cumulative_revenue := S754_zero false
|}.

(** The dictionary lookup [{"low": .., "mid": .., "high": ..}[tiktok_scenario]]. *)
Definition tiktok_preset (config : GTMConfig) (tiktok_scenario : string) : result Z :=
  if String.eqb tiktok_scenario "low" then Ok (tiktok_monthly_installs_low config)
  else if String.eqb tiktok_scenario "mid" then Ok (tiktok_monthly_installs_mid config)
  else if String.eqb tiktok_scenario "high" then Ok (tiktok_monthly_installs_high config)
  else Raise KeyError.

(** What the phase branches write: the phase name and the four
    [new_users_from_*] fields of the month's record. *)
Record inputs : Type := {
  i_phase : string;
  i_seed : Z;
  i_b2b : Z;
  i_tiktok : Z;
  i_festival : Z
}.

(** [int(attendees_per_rave * raves_per_month * app_install_rate)] *)
Definition rave_installs (config : GTMConfig) : result Z :=
  x <- int_mul_float (hijack_attendees_per_rave config * hijack_raves_per_month config)
                     (hijack_app_install_rate config) ;;
  int_of_float x.

(** The [if month <= 2 / elif month <= 4 / elif month <= 6 / else] chain. *)
Definition acquire (config : GTMConfig) (tiktok_installs : Z) (st : running) (m : Z)
  : result (inputs * running) :=
  if m <=? 2 then
    if m =? 1 then
      Ok ({| i_phase := "Seed (Friends)"; i_seed := seed_users config;
             i_b2b := 0; i_tiktok := 0; i_festival := 0 |},
          {| r_seed_users := seed_users config;
             r_b2b_users := r_b2b_users st;
             r_tiktok_users := r_tiktok_users st;
             r_festival_users := r_festival_users st;
             r_web_loop_users := r_web_loop_users st;
             r_seed_hosts := seed_users config;
             r_organic_hosts := r_organic_hosts st;
             r_cumulative_revenue := r_cumulative_revenue st |})
    else
      Ok ({| i_phase := "Seed (Friends)"; i_seed := 0;
             i_b2b := 0; i_tiktok := 0; i_festival := 0 |}, st)
  else if m <=? 4 then
    installs <- rave_installs config ;;
    x <- int_mul_float installs (hijack_becomes_host_rate config) ;;
    new_hosts_from_b2b <- int_of_float x ;;
    Ok ({| i_phase := "Hijack B2B"; i_seed := 0;
           i_b2b := installs; i_tiktok := 0; i_festival := 0 |},
        {| r_seed_users := r_seed_users st;
           r_b2b_users := r_b2b_users st + installs;
           r_tiktok_users := r_tiktok_users st;
           r_festival_users := r_festival_users st;
           r_web_loop_users := r_web_loop_users st;
           r_seed_hosts := r_seed_hosts st;
           r_organic_hosts := r_organic_hosts st + new_hosts_from_b2b;
           r_cumulative_revenue := r_cumulative_revenue st |})
  else if m <=? 6 then
    let ramp_factor := if m =? 5 then literal 5 1 else literal 10 1 in
    x <- int_mul_float tiktok_installs ramp_factor ;;
    monthly_tiktok <- int_of_float x ;;
    x <- int_mul_float monthly_tiktok (tiktok_install_to_host_rate config) ;;
    new_hosts_from_tiktok <- int_of_float x ;;
    Ok ({| i_phase := "TikTok/UGC"; i_seed := 0;
           i_b2b := 0; i_tiktok := monthly_tiktok; i_festival := 0 |},
        {| r_seed_users := r_seed_users st;
           r_b2b_users := r_b2b_users st;
           r_tiktok_users := r_tiktok_users st + monthly_tiktok;
           r_festival_users := r_festival_users st;
           r_web_loop_users := r_web_loop_users st;
           r_seed_hosts := r_seed_hosts st;
           r_organic_hosts := r_organic_hosts st + new_hosts_from_tiktok;
           r_cumulative_revenue := r_cumulative_revenue st |})
  else
    x <- int_mul_float tiktok_installs (tiktok_install_to_host_rate config) ;;
    new_hosts_from_tiktok <- int_of_float x ;;
    let tiktok_users := r_tiktok_users st + tiktok_installs in
    let organic_hosts := r_organic_hosts st + new_hosts_from_tiktok in
    if m =? 7 then
      x <- int_mul_float (festival_attendees config) (festival_app_install_rate config) ;;
      festival_installs <- int_of_float x ;;
      x <- int_mul_float festival_installs (festival_becomes_host_rate config) ;;
      new_hosts_from_festival <- int_of_float x ;;
      Ok ({| i_phase := "Festival + TikTok"; i_seed := 0;
             i_b2b := 0; i_tiktok := tiktok_installs; i_festival := festival_installs |},
          {| r_seed_users := r_seed_users st;
             r_b2b_users := r_b2b_users st;
             r_tiktok_users := tiktok_users;
             r_festival_users := r_festival_users st + festival_installs;
             r_web_loop_users := r_web_loop_users st;
             r_seed_hosts := r_seed_hosts st;
             r_organic_hosts := organic_hosts + new_hosts_from_festival;
             r_cumulative_revenue := r_cumulative_revenue st |})
    else
      Ok ({| i_phase := "Festival + TikTok"; i_seed := 0;
             i_b2b := 0; i_tiktok := tiktok_installs; i_festival := 0 |},
          {| r_seed_users := r_seed_users st;
             r_b2b_users := r_b2b_users st;
             r_tiktok_users := tiktok_users;
             r_festival_users := r_festival_users st;
             r_web_loop_users := r_web_loop_users st;
             r_seed_hosts := r_seed_hosts st;
             r_organic_hosts := organic_hosts;
             r_cumulative_revenue := r_cumulative_revenue st |}).

(** The [if month > 4] block: B2B continues, with a second partner from
    month 7, and overwrites [new_users_from_b2b]. *)
Definition continue_b2b (config : GTMConfig) (inp : inputs) (st : running) (m : Z)
  : result (inputs * running) :=
  if m >? 4 then
    let partners := if m <=? 6 then 1 else 2 in
    x <- int_mul_float (hijack_attendees_per_rave config * hijack_raves_per_month config)
                       (hijack_app_install_rate config) ;;
    x <- float_mul_int x partners ;;
    installs <- int_of_float x ;;
    x <- int_mul_float installs (hijack_becomes_host_rate config) ;;
    new_hosts_from_b2b <- int_of_float x ;;
    Ok ({| i_phase := i_phase inp; i_seed := i_seed inp;
           i_b2b := installs; i_tiktok := i_tiktok inp; i_festival := i_festival inp |},
        {| r_seed_users := r_seed_users st;
           r_b2b_users := r_b2b_users st + installs;
           r_tiktok_users := r_tiktok_users st;
           r_festival_users := r_festival_users st;
           r_web_loop_users := r_web_loop_users st;
           r_seed_hosts := r_seed_hosts st;
           r_organic_hosts := r_organic_hosts st + new_hosts_from_b2b;
           r_cumulative_revenue := r_cumulative_revenue st |})
  else Ok (inp, st).

(** The body of the [for month in range(1, months + 1)] loop. *)
Definition simulate_month (config : GTMConfig) (tiktok_installs : Z) (st0 : running) (m : Z)
  : result (MonthData * running) :=
  '(inp, st) <- acquire config tiktok_installs st0 m ;;
  '(inp, st) <- continue_b2b config inp st m ;;
  (* Apply churn *)
  x <- Ok (float_mul (monthly_churn_rate config) (literal 5 1)) ;;
  y <- int_sub_float 1 x ;;
  x <- int_mul_float (r_seed_hosts st) y ;;
  seed_hosts <- int_of_float x ;;
  y <- int_sub_float 1 (monthly_churn_rate config) ;;
  x <- int_mul_float (r_organic_hosts st) y ;;
  organic_hosts <- int_of_float x ;;
  (* Events created *)
  x <- int_mul_float seed_hosts (seed_events_per_user_per_month config) ;;
  seed_events <- int_of_float x ;;
  x <- int_mul_float organic_hosts (events_per_host_per_month config) ;;
  organic_events <- int_of_float x ;;
  let total_events := seed_events + organic_events in
  (* Upgrades and revenue *)
  x <- int_mul_float seed_events (seed_upgrade_rate config) ;;
  seed_upgrades <- int_of_float x ;;
  x <- int_mul_float organic_events (general_upgrade_rate config) ;;
  organic_upgrades <- int_of_float x ;;
  let total_upgrades := seed_upgrades + organic_upgrades in
  rev <- int_mul_float total_upgrades (premium_price config) ;;
  let cumulative := float_add (r_cumulative_revenue st) rev in
  (* Web album loop *)
  x <- int_mul_float total_upgrades (web_share_rate config) ;;
  web_albums_shared <- int_of_float x ;;
  let web_views := web_albums_shared * web_viewers_per_share config in
  x <- int_mul_float web_views (web_download_rate config) ;;
  web_downloads <- int_of_float x ;;
  x <- int_mul_float web_downloads (web_download_to_install config) ;;
  web_installs <- int_of_float x ;;
  x <- int_mul_float web_installs (web_install_to_host config) ;;
  web_new_hosts <- int_of_float x ;;
  let web_loop_users := r_web_loop_users st + web_installs in
  let organic_hosts := organic_hosts + web_new_hosts in
  (* Total and active users *)
  let total := r_seed_users st + r_b2b_users st + r_tiktok_users st
               + r_festival_users st + web_loop_users in
  x <- int_mul_float (total - seed_hosts - organic_hosts) (literal 3 1) ;;
  non_hosts_active <- int_of_float x ;;
  let active := seed_hosts + organic_hosts + non_hosts_active in
  Ok ({| month := m;
         phase := i_phase inp;
         new_users_from_seed := i_seed inp;
         new_users_from_b2b := i_b2b inp;
         new_users_from_tiktok := i_tiktok inp;
         new_users_from_festival := i_festival inp;
         total_users := total;
         active_users := active;
         events_created := total_events;
         premium_upgrades := total_upgrades;
         revenue := rev;
         cumulative_revenue := cumulative;
         web_album_views := web_views;
         installs_from_web := web_installs |},
      {| r_seed_users := r_seed_users st;
         r_b2b_users := r_b2b_users st;
         r_tiktok_users := r_tiktok_users st;
         r_festival_users := r_festival_users st;
         r_web_loop_users := web_loop_users;
         r_seed_hosts := seed_hosts;
         r_organic_hosts := organic_hosts;
         r_cumulative_revenue := cumulative |}).

Definition run_gtm_simulation (config : GTMConfig) (months : Z) (tiktok_scenario : string)
  : result (list MonthData) :=
  tiktok_installs <- tiktok_preset config tiktok_scenario ;;
  for_each (simulate_month config tiktok_installs) (range 1 (months + 1)) initial [].

(** The four phases of the plan, by month. *)
Definition phase_of_month (m : Z) : string :=
  if m <=? 2 then "Seed (Friends)"
  else if m <=? 4 then "Hijack B2B"
  else if m <=? 6 then "TikTok/UGC"
  else "Festival + TikTok".

(** The users a month's record counts as new, over all channels. *)
Definition new_users (d : MonthData) : Z :=
  new_users_from_seed d + new_users_from_b2b d + new_users_from_tiktok d
  + new_users_from_festival d + installs_from_web d.

(** The users in the five pools. *)
Definition pooled_users (st : running) : Z :=
  r_seed_users st + r_b2b_users st + r_tiktok_users st
  + r_festival_users st + r_web_loop_users st.

(** The part of a month's record that the plan fixes. *)
Record month_plan (config : GTMConfig) (tiktok m : Z) (d : MonthData) : Prop := {
  mp_month : month d = m;
  mp_phase : phase d = phase_of_month m;
  mp_seed : new_users_from_seed d = (if m =? 1 then seed_users config else 0);
  mp_b2b_none : m <= 2 -> new_users_from_b2b d = 0;
  mp_b2b_test : 3 <= m <= 4 -> rave_installs config = Ok (new_users_from_b2b d);
  mp_tiktok_none : m <= 4 -> new_users_from_tiktok d = 0;
  mp_tiktok_ramp :
    m = 5 -> truncated_product tiktok (literal 5 1) = Ok (new_users_from_tiktok d);
  mp_tiktok_first :
    m = 6 -> truncated_product tiktok (literal 10 1) = Ok (new_users_from_tiktok d);
  mp_tiktok_full : 7 <= m -> new_users_from_tiktok d = tiktok;
  mp_festival_none : m <> 7 -> new_users_from_festival d = 0;
  mp_festival :
    m = 7 -> truncated_product (festival_attendees config) (festival_app_install_rate config)
             = Ok (new_users_from_festival d)
}.

(** The keys of the preset dictionary. *)
Definition scenarios : list string := ["low"; "mid"; "high"].

(** A configuration with its three TikTok presets replaced. *)
Definition with_presets (low mid high : Z) (c : GTMConfig) : GTMConfig := {|
  seed_users := seed_users c;
  seed_events_per_user_per_month := seed_events_per_user_per_month c;
  seed_avg_group_size := seed_avg_group_size c;
  seed_upgrade_rate := seed_upgrade_rate c;
  hijack_attendees_per_rave := hijack_attendees_per_rave c;
  hijack_raves_per_month := hijack_raves_per_month c;
  hijack_app_install_rate := hijack_app_install_rate c;
  hijack_upgrade_rate := hijack_upgrade_rate c;
  hijack_becomes_host_rate := hijack_becomes_host_rate c;
  hijack_monthly_fee := hijack_monthly_fee c;
  tiktok_monthly_installs_low := low;
  tiktok_monthly_installs_mid := mid;
  tiktok_monthly_installs_high := high;
  tiktok_install_to_host_rate := tiktok_install_to_host_rate c;
  tiktok_upgrade_rate := tiktok_upgrade_rate c;
  festival_attendees := festival_attendees c;
  festival_app_install_rate := festival_app_install_rate c;
  festival_becomes_host_rate := festival_becomes_host_rate c;
  festival_fee := festival_fee c;
  premium_price := premium_price c;
  monthly_churn_rate := monthly_churn_rate c;
  events_per_host_per_month := events_per_host_per_month c;
  avg_group_size := avg_group_size c;
  general_upgrade_rate := general_upgrade_rate c;
  web_share_rate := web_share_rate c;
  web_viewers_per_share := web_viewers_per_share c;
  web_download_rate := web_download_rate c;
  web_download_to_install := web_download_to_install c;
  web_install_to_host := web_install_to_host c
|}.

(** The targets of [print_milestones]. *)
Definition milestones : list (Z * string) :=
  [(100, "users"); (500, "users"); (1000, "users"); (5000, "users");
   (1000, "revenue"); (5000, "revenue"); (10000, "revenue")].

(** [m.total_users if metric == "users" else m.cumulative_revenue] *)
Definition milestone_value (metric : string) (m : MonthData) : number :=
  if String.eqb metric "users" then Int (total_users m)
  else Float (cumulative_revenue m).

(** The inner [for m in results: ... break] of [print_milestones]: the record
    at which the loop breaks, [None] when it runs into its [else]. *)
Fixpoint first_reaching (target : Z) (metric : string) (results : list MonthData)
  : option MonthData :=
  match results with
  | [] => None
  | m :: rest =>
      if number_ge_int (milestone_value metric m) target then Some m
      else first_reaching target metric rest
  end.

(** The rows of the table of [print_milestones], before they are laid out
    as text: the target, its metric, and the month and phase printed, [None]
    standing for the row "N/A", "Not reached". *)
Definition print_milestones (results : list MonthData)
  : list (Z * string * option (Z * string)) :=
  map (fun '(target, metric) =>
         (target, metric,
          match first_reaching target metric results with
          | Some m => Some (month m, phase m)
          | None => None
          end))
      milestones.

End Gtm.

(** * Properties *)

(** ** The error monad and the loop *)

Module PyFacts.
Import Py.

Lemma bind_ok {A B : Type} (c : result A) (k : A -> result B) (v : B) :
  bind c k = Ok v -> exists a, c = Ok a /\ k a = Ok v.
Proof.
  destruct c as [a|e]; simpl; intros H; [eauto | discriminate].
Qed.

Lemma bind_raise {A B : Type} (c : result A) (k : A -> result B) (e : exn) :
  bind c k = Raise e -> c = Raise e \/ exists a, c = Ok a /\ k a = Raise e.
Proof.
  destruct c as [a|e']; simpl; intros H; [right; eauto | left; inversion H; reflexivity].
Qed.

Lemma truncated_product_ok n rate v :
  truncated_product n rate = Ok v <->
  exists x, int_mul_float n rate = Ok x /\ int_of_float x = Ok v.
Proof.
  unfold truncated_product. split.
  - apply bind_ok.
  - intros (x & -> & H). exact H.
Qed.

(** The conversions raise [OverflowError] or [ValueError] and nothing else. *)
Definition conversion_error (e : exn) : Prop := e = OverflowError \/ e = ValueError.

Lemma float_of_int_raise z e : float_of_int z = Raise e -> e = OverflowError.
Proof.
  unfold float_of_int. destruct (round_int z); intros H; inversion H; reflexivity.
Qed.

Lemma int_of_float_raise x e : int_of_float x = Raise e -> conversion_error e.
Proof.
  unfold conversion_error.
  destruct x; simpl; intros H; inversion H; auto.
Qed.

Lemma int_mul_float_raise a x e : int_mul_float a x = Raise e -> conversion_error e.
Proof.
  unfold int_mul_float. intros H.
  destruct (bind_raise _ _ _ H) as [H1 | (fa & _ & H1)].
  - left. eapply float_of_int_raise; eassumption.
  - discriminate.
Qed.

Lemma float_mul_int_raise x a e : float_mul_int x a = Raise e -> conversion_error e.
Proof.
  unfold float_mul_int. intros H.
  destruct (bind_raise _ _ _ H) as [H1 | (fa & _ & H1)].
  - left. eapply float_of_int_raise; eassumption.
  - discriminate.
Qed.

Lemma int_sub_float_raise a x e : int_sub_float a x = Raise e -> conversion_error e.
Proof.
  unfold int_sub_float. intros H.
  destruct (bind_raise _ _ _ H) as [H1 | (fa & _ & H1)].
  - left. eapply float_of_int_raise; eassumption.
  - discriminate.
Qed.

Lemma truncated_product_raise n rate e :
  truncated_product n rate = Raise e -> conversion_error e.
Proof.
  unfold truncated_product. intros H.
  destruct (bind_raise _ _ _ H) as [H1 | (x & _ & H1)].
  - eapply int_mul_float_raise; eassumption.
  - eapply int_of_float_raise; eassumption.
Qed.

(** True division of integers raises [ZeroDivisionError] on a zero
    denominator only. *)
Lemma int_truediv_raise a b e :
  b <> 0 -> int_truediv a b = Raise e -> conversion_error e.
Proof.
  unfold int_truediv. intros Hb.
  destruct (Z.eqb_spec b 0) as [?|_]; [contradiction|].
  destruct (round_quotient a b); intros H; inversion H. left; reflexivity.
Qed.

Lemma int_truediv_ok a b q :
  int_truediv a b = Ok q -> q = round_quotient a b.
Proof.
  unfold int_truediv. destruct (b =? 0); [discriminate|].
  destruct (round_quotient a b); intros H; inversion H; reflexivity.
Qed.

Lemma range_length lo hi : List.length (range lo hi) = Z.to_nat (hi - lo).
Proof.
  unfold range. now rewrite length_map, length_seq.
Qed.

Lemma range_nth_error lo hi i :
  (i < Z.to_nat (hi - lo))%nat -> nth_error (range lo hi) i = Some (lo + Z.of_nat i).
Proof.
  intros Hi. unfold range.
  rewrite nth_error_map, nth_error_seq.
  destruct (Nat.ltb_spec i (Z.to_nat (hi - lo))); [reflexivity | lia].
Qed.

Lemma range_empty lo hi : hi <= lo -> range lo hi = [].
Proof.
  intros H. unfold range. replace (Z.to_nat (hi - lo)) with O by lia. reflexivity.
Qed.

Section LoopFacts.
Context {S R : Type}.
Variable body : S -> Z -> result (R * S).

Lemma for_each_iterations ms : forall st acc rs,
  iterations body ms st rs -> for_each body ms st acc = Ok (acc ++ rs).
Proof.
  induction ms as [|m ms IH]; intros st acc rs H;
    inversion H as [|? ? ? r st' rs' Hb Hrest]; subst; simpl.
  - now rewrite app_nil_r.
  - rewrite Hb. simpl. rewrite (IH _ _ _ Hrest), <- app_assoc. reflexivity.
Qed.

Lemma for_each_ok ms : forall st acc out,
  for_each body ms st acc = Ok out ->
  exists rs, out = acc ++ rs /\ iterations body ms st rs.
Proof.
  induction ms as [|m ms IH]; intros st acc out H; simpl in H.
  - inversion H; subst. exists []. split; [now rewrite app_nil_r | constructor].
  - apply bind_ok in H. destruct H as ([r st'] & Hb & H). simpl in H.
    destruct (IH _ _ _ H) as (rs & -> & Hrs).
    exists (r :: rs). split.
    + now rewrite <- app_assoc.
    + econstructor; eassumption.
Qed.

Lemma for_each_raise ms : forall st acc e,
  for_each body ms st acc = Raise e ->
  exists st' m, In m ms /\ body st' m = Raise e.
Proof.
  induction ms as [|m ms IH]; intros st acc e H; simpl in H; [discriminate|].
  destruct (bind_raise _ _ _ H) as [H1 | ([r st'] & _ & H1)].
  - exists st, m. split; [left; reflexivity | assumption].
  - destruct (IH _ _ _ H1) as (st'' & m' & Hin & Hb).
    exists st'', m'. split; [right; assumption | assumption].
Qed.

(** A loop that runs to the end of a list also runs to the end of each
    of its prefixes. *)
Lemma iterations_firstn ms : forall st rs n,
  iterations body ms st rs -> iterations body (firstn n ms) st (firstn n rs).
Proof.
  induction ms as [|m ms IH]; intros st rs n H;
    inversion H as [|? ? ? r st' rs' Hb Hrest]; subst.
  - rewrite !firstn_nil. constructor.
  - destruct n; simpl; [constructor|]. econstructor; eauto.
Qed.

Lemma iterations_length ms : forall st rs,
  iterations body ms st rs -> List.length rs = List.length ms.
Proof.
  induction ms as [|m ms IH]; intros st rs H;
    inversion H as [|? ? ? r st' rs' Hb Hrest]; subst; simpl; auto.
  f_equal. eauto.
Qed.

Lemma iterations_In ms : forall st rs r,
  iterations body ms st rs -> In r rs ->
  exists st0 m st1, In m ms /\ body st0 m = Ok (r, st1).
Proof.
  induction ms as [|m ms IH]; intros st rs r H Hin;
    inversion H as [|? ? ? r' st' rs' Hb' Hrest]; subst.
  - destruct Hin.
  - destruct Hin as [->|Hin].
    + exists st, m, st'. split; [left; reflexivity | assumption].
    + destruct (IH _ _ _ Hrest Hin) as (st0 & m0 & st1 & Hm & Hb).
      exists st0, m0, st1. split; [right; assumption | assumption].
Qed.

(** When a record shows the loop variables its iteration leaves
    ([after]), the state an iteration starts from is read off the record
    before it. *)
Variable after : R -> S.
Hypothesis body_after : forall st m r st', body st m = Ok (r, st') -> st' = after r.

Lemma iterations_nth ms : forall st rs i r,
  iterations body ms st rs -> nth_error rs i = Some r ->
  exists m, nth_error ms i = Some m /\
            body (state_before after st rs i) m = Ok (r, after r).
Proof.
  induction ms as [|m ms IH]; intros st rs i r H Hi;
    inversion H as [|? ? ? r' st' rs' Hb' Hrest]; subst.
  - destruct i; discriminate.
  - pose proof (body_after _ _ _ _ Hb') as ->.
    destruct i as [|i]; simpl in Hi.
    + inversion Hi; subst. exists m. split; [reflexivity | assumption].
    + destruct (IH _ _ _ _ Hrest Hi) as (m' & Hm' & Hb).
      exists m'. split; [assumption|].
      destruct i as [|i]; [exact Hb|].
      cbn [state_before nth_error] in Hb |- *.
      destruct (nth_error rs' i) eqn:Hprev; [assumption|].
      apply nth_error_None in Hprev.
      assert (Hnone : nth_error rs' (Datatypes.S i) = None)
        by (apply nth_error_None; lia).
      congruence.
Qed.
End LoopFacts.

End PyFacts.

(** ** One month of the growth simulation *)

Module GrowthFacts.
Import Py PyFacts Growth.

(** Everything a month's record says, in terms of the configuration and
    the running state the month started from. *)
Record month_facts (config : SimulationConfig) (st : running) (m : Z)
    (r : MonthlyMetrics) : Prop := {
  mf_month : month r = m;
  mf_events :
    truncated_product (r_active_hosts st) (events_per_host_per_month config)
    = Ok (events_created r);
  mf_attendees :
    total_attendees r = events_created r * avg_attendees_per_event config;
  mf_installs : exists y without_app,
    int_sub_float 1 (attendees_already_have_app config) = Ok y /\
    truncated_product (total_attendees r) y = Ok without_app /\
    truncated_product without_app (literal 6 1) = Ok (new_app_installs_from_events r);
  mf_upgrades :
    truncated_product (events_created r) (post_reveal_upgrade_rate config)
    = Ok (premium_upgrades r);
  mf_revenue :
    int_mul_float (premium_upgrades r) (premium_price_gbp config) = Ok (revenue_gbp r);
  mf_cumulative :
    cumulative_revenue_gbp r = float_add (r_cumulative_revenue st) (revenue_gbp r);
  mf_chain :
    web_album_chain config (premium_upgrades r)
    = Ok (web_albums_shared r, web_album_views r, web_downloads r,
          installs_from_web r, new_hosts_from_web r);
  mf_hosts : exists retained from_events,
    truncated_product (r_active_hosts st) (host_monthly_retention config) = Ok retained /\
    truncated_product (new_app_installs_from_events r) (literal 2 1) = Ok from_events /\
    total_hosts r = r_total_hosts st + (new_hosts_from_web r + from_events) /\
    active_hosts r = retained + (new_hosts_from_web r + from_events) /\
    viral_coefficient r = guarded_ratio (new_hosts_from_web r + from_events) retained;
  mf_app_users :
    total_app_users r
    = r_total_app_users st + (new_app_installs_from_events r + installs_from_web r);
  mf_conversion :
    conversion_rate r = guarded_ratio (premium_upgrades r) (events_created r)
}.

Ltac open_bind H :=
  let a := fresh "v" in
  let E := fresh "E" in
  apply bind_ok in H; destruct H as (a & E & H).

Lemma guarded_ok (a b : Z) (v : number) :
  (if b >? 0 then q <- int_truediv a b ;; Ok (Float q) else Ok (Int 0)) = Ok v ->
  v = guarded_ratio a b.
Proof.
  unfold guarded_ratio. destruct (b >? 0); intros H.
  - apply bind_ok in H. destruct H as (q & Hq & H).
    apply int_truediv_ok in Hq. inversion H; subst; reflexivity.
  - inversion H; reflexivity.
Qed.

Lemma simulate_month_ok config st m r st' :
  simulate_month config st m = Ok (r, st') ->
  st' = running_after r /\ month_facts config st m r.
Proof.
  unfold simulate_month. intros H.
  repeat open_bind H.
  inversion H; subst; clear H.
  apply guarded_ok in E21, E22.
  replace (v18 + (v16 + v20) - (v16 + v20)) with v18 in E22 by lia.
  split; [reflexivity|].
  constructor; cbn [month total_hosts active_hosts total_app_users events_created
    total_attendees new_app_installs_from_events premium_upgrades revenue_gbp
    cumulative_revenue_gbp web_albums_shared web_album_views web_downloads
    installs_from_web new_hosts_from_web conversion_rate viral_coefficient].
  - reflexivity.
  - apply truncated_product_ok; eauto.
  - reflexivity.
  - exists v1, v3. repeat split; try assumption; apply truncated_product_ok; eauto.
  - apply truncated_product_ok; eauto.
  - assumption.
  - reflexivity.
  - unfold web_album_chain, truncated_product.
    rewrite E9. cbn [bind]. rewrite E10. cbn [bind].
    rewrite E11. cbn [bind]. rewrite E12. cbn [bind].
    rewrite E13. cbn [bind]. rewrite E14. cbn [bind].
    rewrite E15. cbn [bind]. rewrite E16. reflexivity.
  - exists v18, v20.
    repeat split; try assumption; try (apply truncated_product_ok; eauto).
  - reflexivity.
  - assumption.
Qed.

Lemma simulate_month_after config st m r st' :
  simulate_month config st m = Ok (r, st') -> st' = running_after r.
Proof.
  intros H. apply simulate_month_ok in H. tauto.
Qed.

(** A month raises nothing but the errors of the number conversions: the
    two divisions are guarded. *)
Lemma simulate_month_raise config st m e :
  simulate_month config st m = Raise e -> conversion_error e.
Proof.
  unfold simulate_month. intros H.
  repeat match type of H with
  | bind ?c _ = Raise _ =>
      let a := fresh "v" in
      let E := fresh "E" in
      apply bind_raise in H; destruct H as [H | (a & E & H)];
      [ first [ eapply int_mul_float_raise; eassumption
              | eapply int_of_float_raise; eassumption
              | eapply int_sub_float_raise; eassumption
              | idtac ] | ]
  end.
  - destruct (v0 >? 0) eqn:Hpos; [|discriminate].
    apply bind_raise in H. destruct H as [H | (q & _ & H)]; [|discriminate].
    eapply int_truediv_raise; [|eassumption]. lia.
  - destruct (v18 + (v16 + v20) - (v16 + v20) >? 0) eqn:Hpos; [|discriminate].
    apply bind_raise in H. destruct H as [H | (q & _ & H)]; [|discriminate].
    eapply int_truediv_raise; [|eassumption]. lia.
  - discriminate.
Qed.

End GrowthFacts.

(** ** One month of the go-to-market simulation *)

Module GtmFacts.
Import Py PyFacts Gtm.

Ltac split_raise H :=
  repeat match type of H with
  | Ok _ = Raise _ => discriminate H
  | int_mul_float _ _ = Raise _ => eapply int_mul_float_raise; exact H
  | float_mul_int _ _ = Raise _ => eapply float_mul_int_raise; exact H
  | int_sub_float _ _ = Raise _ => eapply int_sub_float_raise; exact H
  | int_of_float _ = Raise _ => eapply int_of_float_raise; exact H
  | bind _ _ = Raise _ =>
      let a := fresh "v" in
      apply bind_raise in H; destruct H as [H | (a & _ & H)]
  | (if ?b then _ else _) = Raise _ => destruct b
  | (match ?p with (_, _) => _ end) = Raise _ => destruct p
  | _ => progress cbv beta in H
  end.

Lemma rave_installs_raise config e :
  rave_installs config = Raise e -> conversion_error e.
Proof.
  unfold rave_installs. intros H. split_raise H.
Qed.

Lemma acquire_raise config tiktok st m e :
  acquire config tiktok st m = Raise e -> conversion_error e.
Proof.
  unfold acquire. intros H. split_raise H.
  all: eapply rave_installs_raise; eassumption.
Qed.

Lemma continue_b2b_raise config inp st m e :
  continue_b2b config inp st m = Raise e -> conversion_error e.
Proof.
  unfold continue_b2b. intros H. split_raise H.
Qed.

Lemma gtm_month_raise config tiktok st m e :
  simulate_month config tiktok st m = Raise e -> conversion_error e.
Proof.
  unfold simulate_month. intros H.
  apply bind_raise in H. destruct H as [H | ([inp st1] & _ & H)];
    [eapply acquire_raise; eassumption|].
  apply bind_raise in H. destruct H as [H | ([inp' st2] & _ & H)];
    [eapply continue_b2b_raise; eassumption|].
  split_raise H.
Qed.

Ltac open_binds H :=
  repeat match type of H with
  | bind _ _ = Ok _ =>
      let a := fresh "v" in
      let E := fresh "E" in
      apply bind_ok in H; destruct H as (a & E & H)
  | (if ?b then _ else _) = Ok _ => destruct b
  | (match ?p with (_, _) => _ end) = Ok _ => destruct p
  | _ => progress cbv beta in H
  end.

(** The phase branches leave the revenue total alone. *)
Lemma acquire_cumulative config tiktok st m inp st' :
  acquire config tiktok st m = Ok (inp, st') ->
  r_cumulative_revenue st' = r_cumulative_revenue st.
Proof.
  unfold acquire. intros H. open_binds H; inversion H; reflexivity.
Qed.

Lemma continue_b2b_cumulative config inp st m inp' st' :
  continue_b2b config inp st m = Ok (inp', st') ->
  r_cumulative_revenue st' = r_cumulative_revenue st.
Proof.
  unfold continue_b2b. intros H. open_binds H; inversion H; reflexivity.
Qed.

(** The month number, the revenue and the running total of a month's
    record. *)
Lemma gtm_month_ok config tiktok st m d st' :
  simulate_month config tiktok st m = Ok (d, st') ->
  month d = m /\
  int_mul_float (premium_upgrades d) (premium_price config) = Ok (revenue d) /\
  cumulative_revenue d = float_add (r_cumulative_revenue st) (revenue d) /\
  r_cumulative_revenue st' = cumulative_revenue d.
Proof.
  unfold simulate_month. intros H.
  apply bind_ok in H. destruct H as ([inp st1] & Hacq & H).
  apply bind_ok in H. destruct H as ([inp' st2] & Hb2b & H).
  apply acquire_cumulative in Hacq. apply continue_b2b_cumulative in Hb2b.
  open_binds H. inversion H; subst; clear H.
  cbn [month premium_upgrades revenue cumulative_revenue r_cumulative_revenue].
  repeat split; try assumption; congruence.
Qed.

End GtmFacts.

(** ** Whole runs *)

Module RunFacts.
Import Py PyFacts.

Lemma months_range_length months :
  Z.of_nat (List.length (range 1 (months + 1))) = Z.max 0 months.
Proof.
  rewrite range_length. lia.
Qed.

Lemma months_range_nth months i m :
  nth_error (range 1 (months + 1)) i = Some m -> m = Z.of_nat i + 1.
Proof.
  intros H.
  assert (Hi : (i < Z.to_nat (months + 1 - 1))%nat).
  { rewrite <- range_length. apply nth_error_Some. congruence. }
  rewrite (range_nth_error _ _ _ Hi) in H.
  assert (Hm : m = 1 + Z.of_nat i) by congruence. lia.
Qed.

Lemma firstn_seq_le n : forall a len,
  (n <= len)%nat -> firstn n (seq a len) = seq a n.
Proof.
  induction n as [|n IH]; intros a len Hle; [reflexivity|].
  destruct len as [|len]; [lia|]. simpl. f_equal. apply IH. lia.
Qed.

Lemma months_range_prefix months bound :
  months <= bound ->
  range 1 (months + 1) = firstn (Z.to_nat months) (range 1 (bound + 1)).
Proof.
  intros H. unfold range.
  rewrite firstn_map, firstn_seq_le by lia. do 2 f_equal. lia.
Qed.

(** ** growth_simulation.py *)

Lemma growth_ok config months rs :
  Growth.run_simulation config months = Ok rs <->
  iterations (Growth.simulate_month config) (range 1 (months + 1))
             (Growth.initial config) rs.
Proof.
  unfold Growth.run_simulation. split; intros H.
  - apply for_each_ok in H. destruct H as (rs' & -> & H). exact H.
  - apply (for_each_iterations _ _ _ []) in H. exact H.
Qed.

Lemma growth_nth config months rs i r :
  Growth.run_simulation config months = Ok rs ->
  nth_error rs i = Some r ->
  Growth.simulate_month config (Growth.entering config rs i) (Z.of_nat i + 1)
  = Ok (r, Growth.running_after r).
Proof.
  intros H Hi. apply growth_ok in H.
  destruct (iterations_nth _ _ (GrowthFacts.simulate_month_after config)
              _ _ _ _ _ H Hi) as (m & Hm & Hb).
  apply months_range_nth in Hm. subst m. exact Hb.
Qed.

Lemma growth_facts config months rs i r :
  Growth.run_simulation config months = Ok rs ->
  nth_error rs i = Some r ->
  GrowthFacts.month_facts config (Growth.entering config rs i) (Z.of_nat i + 1) r.
Proof.
  intros H Hi.
  apply (GrowthFacts.simulate_month_ok _ _ _ _ _ (growth_nth _ _ _ _ _ H Hi)).
Qed.

Lemma growth_length config months rs :
  Growth.run_simulation config months = Ok rs ->
  Z.of_nat (List.length rs) = Z.max 0 months.
Proof.
  intros H. apply growth_ok in H. apply iterations_length in H.
  rewrite H. apply months_range_length.
Qed.

Lemma growth_raise config months e :
  Growth.run_simulation config months = Raise e -> conversion_error e.
Proof.
  unfold Growth.run_simulation. intros H.
  apply for_each_raise in H. destruct H as (st & m & _ & H).
  eapply GrowthFacts.simulate_month_raise; eassumption.
Qed.

Lemma growth_prefix config months bound rs :
  months <= bound ->
  Growth.run_simulation config bound = Ok rs ->
  Growth.run_simulation config months = Ok (firstn (Z.to_nat months) rs).
Proof.
  intros Hle H. apply growth_ok. apply growth_ok in H.
  rewrite (months_range_prefix _ _ Hle). now apply iterations_firstn.
Qed.

(** ** gtm_simulation.py *)

Lemma gtm_ok config months scenario rs :
  Gtm.run_gtm_simulation config months scenario = Ok rs <->
  exists tiktok, Gtm.tiktok_preset config scenario = Ok tiktok /\
    iterations (Gtm.simulate_month config tiktok) (range 1 (months + 1)) Gtm.initial rs.
Proof.
  unfold Gtm.run_gtm_simulation. split.
  - intros H. apply bind_ok in H. destruct H as (tiktok & Hp & H).
    apply for_each_ok in H. destruct H as (rs' & -> & H). eauto.
  - intros (tiktok & -> & H). simpl.
    apply (for_each_iterations _ _ _ []) in H. exact H.
Qed.

Lemma gtm_length config months scenario rs :
  Gtm.run_gtm_simulation config months scenario = Ok rs ->
  Z.of_nat (List.length rs) = Z.max 0 months.
Proof.
  intros H. apply gtm_ok in H. destruct H as (tiktok & _ & H).
  apply iterations_length in H. rewrite H. apply months_range_length.
Qed.

Lemma gtm_prefix config months bound scenario rs :
  months <= bound ->
  Gtm.run_gtm_simulation config bound scenario = Ok rs ->
  Gtm.run_gtm_simulation config months scenario = Ok (firstn (Z.to_nat months) rs).
Proof.
  intros Hle H. apply gtm_ok. apply gtm_ok in H. destruct H as (tiktok & Hp & H).
  exists tiktok. split; [assumption|].
  rewrite (months_range_prefix _ _ Hle). now apply iterations_firstn.
Qed.

(** Month numbers along a loop over [range(1, months + 1)]. *)
Lemma iterations_months {S R : Type} (body : S -> Z -> result (R * S))
    (month_of : R -> Z)
    (Hmonth : forall st m r st', body st m = Ok (r, st') -> month_of r = m) ms :
  forall st rs i r,
    iterations body ms st rs -> nth_error rs i = Some r ->
    nth_error ms i = Some (month_of r).
Proof.
  induction ms as [|m ms IH]; intros st rs i r H Hi;
    inversion H as [|? ? ? r' st' rs' Hb Hrest]; subst.
  - destruct i; discriminate.
  - destruct i as [|i]; simpl in *.
    + inversion Hi; subst. now rewrite (Hmonth _ _ _ _ Hb).
    + eauto.
Qed.

Lemma gtm_month config months scenario rs i d :
  Gtm.run_gtm_simulation config months scenario = Ok rs ->
  nth_error rs i = Some d -> Gtm.month d = Z.of_nat i + 1.
Proof.
  intros H Hi. apply gtm_ok in H. destruct H as (tiktok & _ & H).
  eapply months_range_nth. eapply iterations_months; try eassumption.
  intros st m r st' Hb. now apply GtmFacts.gtm_month_ok in Hb.
Qed.

(** The revenue total of every record is the float sum of the revenues so
    far, whatever the loop body, as long as it accumulates. *)
Lemma iterations_cumulative {S R : Type} (body : S -> Z -> result (R * S))
    (total : S -> float) (rev cum : R -> float)
    (Hstep : forall st m r st', body st m = Ok (r, st') ->
               cum r = float_add (total st) (rev r) /\ total st' = cum r) ms :
  forall st rs,
    iterations body ms st rs ->
    forall n r, nth_error rs n = Some r ->
      cum r = fold_left float_add (map rev (firstn (Datatypes.S n) rs)) (total st).
Proof.
  induction ms as [|m ms IH]; intros st rs H n r Hn;
    inversion H as [|? ? ? r' st' rs' Hb Hrest]; subst.
  - destruct n; discriminate.
  - destruct (Hstep _ _ _ _ Hb) as [Hcum Htotal].
    destruct n as [|n].
    + simpl in Hn. inversion Hn; subst. simpl. congruence.
    + simpl in Hn. cbn [firstn map fold_left].
      rewrite <- Hcum, <- Htotal. eapply IH; eassumption.
Qed.

End RunFacts.

(** ** Binary64 arithmetic

    Rounding to nearest never crosses a number of the format: what the
    simulations need of it to bound one population by another and to order
    the revenue totals. *)

Module Binary64.
Import Py PyFacts.

Local Abbreviation fexp := (SpecFloat.fexp prec emax).
Local Abbreviation digits m := (Z.pos (digits2_pos m)).

Lemma fexp_eq e : fexp e = Z.max (e - 53) (-1074).
Proof. reflexivity. Qed.

Lemma fexp_mono a b : a <= b -> fexp a <= fexp b.
Proof. rewrite !fexp_eq. lia. Qed.

Lemma digits_bounds p : 2 ^ (digits p - 1) <= Z.pos p < 2 ^ digits p.
Proof.
  induction p as [p IH|p IH|]; cbn [digits2_pos].
  - rewrite Pos2Z.inj_succ. change (Z.pos p~1) with (2 * Z.pos p + 1).
    replace (Z.succ (digits p) - 1) with (Z.succ (digits p - 1)) by lia.
    rewrite !Z.pow_succ_r by lia. lia.
  - rewrite Pos2Z.inj_succ. change (Z.pos p~0) with (2 * Z.pos p).
    replace (Z.succ (digits p) - 1) with (Z.succ (digits p - 1)) by lia.
    rewrite !Z.pow_succ_r by lia. lia.
  - simpl. lia.
Qed.

Lemma digits_le a b k :
  0 <= k -> Z.pos a <= Z.pos b * 2 ^ k -> digits a <= digits b + k.
Proof.
  intros Hk Hle.
  pose proof (digits_bounds a) as [Ha _].
  pose proof (digits_bounds b) as [_ Hb].
  assert (H : 2 ^ (digits a - 1) < 2 ^ (digits b + k)).
  { rewrite Z.pow_add_r by lia.
    assert (0 < 2 ^ k) by (apply Z.pow_pos_nonneg; lia). nia. }
  apply Z.pow_lt_mono_r_iff in H; lia.
Qed.

Lemma digits_ge a k :
  0 <= k -> 2 ^ k <= Z.pos a -> k < digits a.
Proof.
  intros Hk Hle.
  pose proof (digits_bounds a) as [_ Ha].
  assert (H : 2 ^ k < 2 ^ digits a) by lia.
  apply Z.pow_lt_mono_r_iff in H; lia.
Qed.

Lemma digits_lt a k :
  0 <= k -> Z.pos a < 2 ^ k -> digits a <= k.
Proof.
  intros Hk Hlt.
  pose proof (digits_bounds a) as [Ha _].
  assert (H : 2 ^ (digits a - 1) < 2 ^ k) by lia.
  apply Z.pow_lt_mono_r_iff in H; lia.
Qed.

(** *** Right shifts *)

Lemma pow2_pos k : 0 <= k -> 0 < 2 ^ k.
Proof. intros. apply Z.pow_pos_nonneg; lia. Qed.

Lemma div_pow2_add m a b :
  0 <= a -> 0 <= b -> m / 2 ^ a / 2 ^ b = m / 2 ^ (a + b).
Proof.
  intros Ha Hb. rewrite Z.pow_add_r by assumption.
  pose proof (pow2_pos a Ha). pose proof (pow2_pos b Hb).
  rewrite Z.div_div by lia. reflexivity.
Qed.

Lemma mod_pow2_add m a b :
  0 <= a -> 0 <= b -> m mod 2 ^ (a + b) = 0 ->
  m mod 2 ^ a = 0 /\ (m / 2 ^ a) mod 2 ^ b = 0.
Proof.
  intros Ha Hb H.
  pose proof (pow2_pos a Ha). pose proof (pow2_pos b Hb).
  apply Zmod_divides in H; [|rewrite Z.pow_add_r by assumption; nia].
  destruct H as (k & ->). rewrite Z.pow_add_r by assumption.
  replace (2 ^ a * 2 ^ b * k) with ((2 ^ b * k) * 2 ^ a) by ring.
  rewrite Z.mod_mul, Z.div_mul by lia.
  split; [reflexivity|].
  rewrite Z.mul_comm. apply Z.mod_mul. lia.
Qed.

Lemma shr_1_spec mrs :
  0 <= shr_m mrs ->
  shr_m (shr_1 mrs) = shr_m mrs / 2 /\
  (shr_r mrs || shr_s mrs = false -> shr_m mrs mod 2 = 0 ->
   shr_r (shr_1 mrs) || shr_s (shr_1 mrs) = false).
Proof.
  destruct mrs as [m r s]. cbn [shr_m shr_r shr_s]. intros Hm.
  destruct m as [|[p|p|]|p]; cbn [shr_1 shr_m shr_r shr_s orb]; try lia.
  - split; [reflexivity | intros ->; reflexivity].
  - change (Z.pos p~1) with (2 * Z.pos p + 1).
    split; [|intros _ H; exfalso]; Z.to_euclidean_division_equations; lia.
  - change (Z.pos p~0) with (2 * Z.pos p).
    split; [Z.to_euclidean_division_equations; lia | intros ->; reflexivity].
  - split; [reflexivity | intros _ H; discriminate H].
Qed.

Lemma iter_shr_1_spec p : forall mrs,
  0 <= shr_m mrs ->
  shr_m (iter_pos shr_1 p mrs) = shr_m mrs / 2 ^ Z.pos p /\
  (shr_r mrs || shr_s mrs = false -> shr_m mrs mod 2 ^ Z.pos p = 0 ->
   shr_r (iter_pos shr_1 p mrs) || shr_s (iter_pos shr_1 p mrs) = false).
Proof.
  induction p as [p IH|p IH|]; intros mrs Hm; cbn [iter_pos].
  - destruct (shr_1_spec mrs Hm) as [H1 E1].
    assert (Hm1 : 0 <= shr_m (shr_1 mrs)) by (rewrite H1; apply Z.div_pos; lia).
    destruct (IH _ Hm1) as [H2 E2].
    assert (Hm2 : 0 <= shr_m (iter_pos shr_1 p (shr_1 mrs)))
      by (rewrite H2; apply Z.div_pos; [lia | apply pow2_pos; lia]).
    destruct (IH _ Hm2) as [H3 E3].
    change (Z.pos p~1) with (2 * Z.pos p + 1).
    replace (2 * Z.pos p + 1) with (1 + (Z.pos p + Z.pos p)) by lia.
    split.
    + rewrite H3, H2, H1. change 2 with (2 ^ 1) at 1.
      rewrite !div_pow2_add by lia. reflexivity.
    + intros Hex Hmod.
      apply mod_pow2_add in Hmod; [|lia|lia]. destruct Hmod as [Ma Mb].
      apply mod_pow2_add in Mb; [|lia|lia]. destruct Mb as [Mb Mc].
      apply E3; [apply E2; [apply E1; assumption|] |].
      * rewrite H1. exact Mb.
      * rewrite H2, H1. exact Mc.
  - destruct (IH _ Hm) as [H2 E2].
    assert (Hm2 : 0 <= shr_m (iter_pos shr_1 p mrs))
      by (rewrite H2; apply Z.div_pos; [lia | apply pow2_pos; lia]).
    destruct (IH _ Hm2) as [H3 E3].
    change (Z.pos p~0) with (2 * Z.pos p).
    replace (2 * Z.pos p) with (Z.pos p + Z.pos p) by lia.
    split.
    + rewrite H3, H2. rewrite !div_pow2_add by lia. reflexivity.
    + intros Hex Hmod.
      apply mod_pow2_add in Hmod; [|lia|lia]. destruct Hmod as [Ma Mb].
      apply E3; [apply E2; assumption|].
      rewrite H2. exact Mb.
  - exact (shr_1_spec mrs Hm).
Qed.

(** *** Rounding to nearest *)

Lemma round_nearest_even_bounds q l :
  q <= round_nearest_even q l <= q + 1 /\
  (l = loc_Exact -> round_nearest_even q l = q).
Proof.
  destruct l as [|[]]; cbn [round_nearest_even];
    try destruct (Z.even q); split; try lia; try reflexivity; discriminate.
Qed.

Lemma loc_exact mrs :
  shr_r mrs || shr_s mrs = false -> loc_of_shr_record mrs = loc_Exact.
Proof.
  destruct mrs as [m [] []]; cbn; intros H; (discriminate H || reflexivity).
Qed.

Lemma digits_unique a k :
  2 ^ (k - 1) <= Z.pos a < 2 ^ k -> digits a = k.
Proof.
  intros [Hlo Hhi].
  assert (0 < k).
  { destruct (Z.le_gt_cases k 0) as [Hk|]; [|assumption].
    destruct (Z.eq_dec k 0) as [->|]; [simpl in Hhi; lia|].
    rewrite (Z.pow_neg_r 2 k) in Hhi by lia. lia. }
  pose proof (digits_ge a (k - 1)). pose proof (digits_lt a k). lia.
Qed.

(** A right shift to the exponent the format asks for. *)
Lemma shr_fexp_exact m e :
  e <= fexp (digits m + e) ->
  exists mrs,
    shr_fexp prec emax (Z.pos m) e loc_Exact = (mrs, fexp (digits m + e)) /\
    shr_m mrs = Z.pos m / 2 ^ (fexp (digits m + e) - e) /\
    (Z.pos m mod 2 ^ (fexp (digits m + e) - e) = 0 ->
     loc_of_shr_record mrs = loc_Exact).
Proof.
  intros Hle. unfold shr_fexp, shr. cbn [Zdigits2 shr_record_of_loc].
  destruct (fexp (digits m + e) - e) as [|p|p] eqn:Hn.
  - eexists. split; [f_equal; lia|]. cbn [shr_m].
    split; [now rewrite Z.pow_0_r, Z.div_1_r | reflexivity].
  - eexists. split; [f_equal; lia|].
    destruct (iter_shr_1_spec p {| shr_m := Z.pos m; shr_r := false; shr_s := false |})
      as [H1 H2]; [cbn; lia|].
    cbn [shr_m shr_r shr_s orb] in H1, H2.
    split; [exact H1|]. intros Hmod. apply loc_exact. now apply H2.
  - lia.
Qed.

Lemma binary_round_aux_spec s m e :
  e <= fexp (digits m + e) ->
  exists m1,
    Z.pos m / 2 ^ (fexp (digits m + e) - e) <= m1
      <= Z.pos m / 2 ^ (fexp (digits m + e) - e) + 1 /\
    (Z.pos m mod 2 ^ (fexp (digits m + e) - e) = 0 ->
     m1 = Z.pos m / 2 ^ (fexp (digits m + e) - e)) /\
    ((m1 = 0 /\ binary_round_aux prec emax s (Z.pos m) e loc_Exact = S754_zero s) \/
     (exists m2 e2,
        fexp (digits m + e) <= e2 /\
        Z.pos m2 * 2 ^ (e2 - fexp (digits m + e)) = m1 /\
        canonical_mantissa prec emax m2 e2 = true /\
        binary_round_aux prec emax s (Z.pos m) e loc_Exact =
          if e2 <=? emax - prec then S754_finite s m2 e2 else S754_infinity s)).
Proof.
  intros Hle.
  destruct (shr_fexp_exact m e Hle) as (mrs & Hshr & Hq & Hex).
  set (e' := fexp (digits m + e)) in *.
  set (n := e' - e) in *.
  assert (Hn : 0 <= n) by (unfold n; lia).
  pose proof (pow2_pos n Hn) as Hpn.
  set (q := Z.pos m / 2 ^ n) in *.
  destruct (round_nearest_even_bounds (shr_m mrs) (loc_of_shr_record mrs)) as [Hb Hexact].
  unfold binary_round_aux. rewrite Hshr.
  set (m1 := round_nearest_even (shr_m mrs) (loc_of_shr_record mrs)) in *.
  rewrite Hq in Hb.
  assert (Hexact' : Z.pos m mod 2 ^ n = 0 -> m1 = q)
    by (intros Hmod; rewrite (Hexact (Hex Hmod)); exact Hq).
  clearbody m1. clear Hexact Hex.
  exists m1. split; [exact Hb|]. split; [exact Hexact'|].
  (* the quotient has at most [prec] digits *)
  pose proof (digits_bounds m) as [Hdlo Hdhi].
  assert (He' : e' = Z.max (digits m + e - 53) (-1074)) by apply fexp_eq.
  assert (Hndef : n = e' - e) by reflexivity.
  assert (He'min : -1074 <= e') by lia.
  assert (He'd : digits m + e - 53 <= e') by lia.
  assert (Hq0 : 0 <= q) by (apply Z.div_pos; lia).
  assert (Hqm : q * 2 ^ n <= Z.pos m < (q + 1) * 2 ^ n).
  { unfold q. Z.to_euclidean_division_equations. nia. }
  assert (Hqhi : q < 2 ^ 53).
  { assert (Hd : 2 ^ digits m <= 2 ^ (53 + n)) by (apply Z.pow_le_mono_r; lia).
    rewrite Z.pow_add_r in Hd by lia. nia. }
  destruct m1 as [|p1|p1]; [| |lia].
  - left. split; [reflexivity|].
    unfold shr_fexp, shr. cbn [Zdigits2 shr_record_of_loc].
    assert (Hz : fexp (0 + e') - e' <= 0) by (rewrite fexp_eq; lia).
    destruct (fexp (0 + e') - e') as [|p|p]; [reflexivity | lia | reflexivity].
  - right.
    assert (Hp1 : Z.pos p1 <= 2 ^ 53) by lia.
    assert (Hcanon : e' <= fexp (digits p1 + e') <= e' + 1 /\
                     (fexp (digits p1 + e') = e' + 1 -> Z.pos p1 = 2 ^ 53)).
    { rewrite fexp_eq.
      destruct (Z.eq_dec (Z.pos p1) (2 ^ 53)) as [Heq|Hne].
      - assert (digits p1 = 54).
        { apply digits_unique. rewrite Heq. split; [reflexivity|].
          apply Z.pow_lt_mono_r; lia. }
        lia.
      - assert (digits p1 <= 53) by (apply digits_lt; lia).
        destruct (Z.eq_dec e' (-1074)) as [Hemin|Hnorm]; [lia|].
        assert (Hnd : n = digits m - 53) by lia.
        assert (H52 : 2 ^ 52 <= q).
        { unfold q. apply Z.div_le_lower_bound; [lia|].
          rewrite <- Z.pow_add_r by lia.
          replace (n + 52) with (digits m - 1) by lia. exact Hdlo. }
        assert (52 < digits p1) by (apply digits_ge; lia).
        lia. }
    destruct Hcanon as [[Hc1 Hc2] Hc3].
    destruct (shr_fexp_exact p1 e' Hc1) as (mrs2 & Hshr2 & Hq2 & _).
    rewrite Hshr2.
    destruct (Z.eq_dec (fexp (digits p1 + e')) e') as [Hsame|Hcarry].
    + rewrite Hsame in *. rewrite Z.sub_diag, Z.pow_0_r, Z.div_1_r in Hq2.
      rewrite Hq2. exists p1, e'. split; [lia|]. split.
      * rewrite Z.sub_diag, Z.pow_0_r. lia.
      * split; [|reflexivity].
        unfold canonical_mantissa. apply Z.eqb_eq. exact Hsame.
    + assert (Hnext : fexp (digits p1 + e') = e' + 1) by lia.
      rewrite Hnext in *. rewrite (Hc3 eq_refl) in Hq2.
      replace (e' + 1 - e') with 1 in Hq2 by lia.
      change (2 ^ 53 / 2 ^ 1) with (Z.pos (2 ^ 52)) in Hq2.
      rewrite Hq2. exists (2 ^ 52)%positive, (e' + 1). split; [lia|]. split.
      * replace (e' + 1 - e') with 1 by lia. rewrite (Hc3 eq_refl). reflexivity.
      * split; [|reflexivity].
        unfold canonical_mantissa. apply Z.eqb_eq.
        change (digits (2 ^ 52)) with 53. rewrite fexp_eq. lia.
Qed.

(** *** Canonical mantissas and the order of the values *)

Lemma canonical_inv m e :
  canonical_mantissa prec emax m e = true ->
  -1074 <= e /\ digits m <= 53 /\ (-1074 < e -> digits m = 53).
Proof.
  unfold canonical_mantissa. intros H. apply Z.eqb_eq in H.
  rewrite fexp_eq in H. lia.
Qed.

Lemma bounded_inv m e :
  bounded prec emax m e = true ->
  canonical_mantissa prec emax m e = true /\ e <= 971.
Proof.
  unfold bounded. intros H. apply andb_true_iff in H. destruct H as [H1 H2].
  apply Z.leb_le in H2. split; [assumption | exact H2].
Qed.

Lemma bounded_intro m e :
  canonical_mantissa prec emax m e = true -> e <= 971 ->
  bounded prec emax m e = true.
Proof.
  intros H1 H2. unfold bounded. rewrite H1. apply Z.leb_le. exact H2.
Qed.

(** Of two canonical numbers, the one with the larger exponent is the
    larger. *)
Lemma canonical_exponent_lt m1 e1 m2 e2 b :
  canonical_mantissa prec emax m1 e1 = true ->
  canonical_mantissa prec emax m2 e2 = true ->
  b <= e1 -> e1 < e2 ->
  Z.pos m1 * 2 ^ (e1 - b) < Z.pos m2 * 2 ^ (e2 - b).
Proof.
  intros H1 H2 Hb Hlt.
  destruct (canonical_inv _ _ H1) as (Hmin1 & Hd1 & _).
  destruct (canonical_inv _ _ H2) as (_ & _ & Hd2).
  pose proof (digits_bounds m1) as [_ Hhi].
  pose proof (digits_bounds m2) as [Hlo _].
  rewrite Hd2 in Hlo by lia. change (2 ^ (53 - 1)) with (2 ^ 52) in Hlo.
  assert (Hm1 : Z.pos m1 < 2 ^ 53).
  { eapply Z.lt_le_trans; [exact Hhi|]. apply Z.pow_le_mono_r; lia. }
  replace (e2 - b) with ((e1 - b) + 1 + (e2 - e1 - 1)) by lia.
  rewrite !Z.pow_add_r by lia.
  assert (HA : 0 < 2 ^ (e1 - b)) by (apply pow2_pos; lia).
  assert (HC : 0 < 2 ^ (e2 - e1 - 1)) by (apply pow2_pos; lia).
  change (2 ^ 1) with 2. change (2 ^ 53) with (2 * 2 ^ 52) in Hm1.
  assert (Hm : Z.pos m1 < 2 * Z.pos m2) by lia.
  set (A := 2 ^ (e1 - b)) in *. set (C := 2 ^ (e2 - e1 - 1)) in *.
  clearbody A C. clear - HA HC Hm.
  assert (Z.pos m1 * A < 2 * Z.pos m2 * A) by nia.
  assert (2 * Z.pos m2 * A <= 2 * Z.pos m2 * A * C) by nia.
  lia.
Qed.

(** [<=] on finite non-negative floats follows the order of the values. *)
Lemma finite_le m1 e1 m2 e2 b :
  canonical_mantissa prec emax m1 e1 = true ->
  canonical_mantissa prec emax m2 e2 = true ->
  b <= e1 -> b <= e2 ->
  Z.pos m1 * 2 ^ (e1 - b) <= Z.pos m2 * 2 ^ (e2 - b) ->
  float_le (S754_finite false m1 e1) (S754_finite false m2 e2) = true.
Proof.
  intros H1 H2 Hb1 Hb2 Hle.
  unfold float_le, SFleb, SFcompare.
  destruct (Z.compare_spec e1 e2) as [Heq|Hlt|Hgt].
  - subst e2. pose proof (pow2_pos (e1 - b)).
    assert (Hm : (m1 <= m2)%positive) by (unfold Pos.le; fold (Pos.le m1 m2); nia).
    change (Pos.compare_cont Eq m1 m2) with (Pos.compare m1 m2).
    destruct (Pos.compare_spec m1 m2); [reflexivity | reflexivity | lia].
  - reflexivity.
  - pose proof (canonical_exponent_lt m2 e2 m1 e1 b H2 H1 Hb2 Hgt). lia.
Qed.

(** And conversely, against [1.0]. *)
Lemma finite_le_one m e :
  canonical_mantissa prec emax m e = true ->
  float_le (S754_finite false m e) (S754_finite false 4503599627370496 (-52)) = true ->
  e <= -52 /\ Z.pos m <= 2 ^ (- e).
Proof.
  intros Hc. unfold float_le, SFleb, SFcompare.
  destruct (canonical_inv _ _ Hc) as (_ & Hd & _).
  pose proof (digits_bounds m) as [_ Hhi].
  destruct (Z.compare_spec e (-52)) as [Heq|Hlt|Hgt].
  - subst e.
    rewrite Pos.compare_cont_spec. unfold Pos.switch_Eq.
    replace (2 ^ (- -52)) with 4503599627370496 by reflexivity.
    rewrite Pos2Z.inj_compare.
    destruct (Z.compare_spec (Z.pos m) (Z.pos 4503599627370496)) as [Hm|Hm|Hm];
      intros H; try discriminate H; clear Hc Hhi; split; lia.
  - intros _. split; [lia|].
    apply Z.lt_le_incl. eapply Z.lt_le_trans; [exact Hhi|].
    apply Z.pow_le_mono_r; lia.
  - discriminate.
Qed.

Lemma quotient_normal m n :
  n = digits m - 53 -> 0 <= n -> 2 ^ 52 <= Z.pos m / 2 ^ n.
Proof.
  intros Hn Hn0. pose proof (digits_bounds m) as [Hlo _].
  apply Z.div_le_lower_bound; [apply pow2_pos; lia|].
  rewrite <- Z.pow_add_r by lia.
  replace (n + 52) with (digits m - 1) by lia. exact Hlo.
Qed.

(** *** Rounding is monotone against the format's own numbers *)

Lemma binary_round_aux_le s m e mc ec :
  e <= fexp (digits m + e) ->
  bounded prec emax mc ec = true ->
  e <= ec ->
  Z.pos m <= Z.pos mc * 2 ^ (ec - e) ->
  binary_round_aux prec emax s (Z.pos m) e loc_Exact = S754_zero s \/
  exists m2 e2,
    binary_round_aux prec emax s (Z.pos m) e loc_Exact = S754_finite s m2 e2 /\
    bounded prec emax m2 e2 = true /\ e <= e2 /\
    Z.pos m2 * 2 ^ (e2 - e) <= Z.pos mc * 2 ^ (ec - e).
Proof.
  intros Hpre Hbc Hec Hle.
  destruct (bounded_inv _ _ Hbc) as [Hcc Hecmax].
  destruct (binary_round_aux_spec s m e Hpre) as (m1 & Hb & Hexact & Hres).
  set (e' := fexp (digits m + e)) in *.
  assert (He'c : e' <= ec).
  { unfold canonical_mantissa in Hcc. apply Z.eqb_eq in Hcc. rewrite <- Hcc.
    apply fexp_mono. pose proof (digits_le m mc (ec - e)). lia. }
  set (n := e' - e) in *.
  assert (Hndef : n = e' - e) by reflexivity.
  assert (Hn : 0 <= n) by lia.
  pose proof (pow2_pos n Hn) as Hpn.
  pose proof (pow2_pos (ec - e')) as Hpc.
  assert (Hsplit : Z.pos mc * 2 ^ (ec - e) = Z.pos mc * 2 ^ (ec - e') * 2 ^ n).
  { rewrite <- Z.mul_assoc, <- Z.pow_add_r by lia. do 2 f_equal. lia. }
  assert (Hm1 : m1 <= Z.pos mc * 2 ^ (ec - e')).
  { destruct (Z.eq_dec (Z.pos m mod 2 ^ n) 0) as [Hz|Hnz].
    - rewrite (Hexact Hz). apply Z.div_le_upper_bound; [lia|]. nia.
    - assert (Z.pos m / 2 ^ n < Z.pos mc * 2 ^ (ec - e')); [|lia].
      revert Hnz. Z.to_euclidean_division_equations. nia. }
  destruct Hres as [[Hz Hres] | (m2 & e2 & He2 & Hv & Hc2 & Hres)].
  - left. exact Hres.
  - right. exists m2, e2.
    assert (He2c : e2 <= ec).
    { destruct (Z.le_gt_cases e2 ec) as [|Hgt]; [assumption|].
      pose proof (canonical_exponent_lt mc ec m2 e2 e' Hcc Hc2 He'c Hgt). lia. }
    replace (e2 <=? emax - prec) with true in Hres
      by (symmetry; apply Z.leb_le; change (emax - prec) with 971; lia).
    split; [exact Hres|]. split; [apply bounded_intro; [assumption | lia]|].
    split; [lia|].
    rewrite Hsplit. replace (e2 - e) with ((e2 - e') + n) by lia.
    rewrite Z.pow_add_r, Z.mul_assoc by lia. nia.
Qed.

Lemma binary_round_aux_ge s m e mc ec :
  e <= fexp (digits m + e) ->
  canonical_mantissa prec emax mc ec = true ->
  e <= ec ->
  Z.pos mc * 2 ^ (ec - e) <= Z.pos m ->
  binary_round_aux prec emax s (Z.pos m) e loc_Exact = S754_infinity s \/
  exists m2 e2,
    binary_round_aux prec emax s (Z.pos m) e loc_Exact = S754_finite s m2 e2 /\
    bounded prec emax m2 e2 = true /\ e <= e2 /\
    Z.pos mc * 2 ^ (ec - e) <= Z.pos m2 * 2 ^ (e2 - e).
Proof.
  intros Hpre Hcc Hec Hle.
  destruct (canonical_inv _ _ Hcc) as (Hcmin & Hcd & _).
  destruct (binary_round_aux_spec s m e Hpre) as (m1 & Hb & _ & Hres).
  set (e' := fexp (digits m + e)) in *.
  assert (He' : e' = Z.max (digits m + e - 53) (-1074)) by apply fexp_eq.
  pose proof (digits_bounds m) as [Hdlo Hdhi].
  pose proof (digits_bounds mc) as [Hclo Hchi].
  pose proof (pow2_pos (ec - e)) as Hpce.
  assert (Hdig : digits mc + ec <= digits m + e).
  { assert (H : 2 ^ (digits mc - 1 + (ec - e)) < 2 ^ digits m).
    { rewrite Z.pow_add_r by lia. nia. }
    apply Z.pow_lt_mono_r_iff in H; lia. }
  assert (He'c : ec <= e').
  { unfold canonical_mantissa in Hcc. apply Z.eqb_eq in Hcc. rewrite <- Hcc.
    apply fexp_mono. exact Hdig. }
  set (n := e' - e) in *.
  assert (Hndef : n = e' - e) by reflexivity.
  assert (Hn : 0 <= n) by lia.
  pose proof (pow2_pos n Hn) as Hpn.
  assert (Hm1 : Z.pos mc * 2 ^ (ec - e) <= m1 * 2 ^ n).
  { destruct (Z.eq_dec ec e') as [Heq|Hne].
    - replace (ec - e) with n by lia.
      assert (Z.pos mc <= Z.pos m / 2 ^ n); [|nia].
      apply Z.div_le_lower_bound; [lia|]. replace n with (ec - e) by lia. lia.
    - assert (Hq : 2 ^ 52 <= Z.pos m / 2 ^ n) by (apply quotient_normal; lia).
      assert (Hmc : Z.pos mc < 2 ^ 53).
      { eapply Z.lt_le_trans; [exact Hchi|]. apply Z.pow_le_mono_r; lia. }
      assert (Hp : 2 * 2 ^ (ec - e) <= 2 ^ n).
      { change 2 with (2 ^ 1) at 1. rewrite <- Z.pow_add_r by lia.
        apply Z.pow_le_mono_r; lia. }
      change (2 ^ 53) with (2 * 2 ^ 52) in Hmc. nia. }
  destruct Hres as [[Hz Hres] | (m2 & e2 & He2 & Hv & Hc2 & Hres)].
  - subst m1. lia.
  - destruct (e2 <=? emax - prec) eqn:Hfit; [|left; exact Hres].
    right. exists m2, e2. split; [exact Hres|].
    apply Z.leb_le in Hfit. change (emax - prec) with 971 in Hfit.
    split; [apply bounded_intro; assumption|]. split; [lia|].
    replace (e2 - e) with ((e2 - e') + n) by lia.
    rewrite Z.pow_add_r, Z.mul_assoc, Hv by lia. exact Hm1.
Qed.

(** *** Left shifts and [binary_round] *)

Lemma iter_xO m d : Z.pos (Pos.iter xO m d) = Z.pos m * 2 ^ Z.pos d.
Proof.
  induction d as [|d IH] using Pos.peano_ind.
  - cbn [Pos.iter]. change (Z.pos m~0) with (2 * Z.pos m). change (2 ^ 1) with 2. lia.
  - rewrite Pos.iter_succ, Pos2Z.inj_succ, Z.pow_succ_r by lia.
    change (Z.pos (Pos.iter xO m d)~0) with (2 * Z.pos (Pos.iter xO m d)).
    rewrite IH. ring.
Qed.

Lemma shl_align_spec m e t :
  snd (shl_align m e t) = Z.min e t /\
  Z.pos (fst (shl_align m e t)) = Z.pos m * 2 ^ (e - Z.min e t).
Proof.
  unfold shl_align. destruct (t - e) as [|d|d] eqn:Hd; cbn [fst snd].
  - replace (Z.min e t) with e by lia. rewrite Z.sub_diag. simpl. lia.
  - replace (Z.min e t) with e by lia. rewrite Z.sub_diag. simpl. lia.
  - replace (Z.min e t) with t by lia. split; [reflexivity|].
    rewrite iter_xO. do 2 f_equal. lia.
Qed.

Lemma digits_shift m mz k :
  0 <= k -> Z.pos mz = Z.pos m * 2 ^ k -> digits mz = digits m + k.
Proof.
  intros Hk Hmz. pose proof (digits_bounds m) as [Hlo Hhi].
  pose proof (pow2_pos k Hk).
  apply digits_unique. rewrite Hmz.
  replace (digits m + k - 1) with (digits m - 1 + k) by lia.
  rewrite !Z.pow_add_r by lia. nia.
Qed.

(** What [binary_round] hands to [binary_round_aux]. *)
Lemma binary_round_unfold s m e :
  exists mz ez,
    binary_round prec emax s m e = binary_round_aux prec emax s (Z.pos mz) ez loc_Exact /\
    ez = Z.min e (fexp (digits m + e)) /\
    Z.pos mz = Z.pos m * 2 ^ (e - ez) /\
    ez <= fexp (digits mz + ez).
Proof.
  unfold binary_round.
  destruct (shl_align_spec m e (fexp (digits m + e))) as [He Hm].
  destruct (shl_align m e (fexp (digits m + e))) as [mz ez]. cbn [fst snd] in He, Hm.
  rewrite <- He in Hm.
  exists mz, ez. split; [reflexivity|]. split; [exact He|]. split; [exact Hm|].
  assert (Hd : digits mz = digits m + (e - ez)) by (apply digits_shift; [lia | exact Hm]).
  rewrite Hd. replace (digits m + (e - ez) + ez) with (digits m + e) by lia. lia.
Qed.

Lemma binary_round_ge s m e mc ec :
  canonical_mantissa prec emax mc ec = true ->
  e <= ec ->
  Z.pos mc * 2 ^ (ec - e) <= Z.pos m ->
  binary_round prec emax s m e = S754_infinity s \/
  exists m2 e2 b,
    binary_round prec emax s m e = S754_finite s m2 e2 /\
    bounded prec emax m2 e2 = true /\ b <= ec /\ b <= e2 /\
    Z.pos mc * 2 ^ (ec - b) <= Z.pos m2 * 2 ^ (e2 - b).
Proof.
  intros Hcc Hec Hle.
  destruct (binary_round_unfold s m e) as (mz & ez & -> & Hez & Hmz & Hpre).
  assert (Hez' : ez <= e) by lia.
  destruct (binary_round_aux_ge s mz ez mc ec Hpre Hcc) as [Hinf | (m2 & e2 & H1 & H2 & H3 & H4)].
  - lia.
  - rewrite Hmz. replace (ec - ez) with ((ec - e) + (e - ez)) by lia.
    rewrite Z.pow_add_r, Z.mul_assoc by lia.
    pose proof (pow2_pos (e - ez)). nia.
  - left. exact Hinf.
  - right. exists m2, e2, ez. repeat split; try assumption; lia.
Qed.

(** *** Conversion of integers *)

(** A positive integer converts to a normal number (a full mantissa), and
    exactly so below [2^53]. *)
Lemma round_pos_normal s p m e :
  binary_round prec emax s p 0 = S754_finite s m e ->
  bounded prec emax m e = true /\ digits m = 53.
Proof.
  destruct (binary_round_unfold s p 0) as (mz & ez & -> & Hez & Hmz & Hpre).
  rewrite fexp_eq in Hez.
  destruct (binary_round_aux_spec s mz ez Hpre) as (m1 & _ & _ & Hres).
  assert (He' : -52 <= fexp (digits mz + ez)).
  { rewrite fexp_eq, (digits_shift p mz (0 - ez)) by (lia || exact Hmz). lia. }
  destruct Hres as [[_ ->] | (m2 & e2 & He2 & _ & Hc2 & ->)]; [discriminate|].
  destruct (e2 <=? emax - prec) eqn:Hfit; [|discriminate].
  intros H. injection H as <- <-.
  apply Z.leb_le in Hfit. change (emax - prec) with 971 in Hfit.
  split; [apply bounded_intro; assumption|].
  destruct (canonical_inv _ _ Hc2) as (_ & _ & Hd). apply Hd. lia.
Qed.

Lemma round_int_exact a :
  0 < a < 2 ^ 53 ->
  exists m e,
    round_int a = S754_finite false m e /\
    bounded prec emax m e = true /\ e <= 0 /\ Z.pos m = a * 2 ^ (- e).
Proof.
  intros [Ha0 Ha]. destruct a as [|p|p]; try lia.
  unfold round_int, binary_normalize.
  destruct (binary_round_unfold false p 0) as (mz & ez & Hbr & Hez & Hmz & Hpre).
  rewrite fexp_eq in Hez.
  assert (Hdp : digits p <= 53) by (apply digits_lt; lia).
  assert (Hez' : ez = digits p - 53) by lia.
  assert (Hdz : digits mz = 53).
  { rewrite (digits_shift p mz (0 - ez)) by (lia || exact Hmz). lia. }
  destruct (binary_round_aux_spec false mz ez Hpre) as (m1 & _ & Hexact & Hres).
  assert (Hfexp : fexp (digits mz + ez) = ez) by (rewrite fexp_eq; lia).
  rewrite Hfexp, Z.sub_diag, Z.pow_0_r, Z.mod_1_r, Z.div_1_r in Hexact.
  specialize (Hexact eq_refl). subst m1.
  rewrite Hfexp in Hres.
  destruct Hres as [[Hz _] | (m2 & e2 & He2 & Hv & Hc2 & Hres)]; [lia|].
  assert (Hsame : e2 = ez).
  { destruct (Z.eq_dec e2 ez) as [|Hne]; [assumption|].
    destruct (canonical_inv _ _ Hc2) as (_ & _ & Hd2).
    assert (Hds : digits mz = digits m2 + (e2 - ez))
      by (apply digits_shift; [lia | symmetry; exact Hv]).
    lia. }
  subst e2. rewrite Z.sub_diag, Z.pow_0_r, Z.mul_1_r in Hv.
  injection Hv as ->.
  replace (ez <=? emax - prec) with true in Hres
    by (symmetry; apply Z.leb_le; change (emax - prec) with 971; lia).
  exists mz, ez. rewrite Hbr. split; [exact Hres|].
  split; [apply bounded_intro; [assumption | lia]|].
  split; [lia|]. rewrite Hmz. replace (0 - ez) with (- ez) by lia. reflexivity.
Qed.

(** *** Multiplication and addition *)

(** A product with a normal left factor is a binary64 datum. *)
Lemma float_mul_normal_valid sx mx ex y :
  digits mx = 53 -> valid (float_mul (S754_finite sx mx ex) y) = true.
Proof.
  intros Hd. destruct y as [sy|sy| |sy my ey]; try reflexivity.
  unfold float_mul, SFmul.
  assert (Hpre : ex + ey <= fexp (digits (mx * my) + (ex + ey))).
  { rewrite fexp_eq.
    pose proof (digits_bounds mx) as [Hlo _]. rewrite Hd in Hlo.
    change (2 ^ (53 - 1)) with (2 ^ 52) in Hlo.
    assert (52 < digits (mx * my)).
    { apply digits_ge; [lia|]. rewrite Pos2Z.inj_mul. nia. }
    lia. }
  destruct (binary_round_aux_spec (xorb sx sy) (mx * my) (ex + ey) Hpre)
    as (m1 & _ & _ & [[_ ->] | (m2 & e2 & _ & _ & Hc2 & ->)]); [reflexivity|].
  destruct (e2 <=? emax - prec) eqn:Hfit; [|reflexivity].
  unfold valid, valid_binary, bounded. rewrite Hc2, Hfit. reflexivity.
Qed.

(** Multiplying a non-negative number by a factor in (0, 1] does not
    increase it. *)
Lemma float_mul_le_left ma ea mr er :
  bounded prec emax ma ea = true ->
  er <= 0 -> Z.pos mr <= 2 ^ (- er) ->
  float_mul (S754_finite false ma ea) (S754_finite false mr er) = S754_zero false \/
  exists m2 e2,
    float_mul (S754_finite false ma ea) (S754_finite false mr er)
    = S754_finite false m2 e2 /\
    ea + er <= e2 /\
    Z.pos m2 * 2 ^ (e2 - (ea + er)) <= Z.pos ma * 2 ^ (- er).
Proof.
  intros Hb Her Hmr. unfold float_mul, SFmul. cbn [xorb].
  destruct (bounded_inv _ _ Hb) as [Hc _].
  destruct (canonical_inv _ _ Hc) as (Hmin & Hd & Hnorm).
  assert (Hpre : ea + er <= fexp (digits (ma * mr) + (ea + er))).
  { rewrite fexp_eq.
    destruct (Z.eq_dec ea (-1074)) as [->|Hne]; [lia|].
    pose proof (digits_bounds ma) as [Hlo _]. rewrite Hnorm in Hlo by lia.
    change (2 ^ (53 - 1)) with (2 ^ 52) in Hlo.
    assert (52 < digits (ma * mr)).
    { apply digits_ge; [lia|]. rewrite Pos2Z.inj_mul. nia. }
    lia. }
  destruct (binary_round_aux_le false (ma * mr) (ea + er) ma ea Hpre Hb)
    as [Hz | (m2 & e2 & H1 & _ & H3 & H4)].
  - lia.
  - rewrite Pos2Z.inj_mul. replace (ea - (ea + er)) with (- er) by lia. nia.
  - left. exact Hz.
  - right. exists m2, e2. split; [exact H1|]. split; [exact H3|].
    replace (ea - (ea + er)) with (- er) in H4 by lia. exact H4.
Qed.

(** Adding a non-negative number does not decrease a non-negative one. *)
Lemma float_add_ge mc ec mr er :
  bounded prec emax mc ec = true ->
  (float_add (S754_finite false mc ec) (S754_finite false mr er) = S754_infinity false \/
   exists m2 e2,
     float_add (S754_finite false mc ec) (S754_finite false mr er)
     = S754_finite false m2 e2 /\
     bounded prec emax m2 e2 = true) /\
  float_le (S754_finite false mc ec)
           (float_add (S754_finite false mc ec) (S754_finite false mr er)) = true.
Proof.
  intros Hb. destruct (bounded_inv _ _ Hb) as [Hc _].
  unfold float_add, SFadd. cbn [cond_Zopp].
  destruct (shl_align_spec mc ec (Z.min ec er)) as [_ H1].
  destruct (shl_align_spec mr er (Z.min ec er)) as [_ H2].
  replace (Z.min ec (Z.min ec er)) with (Z.min ec er) in H1 by lia.
  replace (Z.min er (Z.min ec er)) with (Z.min ec er) in H2 by lia.
  set (ez := Z.min ec er) in *.
  assert (Hez : ez <= ec) by (unfold ez; lia).
  rewrite <- Pos2Z.inj_add. cbn [binary_normalize].
  set (ps := (fst (shl_align mc ec ez) + fst (shl_align mr er ez))%positive).
  assert (Hps : Z.pos mc * 2 ^ (ec - ez) <= Z.pos ps).
  { unfold ps. rewrite Pos2Z.inj_add, H1. lia. }
  destruct (binary_round_ge false ps ez mc ec Hc Hez Hps)
    as [-> | (m2 & e2 & b & -> & Hb2 & Hbc & Hb2' & Hle)].
  - split; [left; reflexivity | reflexivity].
  - split; [right; eauto|].
    destruct (bounded_inv _ _ Hb2) as [Hc2 _].
    exact (finite_le mc ec m2 e2 b Hc Hc2 Hbc Hb2' Hle).
Qed.

Lemma float_le_refl_finite m e :
  float_le (S754_finite false m e) (S754_finite false m e) = true.
Proof.
  unfold float_le, SFleb, SFcompare. rewrite Z.compare_refl.
  rewrite Pos.compare_cont_spec, Pos.compare_refl. reflexivity.
Qed.

(** *** Truncation *)

Lemma int_of_float_le m e a b :
  b <= e -> b <= 0 ->
  Z.pos m * 2 ^ (e - b) <= a * 2 ^ (- b) ->
  exists t, int_of_float (S754_finite false m e) = Ok t /\ 0 <= t <= a.
Proof.
  intros Hbe Hb0 Hle. cbn [int_of_float cond_Zopp].
  eexists. split; [reflexivity|].
  pose proof (pow2_pos (- b)) as Hpb.
  destruct e as [|pe|pe].
  - rewrite Z.mul_1_r. replace (0 - b) with (- b) in Hle by lia. nia.
  - pose proof (pow2_pos (Z.pos pe)) as Hpe.
    replace (Z.pos pe - b) with (Z.pos pe + - b) in Hle by lia.
    rewrite Z.pow_add_r, Z.mul_assoc in Hle by lia.
    split; [nia|]. nia.
  - pose proof (pow2_pos (Z.pos pe)) as Hpe.
    assert (Hq : 0 <= Z.pos m / 2 ^ Z.pos pe) by (apply Z.div_pos; lia).
    split; [exact Hq|].
    assert (Hqm : Z.pos m / 2 ^ Z.pos pe * 2 ^ Z.pos pe <= Z.pos m).
    { Z.to_euclidean_division_equations. nia. }
    assert (Hsplit : 2 ^ (- b) = 2 ^ Z.pos pe * 2 ^ (Z.neg pe - b)).
    { rewrite <- Z.pow_add_r by lia. f_equal. lia. }
    pose proof (pow2_pos (Z.neg pe - b)) as Hpd.
    rewrite Hsplit in Hle.
    set (q := Z.pos m / 2 ^ Z.pos pe) in *.
    set (P := 2 ^ Z.pos pe) in *. set (D := 2 ^ (Z.neg pe - b)) in *.
    assert (HP : 0 < P) by (apply Hpe; lia).
    assert (HD : 0 < D) by (apply Hpd; lia).
    clearbody q P D. clear - Hle Hqm HP HD Hq.
    assert (q * P * D <= a * (P * D)) by nia.
    assert (0 < P * D) by nia. nia.
Qed.

End Binary64.

(** ** The simulations as a whole *)

Module Simulations.
Import Py PyFacts.

Lemma in_scenarios config scenario :
  In scenario Gtm.scenarios <-> exists t, Gtm.tiktok_preset config scenario = Ok t.
Proof.
  unfold Gtm.scenarios, Gtm.tiktok_preset. split.
  - intros [<-|[<-|[<-|[]]]]; cbn; eauto.
  - intros [t H].
    destruct (String.eqb_spec scenario "low") as [->|_]; [cbn; auto|].
    destruct (String.eqb_spec scenario "mid") as [->|_]; [cbn; auto|].
    destruct (String.eqb_spec scenario "high") as [->|_]; [cbn; auto|].
    discriminate.
Qed.

Lemma not_in_scenarios config scenario :
  ~ In scenario Gtm.scenarios -> Gtm.tiktok_preset config scenario = Raise KeyError.
Proof.
  intros Hn. destruct (Gtm.tiktok_preset config scenario) as [t|e] eqn:H.
  - exfalso. apply Hn. apply (in_scenarios config). eauto.
  - revert H. unfold Gtm.tiktok_preset.
    repeat match goal with |- context [if ?b then _ else _] => destruct b end;
      intros H; inversion H; reflexivity.
Qed.

Lemma gtm_raise config months scenario e :
  Gtm.run_gtm_simulation config months scenario = Raise e ->
  conversion_error e \/ (e = KeyError /\ ~ In scenario Gtm.scenarios).
Proof.
  unfold Gtm.run_gtm_simulation. intros H.
  apply bind_raise in H. destruct H as [H | (t & Ht & H)].
  - right. destruct (in_dec string_dec scenario Gtm.scenarios) as [Hin|Hn].
    + apply (in_scenarios config) in Hin. destruct Hin as [t Ht]. congruence.
    + split; [|assumption]. rewrite (not_in_scenarios _ _ Hn) in H. congruence.
  - left. apply for_each_raise in H. destruct H as (st & m & _ & H).
    eapply GtmFacts.gtm_month_raise; eassumption.
Qed.

Lemma growth_month config months rs i r :
  Growth.run_simulation config months = Ok rs ->
  nth_error rs i = Some r -> Growth.month r = Z.of_nat i + 1.
Proof.
  intros H Hi. exact (GrowthFacts.mf_month _ _ _ _ (RunFacts.growth_facts _ _ _ _ _ H Hi)).
Qed.

Lemma growth_no_months config months :
  months <= 0 -> Growth.run_simulation config months = Ok [].
Proof.
  intros H. unfold Growth.run_simulation. rewrite range_empty by lia. reflexivity.
Qed.

Lemma gtm_no_months config months scenario :
  months <= 0 -> In scenario Gtm.scenarios ->
  Gtm.run_gtm_simulation config months scenario = Ok [].
Proof.
  intros H Hin. apply (in_scenarios config) in Hin. destruct Hin as [t Ht].
  unfold Gtm.run_gtm_simulation. rewrite Ht, range_empty by lia. reflexivity.
Qed.

Lemma growth_default_returns months :
  months <= 120 -> exists rs, Growth.run_simulation Growth.default_config months = Ok rs.
Proof.
  intros H.
  assert (H120 : exists rs, Growth.run_simulation Growth.default_config 120 = Ok rs)
    by (eexists; vm_compute; reflexivity).
  destruct H120 as [rs Hrs]. eexists. eapply RunFacts.growth_prefix; eassumption.
Qed.

Lemma gtm_default_returns months scenario :
  months <= 120 -> In scenario Gtm.scenarios ->
  exists rs, Gtm.run_gtm_simulation Gtm.default_config months scenario = Ok rs.
Proof.
  intros H Hin.
  assert (H120 : exists rs, Gtm.run_gtm_simulation Gtm.default_config 120 scenario = Ok rs).
  { destruct Hin as [<-|[<-|[<-|[]]]]; eexists; vm_compute; reflexivity. }
  destruct H120 as [rs Hrs]. eexists. eapply RunFacts.gtm_prefix; eassumption.
Qed.

End Simulations.

(** C1 (amended).  With [months <= 0] both simulations return the empty
    sequence.  Otherwise a run either raises, and then an [OverflowError] or
    a [ValueError] of a number conversion (or, for the go-to-market run, the
    [KeyError] of an unknown scenario), or returns a sequence of [months]
    records whose i-th record (from 1) has month number i.  Both return on
    their default configuration for every run of up to 120 months. *)
Theorem run_length_and_month_numbers :
  (forall config months,
      (months <= 0 -> Growth.run_simulation config months = Py.Ok []) /\
      (forall rs, Growth.run_simulation config months = Py.Ok rs ->
         Z.of_nat (List.length rs) = Z.max 0 months /\
         forall i r, nth_error rs i = Some r -> Growth.month r = Z.of_nat i + 1) /\
      (forall e, Growth.run_simulation config months = Py.Raise e ->
         e = Py.OverflowError \/ e = Py.ValueError)) /\
  (forall config months scenario,
      (months <= 0 -> In scenario Gtm.scenarios ->
       Gtm.run_gtm_simulation config months scenario = Py.Ok []) /\
      (forall rs, Gtm.run_gtm_simulation config months scenario = Py.Ok rs ->
         Z.of_nat (List.length rs) = Z.max 0 months /\
         forall i d, nth_error rs i = Some d -> Gtm.month d = Z.of_nat i + 1) /\
      (forall e, Gtm.run_gtm_simulation config months scenario = Py.Raise e ->
         e = Py.OverflowError \/ e = Py.ValueError \/
         (e = Py.KeyError /\ ~ In scenario Gtm.scenarios))) /\
  (forall months, months <= 120 ->
     exists rs, Growth.run_simulation Growth.default_config months = Py.Ok rs) /\
  (forall months scenario, months <= 120 -> In scenario Gtm.scenarios ->
     exists rs, Gtm.run_gtm_simulation Gtm.default_config months scenario = Py.Ok rs).
Proof.
  split; [|split; [|split]].
  - intros config months. split; [apply Simulations.growth_no_months|]. split.
    + intros rs H. split; [eapply RunFacts.growth_length; eassumption|].
      intros i r Hi. eapply Simulations.growth_month; eassumption.
    + intros e H. exact (RunFacts.growth_raise _ _ _ H).
  - intros config months scenario. split; [apply Simulations.gtm_no_months|]. split.
    + intros rs H. split; [eapply RunFacts.gtm_length; eassumption|].
      intros i d Hi. eapply RunFacts.gtm_month; eassumption.
    + intros e H. destruct (Simulations.gtm_raise _ _ _ _ H) as [[->| ->]|H']; auto.
  - apply Simulations.growth_default_returns.
  - apply Simulations.gtm_default_returns.
Qed.

Lemma run_length_and_month_numbers_witness :
  exists rs, Growth.run_simulation Growth.default_config 12 = Py.Ok rs /\
             Z.of_nat (List.length rs) = Z.max 0 12.
Proof.
  destruct run_length_and_month_numbers as (G & _ & D & _).
  destruct (D 12 ltac:(lia)) as [rs Hrs]. exists rs. split; [exact Hrs|].
  apply (G Growth.default_config 12). exact Hrs.
Defined.

(** C1 as stated fails: with [--initial-hosts] set to [10^309] the first
    month already raises, so no sequence is returned. *)
Lemma run_simulation_raises_on_a_huge_population :
  Growth.run_simulation (Growth.set_initial_hosts (10 ^ 309) Growth.default_config) 1
  = Py.Raise Py.OverflowError /\
  ~ exists rs,
      Growth.run_simulation (Growth.set_initial_hosts (10 ^ 309) Growth.default_config) 1
      = Py.Ok rs /\ Z.of_nat (List.length rs) = 1.
Proof.
  assert (H : Growth.run_simulation
                (Growth.set_initial_hosts (10 ^ 309) Growth.default_config) 1
              = Py.Raise Py.OverflowError) by (vm_compute; reflexivity).
  split; [exact H|]. intros (rs & Hrs & _). rewrite H in Hrs. discriminate Hrs.
Qed.

Module MonthLabel.
Import Py PyFacts Growth.

(** The month number of a record is a label: the rest of the record and the
    state handed on do not depend on it. *)
Lemma simulate_month_relabel config st m m' r st' :
  simulate_month config st m = Ok (r, st') ->
  simulate_month config st m' = Ok (with_month m' r, st').
Proof.
  unfold simulate_month. intros H.
  repeat GrowthFacts.open_bind H.
  repeat match goal with
  | E : ?c = Ok _ |- context [bind ?c _] => rewrite E; cbn [bind]
  end.
  inversion H; subst. reflexivity.
Qed.

End MonthLabel.

(** C2.  [run_simulation] is a function of its inputs, and every record of
    its output is what the month's arithmetic ([simulate_month]) makes of the
    configuration and of the running state entering that month, which the
    record before shows (the initial state for the first); the month number
    is the record's position and nothing else in the record depends on it. *)
Theorem run_simulation_is_deterministic config months :
  (forall config' months',
      config' = config -> months' = months ->
      Growth.run_simulation config' months' = Growth.run_simulation config months) /\
  (forall rs i r,
      Growth.run_simulation config months = Py.Ok rs ->
      nth_error rs i = Some r ->
      Growth.simulate_month config (Growth.entering config rs i) (Z.of_nat i + 1)
      = Py.Ok (r, Growth.running_after r) /\
      forall m, Growth.simulate_month config (Growth.entering config rs i) m
                = Py.Ok (Growth.with_month m r, Growth.running_after r)).
Proof.
  split.
  - intros config' months' -> ->. reflexivity.
  - intros rs i r H Hi.
    pose proof (RunFacts.growth_nth _ _ _ _ _ H Hi) as Hm.
    split; [exact Hm|]. intros m.
    exact (MonthLabel.simulate_month_relabel _ _ _ m _ _ Hm).
Qed.

Lemma run_simulation_is_deterministic_witness :
  exists rs r,
    Growth.run_simulation Growth.default_config 12 = Py.Ok rs /\
    nth_error rs 3 = Some r /\
    Growth.simulate_month Growth.default_config
      (Growth.entering Growth.default_config rs 3) 4
    = Py.Ok (r, Growth.running_after r).
Proof.
  destruct (Growth.run_simulation Growth.default_config 12) as [rs|e] eqn:Hrun;
    [|vm_compute in Hrun; discriminate Hrun].
  destruct (nth_error rs 3) as [r|] eqn:Hr;
    [|vm_compute in Hrun; injection Hrun as <-; discriminate Hr].
  exists rs, r. split; [reflexivity|]. split; [exact Hr|].
  exact (proj1 (proj2 (run_simulation_is_deterministic Growth.default_config 12)
                  rs 3%nat r Hrun Hr)).
Defined.

Module Truncation.
Import Py PyFacts.

(** [int(x)] drops the fraction of [x]: it rounds toward zero. *)
Lemma int_of_float_truncates x v : int_of_float x = Ok v -> truncates x v.
Proof.
  destruct x as [s|s| |s m e]; cbn [int_of_float truncates]; intros H;
    try discriminate H; [injection H as <-; reflexivity|].
  set (t := match e with
            | Z.neg p => Z.pos m / 2 ^ Z.pos p
            | _ => Z.pos m * 2 ^ e
            end) in H.
  assert (Ht : 0 <= t /\
               if e <? 0
               then t * 2 ^ (- e) <= Z.pos m < (t + 1) * 2 ^ (- e)
               else t = Z.pos m * 2 ^ e).
  { subst t. destruct e as [|p|p].
    - change (0 <? 0) with false. change (2 ^ 0) with 1. lia.
    - change (Z.pos p <? 0) with false.
      assert (0 < 2 ^ Z.pos p) by (apply Z.pow_pos_nonneg; lia). split; [nia | reflexivity].
    - change (Z.neg p <? 0) with true. change (- Z.neg p) with (Z.pos p).
      assert (0 < 2 ^ Z.pos p) by (apply Z.pow_pos_nonneg; lia).
      split; [apply Z.div_pos; lia|].
      Z.to_euclidean_division_equations. nia. }
  clearbody t. injection H as <-. destruct Ht as [Ht0 Ht].
  split.
  - destruct s; cbn [cond_Zopp]; lia.
  - replace (Z.abs (cond_Zopp s t)) with t; [exact Ht|].
    destruct s; cbn [cond_Zopp]; lia.
Qed.

End Truncation.

(** C3.  In every record of a run the web-album chain goes upgrades,
    shares, views, downloads, installs, new hosts in that order: shares is
    [int(upgrades * share rate)], views is shares times viewers-per-share,
    and each of downloads, installs and new hosts is the [int(...)] of the
    step before times its rate.  [int] drops the fraction (toward zero); the
    result differs from truncating once at the end of the chain. *)
Theorem web_album_chain_truncates_each_step :
  (forall config months rs r,
      Growth.run_simulation config months = Py.Ok rs -> In r rs ->
      Growth.web_album_chain config (Growth.premium_upgrades r)
      = Py.Ok (Growth.web_albums_shared r, Growth.web_album_views r,
               Growth.web_downloads r, Growth.installs_from_web r,
               Growth.new_hosts_from_web r) /\
      Py.truncated_product (Growth.premium_upgrades r) (Growth.web_album_share_rate config)
      = Py.Ok (Growth.web_albums_shared r) /\
      Growth.web_album_views r
      = Growth.web_albums_shared r * Growth.non_app_viewers_per_share config /\
      Py.truncated_product (Growth.web_album_views r) (Growth.web_viewer_download_rate config)
      = Py.Ok (Growth.web_downloads r) /\
      Py.truncated_product (Growth.web_downloads r) (Growth.download_to_install_rate config)
      = Py.Ok (Growth.installs_from_web r) /\
      Py.truncated_product (Growth.installs_from_web r)
        (Growth.new_install_becomes_host_rate config)
      = Py.Ok (Growth.new_hosts_from_web r)) /\
  (forall n rate v,
      Py.truncated_product n rate = Py.Ok v ->
      exists x, Py.int_mul_float n rate = Py.Ok x /\ Py.truncates x v) /\
  (Growth.web_album_chain Growth.default_config 16 = Py.Ok (11, 55, 22, 3, 0) /\
   Growth.web_album_chain_truncated_once Growth.default_config 16 = Py.Ok 1).
Proof.
  split; [|split].
  - intros config months rs r H Hin.
    apply In_nth_error in Hin. destruct Hin as [i Hi].
    pose proof (GrowthFacts.mf_chain _ _ _ _ (RunFacts.growth_facts _ _ _ _ _ H Hi)) as Hc.
    split; [exact Hc|].
    unfold Growth.web_album_chain in Hc.
    apply PyFacts.bind_ok in Hc. destruct Hc as (shares & E1 & Hc).
    apply PyFacts.bind_ok in Hc. destruct Hc as (downloads & E2 & Hc).
    apply PyFacts.bind_ok in Hc. destruct Hc as (installs & E3 & Hc).
    apply PyFacts.bind_ok in Hc. destruct Hc as (hosts & E4 & Hc).
    inversion Hc; subst; clear Hc. repeat split; assumption.
  - intros n rate v H. apply PyFacts.truncated_product_ok in H.
    destruct H as (x & Hx & Hv). exists x. split; [exact Hx|].
    now apply Truncation.int_of_float_truncates.
  - split; vm_compute; reflexivity.
Qed.

Lemma web_album_chain_truncates_each_step_witness :
  exists rs r,
    Growth.run_simulation Growth.default_config 12 = Py.Ok rs /\
    nth_error rs 5 = Some r /\
    Py.truncated_product (Growth.premium_upgrades r)
      (Growth.web_album_share_rate Growth.default_config)
    = Py.Ok (Growth.web_albums_shared r).
Proof.
  destruct (Growth.run_simulation Growth.default_config 12) as [rs|e] eqn:Hrun;
    [|vm_compute in Hrun; discriminate Hrun].
  destruct (nth_error rs 5) as [r|] eqn:Hr;
    [|vm_compute in Hrun; injection Hrun as <-; discriminate Hr].
  exists rs, r. split; [reflexivity|]. split; [exact Hr|].
  exact (proj1 (proj2 (proj1 web_album_chain_truncates_each_step
                         Growth.default_config 12 rs r Hrun (nth_error_In rs 5 Hr)))).
Defined.

Module Ratios.
Import Py PyFacts Growth.

Lemma guarded_division_ok a b v :
  (if b >? 0 then q <- int_truediv a b ;; Ok (Float q) else Ok (Int 0)) = Ok v ->
  guarded_division a b v.
Proof.
  unfold guarded_division. destruct (b >? 0); intros H.
  - apply bind_ok in H. destruct H as (q & Hq & H).
    exists q. split; [exact Hq|]. inversion H; reflexivity.
  - inversion H; reflexivity.
Qed.

(** The two derived ratios of a month that returns. *)
Lemma simulate_month_ratios config st m r st' :
  simulate_month config st m = Ok (r, st') ->
  guarded_division (premium_upgrades r) (events_created r) (conversion_rate r) /\
  exists from_events,
    truncated_product (new_app_installs_from_events r) (literal 2 1) = Ok from_events /\
    guarded_division (new_hosts_from_web r + from_events)
      (active_hosts r - (new_hosts_from_web r + from_events)) (viral_coefficient r).
Proof.
  unfold simulate_month. intros H.
  repeat GrowthFacts.open_bind H.
  inversion H; subst; clear H.
  apply guarded_division_ok in E21, E22.
  cbn [active_hosts events_created new_app_installs_from_events premium_upgrades
       new_hosts_from_web conversion_rate viral_coefficient].
  split; [exact E21|].
  exists v20. split; [apply truncated_product_ok; eauto | exact E22].
Qed.

End Ratios.

(** C4 (amended).  [run_simulation] never divides by zero: a run never
    raises [ZeroDivisionError], and the only exceptions it can raise are
    [OverflowError] and [ValueError].  In every record of a run that returns,
    [conversion_rate] is the quotient [premium_upgrades / events_created],
    the division having returned it, when [events_created > 0], and the
    [int] 0 otherwise; and [viral_coefficient] is the quotient
    [new_hosts / (active_hosts - new_hosts)] when that denominator is
    positive and 0 otherwise, with [new_hosts] the hosts won from the web
    loop plus [int(new_app_installs_from_events * 0.2)]. *)
Theorem divisions_are_guarded config months :
  (forall e, Growth.run_simulation config months = Py.Raise e ->
             e <> Py.ZeroDivisionError /\ (e = Py.OverflowError \/ e = Py.ValueError)) /\
  (forall rs r,
      Growth.run_simulation config months = Py.Ok rs -> In r rs ->
      Py.guarded_division (Growth.premium_upgrades r) (Growth.events_created r)
        (Growth.conversion_rate r) /\
      exists from_events,
        Py.truncated_product (Growth.new_app_installs_from_events r) (Py.literal 2 1)
        = Py.Ok from_events /\
        Py.guarded_division (Growth.new_hosts_from_web r + from_events)
          (Growth.active_hosts r - (Growth.new_hosts_from_web r + from_events))
          (Growth.viral_coefficient r)).
Proof.
  split.
  - intros e H. destruct (RunFacts.growth_raise _ _ _ H) as [-> | ->];
      (split; [discriminate | auto]).
  - intros rs r H Hin.
    apply In_nth_error in Hin. destruct Hin as [i Hi].
    exact (Ratios.simulate_month_ratios _ _ _ _ _ (RunFacts.growth_nth _ _ _ _ _ H Hi)).
Qed.

Lemma divisions_are_guarded_witness :
  exists rs r,
    Growth.run_simulation Growth.default_config 12 = Py.Ok rs /\
    nth_error rs 0 = Some r /\
    Py.guarded_division (Growth.premium_upgrades r) (Growth.events_created r)
      (Growth.conversion_rate r).
Proof.
  destruct (Growth.run_simulation Growth.default_config 12) as [rs|e] eqn:Hrun;
    [|vm_compute in Hrun; discriminate Hrun].
  destruct (nth_error rs 0) as [r|] eqn:Hr;
    [|vm_compute in Hrun; injection Hrun as <-; discriminate Hr].
  exists rs, r. split; [reflexivity|]. split; [exact Hr|].
  exact (proj1 (proj2 (divisions_are_guarded Growth.default_config 12)
                  rs r Hrun (nth_error_In rs 0 Hr))).
Defined.

(** C4 as stated fails: on its default configuration the simulation raises
    once it is run for 2093 months, the active population having outgrown
    the floats. *)
Lemma run_simulation_fails_on_a_long_run :
  Growth.run_simulation Growth.default_config 2093 = Py.Raise Py.OverflowError.
Proof.
  (* 2093 months, on integers of up to 1024 bits *) vm_compute. reflexivity.
Qed.

(** A guarded division can itself raise: with one host who creates 2^1023
    events, the first month wins more than 2^1024 new hosts.  When no host is
    retained the denominator of [viral_coefficient] is 0, the division is
    skipped and the month returns; when the one host is retained the
    denominator is 1, the division is made and its quotient is too large
    for a float. *)
Lemma a_guarded_division_can_overflow :
  let config := {|
    Growth.initial_hosts := 1;
    Growth.events_per_host_per_month := S754_finite false 4503599627370496 971;
    Growth.avg_attendees_per_event := 1;
    Growth.attendees_already_have_app := Py.literal 0 1;
    Growth.post_reveal_upgrade_rate := Py.literal 1 0;
    Growth.web_album_share_rate := Py.literal 1 0;
    Growth.non_app_viewers_per_share := 1;
    Growth.web_viewer_download_rate := Py.literal 1 0;
    Growth.download_to_install_rate := Py.literal 1 0;
    Growth.new_install_becomes_host_rate := Py.literal 19 1;
    Growth.host_monthly_retention := Py.literal 0 1;
    Growth.premium_price_gbp := Py.literal 799 2
  |} in
  (exists r,
     Growth.run_simulation config 1 = Py.Ok [r] /\
     2 ^ 1024 <= Growth.active_hosts r /\
     Growth.viral_coefficient r = Py.Int 0) /\
  Growth.run_simulation (Growth.set_host_monthly_retention (Py.literal 1 0) config) 1
  = Py.Raise Py.OverflowError.
Proof.
  cbv zeta. split.
  - eexists. split; [vm_compute; reflexivity|].
    split; [vm_compute; discriminate | reflexivity].
  - vm_compute. reflexivity.
Qed.

(** C5.  With 50 initial hosts, 0.8 events per host and month, an upgrade
    rate of 0.25 and a price of 7.99, the first record has 40 events, 10
    upgrades and a revenue of 79.90. *)
Theorem first_month_of_the_documented_scenario config months rs :
  Growth.initial_hosts config = 50 ->
  Growth.events_per_host_per_month config = Py.literal 8 1 ->
  Growth.post_reveal_upgrade_rate config = Py.literal 25 2 ->
  Growth.premium_price_gbp config = Py.literal 799 2 ->
  Growth.run_simulation config months = Py.Ok rs ->
  1 <= months ->
  exists r,
    nth_error rs 0 = Some r /\
    Growth.events_created r = 40 /\
    Growth.premium_upgrades r = 10 /\
    Growth.revenue_gbp r = Py.literal 7990 2.
Proof.
  intros Hhosts Hrate Hupgrade Hprice Hrun Hmonths.
  pose proof (RunFacts.growth_length _ _ _ Hrun) as Hlen.
  destruct rs as [|r rs]; [simpl in Hlen; lia|].
  exists r. split; [reflexivity|].
  pose proof (RunFacts.growth_facts _ _ _ 0%nat r Hrun eq_refl) as F.
  pose proof (GrowthFacts.mf_events _ _ _ _ F) as He.
  pose proof (GrowthFacts.mf_upgrades _ _ _ _ F) as Hu.
  pose proof (GrowthFacts.mf_revenue _ _ _ _ F) as Hr.
  cbn [Growth.entering Py.state_before Growth.initial Growth.r_active_hosts] in He.
  rewrite Hhosts, Hrate in He.
  assert (C1 : Py.truncated_product 50 (Py.literal 8 1) = Py.Ok 40)
    by (vm_compute; reflexivity).
  assert (C2 : Py.truncated_product 40 (Py.literal 25 2) = Py.Ok 10)
    by (vm_compute; reflexivity).
  assert (C3 : Py.int_mul_float 10 (Py.literal 799 2) = Py.Ok (Py.literal 7990 2))
    by (vm_compute; reflexivity).
  assert (E : Growth.events_created r = 40) by congruence.
  rewrite E, Hupgrade in Hu.
  assert (U : Growth.premium_upgrades r = 10) by congruence.
  rewrite U, Hprice in Hr.
  assert (R : Growth.revenue_gbp r = Py.literal 7990 2) by congruence.
  auto.
Qed.

Lemma first_month_of_the_documented_scenario_witness :
  exists rs r,
    Growth.run_simulation Growth.default_config 12 = Py.Ok rs /\
    nth_error rs 0 = Some r /\
    Growth.events_created r = 40 /\
    Growth.premium_upgrades r = 10 /\
    Growth.revenue_gbp r = Py.literal 7990 2.
Proof.
  destruct (Growth.run_simulation Growth.default_config 12) as [rs|e] eqn:Hrun;
    [|vm_compute in Hrun; discriminate Hrun].
  destruct (first_month_of_the_documented_scenario Growth.default_config 12 rs
              eq_refl eq_refl eq_refl eq_refl Hrun ltac:(lia)) as (r & H).
  exists rs, r. split; [reflexivity | exact H].
Defined.

Module Presets.
Import Py PyFacts Gtm.

(** Two loop bodies that agree give the same loop. *)
Lemma for_each_ext {S R : Type} (body body' : S -> Z -> result (R * S)) :
  (forall st m, body st m = body' st m) ->
  forall ms st acc, for_each body ms st acc = for_each body' ms st acc.
Proof.
  intros Hext. induction ms as [|m ms IH]; intros st acc; cbn [for_each]; [reflexivity|].
  rewrite Hext. destruct (body' st m) as [[r st']|e]; cbn [bind]; [apply IH | reflexivity].
Qed.

(** A month reads the presets through [tiktok_installs] only. *)
Lemma simulate_month_presets low mid high config tiktok st m :
  simulate_month (with_presets low mid high config) tiktok st m
  = simulate_month config tiktok st m.
Proof.
  reflexivity.
Qed.

End Presets.

(** C10.  In both simulations the cumulative revenue of the m-th record is
    the sum, accumulated in order from 0.0 in float arithmetic, of the
    revenues of records 1 to m. *)
Theorem cumulative_revenue_is_the_running_sum :
  (forall config months rs n r,
      Growth.run_simulation config months = Py.Ok rs ->
      nth_error rs n = Some r ->
      Growth.cumulative_revenue_gbp r
      = Py.float_sum (map Growth.revenue_gbp (firstn (S n) rs))) /\
  (forall config months scenario rs n d,
      Gtm.run_gtm_simulation config months scenario = Py.Ok rs ->
      nth_error rs n = Some d ->
      Gtm.cumulative_revenue d
      = Py.float_sum (map Gtm.revenue (firstn (S n) rs))).
Proof.
  split.
  - intros config months rs n r H Hn. apply RunFacts.growth_ok in H.
    refine (RunFacts.iterations_cumulative (Growth.simulate_month config)
              Growth.r_cumulative_revenue Growth.revenue_gbp
              Growth.cumulative_revenue_gbp _ _ _ _ H n r Hn).
    intros st m r' st' Hb. apply GrowthFacts.simulate_month_ok in Hb.
    destruct Hb as [-> F]. split; [exact (GrowthFacts.mf_cumulative _ _ _ _ F) | reflexivity].
  - intros config months scenario rs n d H Hn. apply RunFacts.gtm_ok in H.
    destruct H as (tiktok & _ & H).
    refine (RunFacts.iterations_cumulative (Gtm.simulate_month config tiktok)
              Gtm.r_cumulative_revenue Gtm.revenue Gtm.cumulative_revenue _ _ _ _ H n d Hn).
    intros st m d' st' Hb. apply GtmFacts.gtm_month_ok in Hb. tauto.
Qed.

Lemma cumulative_revenue_is_the_running_sum_witness :
  exists rs r,
    Growth.run_simulation Growth.default_config 12 = Py.Ok rs /\
    nth_error rs 11 = Some r /\
    Growth.cumulative_revenue_gbp r = Py.float_sum (map Growth.revenue_gbp (firstn 12 rs)).
Proof.
  destruct (Growth.run_simulation Growth.default_config 12) as [rs|e] eqn:Hrun;
    [|vm_compute in Hrun; discriminate Hrun].
  destruct (nth_error rs 11) as [r|] eqn:Hr;
    [|vm_compute in Hrun; injection Hrun as <-; discriminate Hr].
  exists rs, r. split; [reflexivity|]. split; [exact Hr|].
  exact (proj1 cumulative_revenue_is_the_running_sum Growth.default_config 12 rs 11%nat r Hrun Hr).
Defined.

Module Revenue.
Import Py PyFacts Binary64.

(** A conversion of an integer is a zero or a normal number, of the sign
    of the integer. *)
Lemma binary_round_int_shape s p x :
  binary_round prec emax s p 0 = x ->
  x = S754_infinity s \/ x = S754_zero s \/
  exists m e, x = S754_finite s m e /\
              bounded prec emax m e = true /\ Z.pos (digits2_pos m) = 53.
Proof.
  intros <-.
  destruct (binary_round_unfold s p 0) as (mz & ez & Hb & _ & _ & Hpre).
  destruct (binary_round_aux_spec s mz ez Hpre)
    as (m1 & _ & _ & [[_ Hz] | (m2 & e2 & _ & _ & _ & Hf)]).
  - right. left. rewrite Hb. exact Hz.
  - pose proof (round_pos_normal s p m2 e2) as Hn. rewrite Hb, Hf in Hn |- *.
    destruct (e2 <=? emax - prec); [|left; reflexivity].
    right. right. exists m2, e2. destruct (Hn eq_refl). auto.
Qed.

Lemma float_of_int_shape a x :
  float_of_int a = Ok x ->
  x = S754_zero (a <? 0) \/
  exists m e, x = S754_finite (a <? 0) m e /\
              bounded prec emax m e = true /\ Z.pos (digits2_pos m) = 53.
Proof.
  unfold float_of_int, round_int, binary_normalize.
  destruct a as [|p|p].
  - intros H. injection H as <-. left. reflexivity.
  - change (Z.pos p <? 0) with false.
    destruct (binary_round_int_shape false p _ eq_refl) as [-> | [-> | (m & e & -> & Hm)]];
      intros H; try discriminate H; injection H as <-; eauto.
  - change (Z.neg p <? 0) with true.
    destruct (binary_round_int_shape true p _ eq_refl) as [-> | [-> | (m & e & -> & Hm)]];
      intros H; try discriminate H; injection H as <-; eauto.
Qed.

(** A product of an [int] and a [float] is a binary64 datum. *)
Lemma int_mul_float_valid a x y : int_mul_float a x = Ok y -> valid y = true.
Proof.
  unfold int_mul_float. intros H. apply bind_ok in H. destruct H as (fa & Ha & H).
  injection H as <-.
  destruct (float_of_int_shape a fa Ha) as [-> | (m & e & -> & _ & Hd)].
  - destruct x; reflexivity.
  - apply float_mul_normal_valid. exact Hd.
Qed.

(** Adding a revenue that is not negative keeps the total a non-negative
    datum and does not decrease it. *)
Lemma float_add_nonneg c r :
  valid c = true -> float_le zero c = true ->
  valid r = true -> float_le zero r = true ->
  valid (float_add c r) = true /\ float_le zero (float_add c r) = true /\
  float_le c (float_add c r) = true.
Proof.
  intros Hvc Hc Hvr Hr.
  destruct c as [sc|sc| |sc mc ec]; try discriminate Hc;
    destruct r as [sr|sr| |sr mr er]; try discriminate Hr.
  - destruct sc, sr; repeat split; reflexivity.
  - destruct sr; [discriminate Hr|]. destruct sc; repeat split; reflexivity.
  - destruct sr; [discriminate Hr|].
    change (float_add (S754_zero sc) (S754_finite false mr er)) with (S754_finite false mr er).
    split; [exact Hvr | split; [reflexivity | destruct sc; reflexivity]].
  - destruct sc; [discriminate Hc|]. repeat split; reflexivity.
  - destruct sc; [discriminate Hc|]. destruct sr; [discriminate Hr|].
    repeat split; reflexivity.
  - destruct sc; [discriminate Hc|]. repeat split; reflexivity.
  - destruct sc; [discriminate Hc|].
    change (float_add (S754_finite false mc ec) (S754_zero sr))
      with (S754_finite false mc ec).
    split; [exact Hvc | split; [reflexivity | apply float_le_refl_finite]].
  - destruct sc; [discriminate Hc|]. destruct sr; [discriminate Hr|].
    repeat split; reflexivity.
  - destruct sc; [discriminate Hc|]. destruct sr; [discriminate Hr|].
    destruct (float_add_ge mc ec mr er Hvc) as [[Hinf | (m2 & e2 & Hf & Hb)] Hle].
    + rewrite Hinf in *. repeat split; reflexivity.
    + rewrite Hf in *. split; [exact Hb | split; [reflexivity | exact Hle]].
Qed.

(** The revenue total of every record of a run whose revenues are never
    negative. *)
Lemma cumulative_nonneg config months rs :
  Growth.run_simulation config months = Ok rs ->
  (forall r, In r rs -> float_le zero (Growth.revenue_gbp r) = true) ->
  forall i r, nth_error rs i = Some r ->
    valid (Growth.cumulative_revenue_gbp r) = true /\
    float_le zero (Growth.cumulative_revenue_gbp r) = true /\
    float_le (Growth.r_cumulative_revenue (Growth.entering config rs i))
             (Growth.cumulative_revenue_gbp r) = true.
Proof.
  intros Hrun Hrev. induction i as [|i IH]; intros r Hi.
  - pose proof (RunFacts.growth_facts _ _ _ _ _ Hrun Hi) as F.
    rewrite (GrowthFacts.mf_cumulative _ _ _ _ F).
    apply float_add_nonneg; try reflexivity.
    + exact (int_mul_float_valid _ _ _ (GrowthFacts.mf_revenue _ _ _ _ F)).
    + apply Hrev. eapply nth_error_In; eassumption.
  - pose proof (RunFacts.growth_facts _ _ _ _ _ Hrun Hi) as F.
    rewrite (GrowthFacts.mf_cumulative _ _ _ _ F).
    destruct (nth_error rs i) as [p|] eqn:Hp.
    + destruct (IH p eq_refl) as (Hv & Hz & _).
      unfold Growth.entering. cbn [state_before]. rewrite Hp.
      cbn [Growth.running_after Growth.r_cumulative_revenue].
      apply float_add_nonneg; try assumption.
      * exact (int_mul_float_valid _ _ _ (GrowthFacts.mf_revenue _ _ _ _ F)).
      * apply Hrev. eapply nth_error_In; eassumption.
    + apply nth_error_None in Hp.
      assert (Hnone : nth_error rs (S i) = None) by (apply nth_error_None; lia).
      congruence.
Qed.

End Revenue.

(** C6 as stated fails: with a negative price the total goes down. *)
Lemma cumulative_revenue_decreases_with_a_negative_price :
  exists r1 r2,
    Growth.run_simulation
      (Growth.set_premium_price_gbp (Py.literal (-799) 2) Growth.default_config) 2
    = Py.Ok [r1; r2] /\
    Py.float_le (Growth.cumulative_revenue_gbp r1) (Growth.cumulative_revenue_gbp r2) = false.
Proof.
  do 2 eexists. split; [vm_compute; reflexivity|]. vm_compute. reflexivity.
Qed.

Module Funnel.
Import Py PyFacts Binary64.

Lemma float_of_int_zero : float_of_int 0 = Ok zero.
Proof. reflexivity. Qed.

(** Nothing comes out of an empty population. *)
Lemma truncated_product_zero rate v : truncated_product 0 rate = Ok v -> v = 0.
Proof.
  unfold truncated_product, int_mul_float. rewrite float_of_int_zero. cbn [bind].
  destruct rate as [s|s| |s m e]; cbn; intros H; try discriminate H;
    injection H as <-; reflexivity.
Qed.

(** One step of a funnel at a rate in [0, 1] keeps at most what went in. *)
Lemma truncated_product_le a rate v :
  0 <= a < 2 ^ 53 ->
  valid rate = true -> float_le zero rate = true -> float_le rate one = true ->
  truncated_product a rate = Ok v ->
  0 <= v <= a.
Proof.
  intros Ha Hvalid H0 H1 H.
  destruct (Z.eq_dec a 0) as [->|Hne].
  - apply truncated_product_zero in H. lia.
  - apply truncated_product_ok in H. destruct H as (x & Hx & Hv).
    unfold int_mul_float, float_of_int in Hx.
    destruct (round_int_exact a) as (m & e & Hr & Hb & He & Hm); [lia|].
    rewrite Hr in Hx. cbn [bind] in Hx. injection Hx as <-.
    destruct rate as [sr|sr| |sr mr er]; try discriminate H0; try discriminate H1.
    + cbn in Hv. injection Hv as <-. lia.
    + destruct sr; [discriminate H0 | discriminate H1].
    + destruct sr; [discriminate H0|].
      assert (Hc : canonical_mantissa prec emax mr er = true).
      { unfold valid, valid_binary in Hvalid. apply bounded_inv in Hvalid. tauto. }
      destruct (finite_le_one mr er Hc H1) as [Her Hmr].
      change (int_of_float (float_mul (S754_finite false m e) (S754_finite false mr er))
              = Ok v) in Hv.
      destruct (float_mul_le_left m e mr er Hb) as [Hz | (m2 & e2 & Hf & He2 & Hle)];
        [lia | exact Hmr | |].
      * rewrite Hz in Hv. cbn in Hv. injection Hv as <-. lia.
      * rewrite Hf in Hv.
        destruct (int_of_float_le m2 e2 a (e + er)) as (t & Ht & Hbound); [lia | lia | |].
        -- replace (- (e + er)) with (- e + - er) by lia.
           rewrite Z.pow_add_r, Z.mul_assoc, <- Hm by lia. exact Hle.
        -- rewrite Ht in Hv. injection Hv as <-. exact Hbound.
Qed.

End Funnel.

(** C7 (amended).  With [events_per_host_per_month] in [0, 1], the events of
    a month are not negative and are at most the active population entering
    the month (the initial hosts for the first record, the [active_hosts] of
    the record before otherwise), when that population is not negative and
    below [2^53]. *)
Theorem events_bounded_by_entering_population config months rs i r :
  Growth.run_simulation config months = Py.Ok rs ->
  nth_error rs i = Some r ->
  Py.valid (Growth.events_per_host_per_month config) = true ->
  Py.float_le Py.zero (Growth.events_per_host_per_month config) = true ->
  Py.float_le (Growth.events_per_host_per_month config) Py.one = true ->
  0 <= Growth.r_active_hosts (Growth.entering config rs i) < 2 ^ 53 ->
  0 <= Growth.events_created r <= Growth.r_active_hosts (Growth.entering config rs i).
Proof.
  intros Hrun Hi Hvalid H0 H1 Ha.
  pose proof (RunFacts.growth_facts _ _ _ _ _ Hrun Hi) as F.
  exact (Funnel.truncated_product_le _ _ _ Ha Hvalid H0 H1 (GrowthFacts.mf_events _ _ _ _ F)).
Qed.

Lemma events_bounded_by_entering_population_witness :
  exists rs r,
    Growth.run_simulation Growth.default_config 12 = Py.Ok rs /\
    nth_error rs 0 = Some r /\
    0 <= Growth.events_created r
      <= Growth.r_active_hosts (Growth.entering Growth.default_config rs 0).
Proof.
  destruct (Growth.run_simulation Growth.default_config 12) as [rs|e] eqn:Hrun;
    [|vm_compute in Hrun; discriminate Hrun].
  destruct (nth_error rs 0) as [r|] eqn:Hr;
    [|vm_compute in Hrun; injection Hrun as <-; discriminate Hr].
  exists rs, r. split; [reflexivity|]. split; [exact Hr|].
  apply (events_bounded_by_entering_population Growth.default_config 12 rs 0 r Hrun Hr);
    try (vm_compute; reflexivity).
  cbn. split; [discriminate | reflexivity].
Defined.

(** C7 as stated fails: when no host is retained, the month's events exceed
    the [active_hosts] of its record. *)
Lemma events_exceed_the_recorded_active_hosts :
  exists r,
    Growth.run_simulation
      (Growth.set_host_monthly_retention (Py.literal 0 1) Growth.default_config) 1
    = Py.Ok [r] /\
    Growth.events_created r = 40 /\ Growth.active_hosts r = 26 /\
    ~ Growth.events_created r <= Growth.active_hosts r.
Proof.
  eexists. split; [vm_compute; reflexivity|].
  cbn [Growth.events_created Growth.active_hosts].
  split; [reflexivity | split; [reflexivity | lia]].
Qed.

Module Empty.
Import Py PyFacts Growth.

(** A month entered with no active host and a total of [0.0]. *)
Lemma empty_month config st m r :
  r_active_hosts st = 0 -> r_cumulative_revenue st = zero ->
  is_finite (premium_price_gbp config) = true ->
  GrowthFacts.month_facts config st m r ->
  events_created r = 0 /\ premium_upgrades r = 0 /\
  is_zero (revenue_gbp r) = true /\ cumulative_revenue_gbp r = zero /\
  viral_coefficient r = Int 0 /\ active_hosts r = 0.
Proof.
  intros Ha Hc Hprice F.
  pose proof (GrowthFacts.mf_events _ _ _ _ F) as He. rewrite Ha in He.
  apply Funnel.truncated_product_zero in He.
  pose proof (GrowthFacts.mf_upgrades _ _ _ _ F) as Hu. rewrite He in Hu.
  apply Funnel.truncated_product_zero in Hu.
  pose proof (GrowthFacts.mf_revenue _ _ _ _ F) as Hr. rewrite Hu in Hr.
  unfold int_mul_float in Hr. rewrite Funnel.float_of_int_zero in Hr. cbn [bind] in Hr.
  injection Hr as Hr.
  pose proof (GrowthFacts.mf_cumulative _ _ _ _ F) as Hcum. rewrite Hc, <- Hr in Hcum.
  assert (Hrev : is_zero (revenue_gbp r) = true /\ cumulative_revenue_gbp r = zero).
  { rewrite Hcum, <- Hr.
    destruct (premium_price_gbp config) as [s|s| |s mp ep]; try discriminate Hprice;
      destruct s; split; reflexivity. }
  pose proof (GrowthFacts.mf_attendees _ _ _ _ F) as Hatt. rewrite He in Hatt.
  destruct (GrowthFacts.mf_installs _ _ _ _ F) as (y & without_app & _ & H1 & H2).
  rewrite Hatt in H1. cbn [Z.mul] in H1.
  apply Funnel.truncated_product_zero in H1. subst without_app.
  apply Funnel.truncated_product_zero in H2.
  pose proof (GrowthFacts.mf_chain _ _ _ _ F) as Hchain. rewrite Hu in Hchain.
  unfold web_album_chain in Hchain.
  apply bind_ok in Hchain. destruct Hchain as (shares & E1 & Hchain).
  apply Funnel.truncated_product_zero in E1. subst shares. cbn [Z.mul] in Hchain.
  apply bind_ok in Hchain. destruct Hchain as (downloads & E2 & Hchain).
  apply Funnel.truncated_product_zero in E2. subst downloads.
  apply bind_ok in Hchain. destruct Hchain as (installs & E3 & Hchain).
  apply Funnel.truncated_product_zero in E3. subst installs.
  apply bind_ok in Hchain. destruct Hchain as (hosts & E4 & Hchain).
  apply Funnel.truncated_product_zero in E4. subst hosts.
  injection Hchain as _ _ _ _ Hweb.
  destruct (GrowthFacts.mf_hosts _ _ _ _ F)
    as (retained & from_events & H3 & H4 & _ & H5 & H6).
  rewrite Ha in H3. apply Funnel.truncated_product_zero in H3.
  rewrite H2 in H4. apply Funnel.truncated_product_zero in H4.
  subst retained from_events. rewrite <- Hweb in H5, H6.
  repeat split; try tauto; assumption.
Qed.

Lemma empty_run config months rs :
  initial_hosts config = 0 ->
  is_finite (premium_price_gbp config) = true ->
  run_simulation config months = Ok rs ->
  forall i r, nth_error rs i = Some r ->
    events_created r = 0 /\ premium_upgrades r = 0 /\
    is_zero (revenue_gbp r) = true /\ cumulative_revenue_gbp r = zero /\
    viral_coefficient r = Int 0 /\ active_hosts r = 0.
Proof.
  intros Hinit Hprice Hrun. induction i as [|i IH]; intros r Hi.
  - pose proof (RunFacts.growth_facts _ _ _ _ _ Hrun Hi) as F.
    exact (empty_month config (initial config) _ r Hinit eq_refl Hprice F).
  - pose proof (RunFacts.growth_facts _ _ _ _ _ Hrun Hi) as F.
    destruct (nth_error rs i) as [p|] eqn:Hp.
    + destruct (IH p eq_refl) as (_ & _ & _ & Hc & _ & Ha).
      refine (empty_month config _ _ r _ _ Hprice F);
        unfold entering; cbn [state_before]; rewrite Hp; assumption.
    + apply nth_error_None in Hp.
      assert (Hnone : nth_error rs (S i) = None) by (apply nth_error_None; lia).
      congruence.
Qed.

End Empty.

(** C8 (amended).  With no initial host and a finite price, every record of
    a run reports no event, no upgrade, a revenue of zero, a cumulative
    revenue of 0.0 and a viral coefficient of 0. *)
Theorem nothing_grows_from_no_host config months rs r :
  Growth.initial_hosts config = 0 ->
  Py.is_finite (Growth.premium_price_gbp config) = true ->
  Growth.run_simulation config months = Py.Ok rs ->
  In r rs ->
  Growth.events_created r = 0 /\
  Growth.premium_upgrades r = 0 /\
  Py.is_zero (Growth.revenue_gbp r) = true /\
  Growth.cumulative_revenue_gbp r = Py.zero /\
  Growth.viral_coefficient r = Py.Int 0.
Proof.
  intros Hinit Hprice Hrun Hin.
  apply In_nth_error in Hin. destruct Hin as [i Hi].
  destruct (Empty.empty_run config months rs Hinit Hprice Hrun i r Hi)
    as (H1 & H2 & H3 & H4 & H5 & _).
  auto.
Qed.

Lemma nothing_grows_from_no_host_witness :
  exists rs r,
    Growth.run_simulation (Growth.set_initial_hosts 0 Growth.default_config) 12 = Py.Ok rs /\
    nth_error rs 11 = Some r /\
    Growth.events_created r = 0 /\
    Growth.premium_upgrades r = 0 /\
    Py.is_zero (Growth.revenue_gbp r) = true /\
    Growth.cumulative_revenue_gbp r = Py.zero /\
    Growth.viral_coefficient r = Py.Int 0.
Proof.
  destruct (Growth.run_simulation (Growth.set_initial_hosts 0 Growth.default_config) 12)
    as [rs|e] eqn:Hrun; [|vm_compute in Hrun; discriminate Hrun].
  destruct (nth_error rs 11) as [r|] eqn:Hr;
    [|vm_compute in Hrun; injection Hrun as <-; discriminate Hr].
  exists rs, r. split; [reflexivity|]. split; [exact Hr|].
  exact (nothing_grows_from_no_host (Growth.set_initial_hosts 0 Growth.default_config)
           12 rs r eq_refl eq_refl Hrun (nth_error_In rs 11 Hr)).
Defined.

(** C8 as stated fails: with no initial host and an infinite price the
    revenue of the month is NaN, not zero. *)
Lemma revenue_is_nan_at_an_infinite_price :
  exists r,
    Growth.run_simulation
      (Growth.set_premium_price_gbp (S754_infinity false)
         (Growth.set_initial_hosts 0 Growth.default_config)) 1
    = Py.Ok [r] /\
    Growth.revenue_gbp r = S754_nan /\
    Growth.cumulative_revenue_gbp r = S754_nan /\
    Py.is_zero (Growth.revenue_gbp r) = false.
Proof.
  eexists. split; [vm_compute; reflexivity|]. cbn. repeat split.
Qed.

(** ** Bookkeeping of the user counts *)

Module Counts.
Import Py PyFacts.

Lemma int_sum_cons a xs : int_sum (a :: xs) = a + int_sum xs.
Proof.
  unfold int_sum. cbn [fold_left]. rewrite Z.add_0_l.
  revert a. induction xs as [|x xs IH]; intros a; cbn [fold_left]; [lia|].
  rewrite (IH (a + x)), (IH (0 + x)). lia.
Qed.

(** A counter that each iteration increases by what its record shows, over
    months that satisfy [P]. *)
Lemma iterations_total {S R : Type} (body : S -> Z -> result (R * S))
    (total : S -> Z) (inc cum : R -> Z) (P : Z -> Prop) ms :
  (forall st m r st', P m -> body st m = Ok (r, st') ->
                      cum r = total st + inc r /\ total st' = cum r) ->
  forall st rs,
    Forall P ms ->
    iterations body ms st rs ->
    forall n r, nth_error rs n = Some r ->
      cum r = total st + int_sum (map inc (firstn (Datatypes.S n) rs)).
Proof.
  intros Hstep. induction ms as [|m ms IH]; intros st rs HP H n r Hn;
    inversion H as [|? ? ? r' st' rs' Hb Hrest]; subst.
  - destruct n; discriminate.
  - inversion HP as [|? ? Hm Hms]; subst.
    destruct (Hstep _ _ _ _ Hm Hb) as [Hcum Htotal].
    cbn [firstn map]. rewrite int_sum_cons.
    destruct n as [|n].
    + cbn in Hn. injection Hn as <-. cbn [firstn map]. change (int_sum []) with 0. lia.
    + cbn in Hn. rewrite (IH st' rs' Hms Hrest n r Hn) in *. lia.
Qed.

Lemma months_from lo hi : Forall (fun m => lo <= m) (range lo hi).
Proof.
  unfold range. apply Forall_forall. intros m Hin.
  apply in_map_iff in Hin. destruct Hin as (i & <- & _). lia.
Qed.

End Counts.

(** ** The plan of the go-to-market run, month by month *)

Module Schedule.
Import Py PyFacts Gtm.
Local Open Scope string_scope.
Local Open Scope Z_scope.

Ltac open_month H :=
  repeat match type of H with
  | bind _ _ = Ok _ =>
      let a := fresh "v" in
      let E := fresh "E" in
      apply bind_ok in H; destruct H as (a & E & H)
  | context [if ?b then _ else _] =>
      let C := fresh "C" in destruct b eqn:C
  | (match ?p with (_, _) => _ end) = Ok _ => destruct p
  | _ => progress cbv beta in H
  end.

(** What the phase branches leave in the record and in the pools. *)
Lemma acquire_facts config tiktok st m inp st1 :
  acquire config tiktok st m = Ok (inp, st1) ->
  i_phase inp = phase_of_month m /\
  i_seed inp = (if m =? 1 then seed_users config else 0) /\
  (m <= 2 \/ 5 <= m -> i_b2b inp = 0) /\
  (3 <= m <= 4 -> rave_installs config = Ok (i_b2b inp)) /\
  (m <= 4 -> i_tiktok inp = 0) /\
  (m = 5 -> truncated_product tiktok (literal 5 1) = Ok (i_tiktok inp)) /\
  (m = 6 -> truncated_product tiktok (literal 10 1) = Ok (i_tiktok inp)) /\
  (7 <= m -> i_tiktok inp = tiktok) /\
  (m <> 7 -> i_festival inp = 0) /\
  (m = 7 -> truncated_product (festival_attendees config) (festival_app_install_rate config)
            = Ok (i_festival inp)) /\
  ((m = 1 -> r_seed_users st = 0) ->
   pooled_users st1
   = pooled_users st + (i_seed inp + i_b2b inp + i_tiktok inp + i_festival inp)).
Proof.
  unfold acquire, phase_of_month, pooled_users. intros H.
  open_month H; injection H as <- <-;
    repeat match goal with
    | E : context [if ?b then _ else _] |- _ => let C := fresh "C" in destruct b eqn:C
    end;
    cbn [i_phase i_seed i_b2b i_tiktok i_festival r_seed_users r_b2b_users
         r_tiktok_users r_festival_users r_web_loop_users];
    repeat split; try reflexivity; try lia;
    try (destruct (Z.eqb_spec m 1); [exfalso; lia | reflexivity]);
    try (intros; exfalso; lia);
    try (intros; apply truncated_product_ok; eauto; fail);
    try (intros; assumption).
Qed.

Lemma continue_b2b_facts config inp st1 m inp' st2 :
  continue_b2b config inp st1 m = Ok (inp', st2) ->
  i_phase inp' = i_phase inp /\ i_seed inp' = i_seed inp /\
  i_tiktok inp' = i_tiktok inp /\ i_festival inp' = i_festival inp /\
  (m <= 4 -> i_b2b inp' = i_b2b inp) /\
  pooled_users st2 = pooled_users st1 + (if m >? 4 then i_b2b inp' else 0).
Proof.
  unfold continue_b2b, pooled_users. intros H.
  destruct (m >? 4) eqn:C.
  - open_month H; injection H as <- <-;
      cbn [i_phase i_seed i_b2b i_tiktok i_festival r_seed_users r_b2b_users
           r_tiktok_users r_festival_users r_web_loop_users];
      repeat split; try reflexivity; try lia.
  - injection H as <- <-. repeat split; try reflexivity; lia.
Qed.

Lemma simulate_month_plan config tiktok st m d st' :
  simulate_month config tiktok st m = Ok (d, st') ->
  month_plan config tiktok m d /\
  ((m = 1 -> r_seed_users st = 0) ->
   total_users d = pooled_users st + new_users d /\ pooled_users st' = total_users d).
Proof.
  unfold simulate_month. intros H.
  apply bind_ok in H. destruct H as ([inp st1] & Hacq & H).
  apply bind_ok in H. destruct H as ([inp' st2] & Hb2b & H).
  apply acquire_facts in Hacq.
  destruct Hacq as (A1 & A2 & A3 & A4 & A5 & A6 & A7 & A8 & A9 & A10 & A11).
  apply continue_b2b_facts in Hb2b. destruct Hb2b as (B1 & B2 & B3 & B4 & B5 & B6).
  open_month H. injection H as <- <-.
  split.
  - constructor; cbn [month phase new_users_from_seed new_users_from_b2b
                      new_users_from_tiktok new_users_from_festival];
      rewrite ?B1, ?B2, ?B3, ?B4; try assumption; try reflexivity.
    + intros Hm. rewrite B5 by lia. apply A3. lia.
    + intros Hm. rewrite B5 by lia. apply A4. lia.
  - intros Hseed. specialize (A11 Hseed).
    unfold new_users, pooled_users in *.
    cbn [total_users new_users_from_seed new_users_from_b2b new_users_from_tiktok
         new_users_from_festival installs_from_web r_seed_users r_b2b_users
         r_tiktok_users r_festival_users r_web_loop_users] in *.
    rewrite B2, B3, B4.
    destruct (m >? 4) eqn:C.
    + rewrite A3 in A11 by lia. lia.
    + rewrite B5 by lia. lia.
Qed.

(** The record at a position of a finished loop came out of its body. *)
Lemma iterations_nth_body {S R : Type} (body : S -> Z -> result (R * S)) ms :
  forall st rs i r,
    iterations body ms st rs -> nth_error rs i = Some r ->
    exists m st0 st1, nth_error ms i = Some m /\ body st0 m = Ok (r, st1).
Proof.
  induction ms as [|m ms IH]; intros st rs i r H Hi;
    inversion H as [|? ? ? r' st' rs' Hb Hrest]; subst.
  - destruct i; discriminate.
  - destruct i as [|i]; cbn in Hi.
    + injection Hi as <-. exists m, st, st'. split; [reflexivity | assumption].
    + destruct (IH _ _ _ _ Hrest Hi) as (m' & st0 & st1 & Hm & Hb').
      exists m', st0, st1. split; assumption.
Qed.

Lemma months_range_head months :
  1 <= months -> range 1 (months + 1) = 1 :: range 2 (months + 1).
Proof.
  intros H. unfold range.
  replace (Z.to_nat (months + 1 - 1)) with (Datatypes.S (Z.to_nat (months + 1 - 2))) by lia.
  cbn [seq map]. f_equal.
  rewrite <- seq_shift, map_map. apply map_ext. intros i. lia.
Qed.

End Schedule.

(** C9.  The scenario is one of "low", "mid" and "high" (any other raises
    [KeyError]) and picks [tiktok_monthly_installs_low], [_mid] or [_high] as
    the monthly TikTok installs of the whole run: the records of months 1 to
    4 have no TikTok installs, that of month 5 has [int(preset * 0.5)], that
    of month 6 [int(preset * 1.0)] and every later one the preset itself.
    Nothing else of the run depends on the scenario or on the three presets,
    so that two runs whose picked presets are equal return the same. *)
Theorem tiktok_scenario_selects_one_preset :
  (forall config,
      Gtm.tiktok_preset config "low" = Py.Ok (Gtm.tiktok_monthly_installs_low config) /\
      Gtm.tiktok_preset config "mid" = Py.Ok (Gtm.tiktok_monthly_installs_mid config) /\
      Gtm.tiktok_preset config "high" = Py.Ok (Gtm.tiktok_monthly_installs_high config)) /\
  (forall config months scenario,
      ~ In scenario Gtm.scenarios ->
      Gtm.run_gtm_simulation config months scenario = Py.Raise Py.KeyError) /\
  (forall config months scenario tiktok,
      Gtm.tiktok_preset config scenario = Py.Ok tiktok ->
      Gtm.run_gtm_simulation config months scenario
      = Py.for_each (Gtm.simulate_month config tiktok) (Py.range 1 (months + 1))
          Gtm.initial []) /\
  (forall config months scenario scenario' low mid high,
      In scenario Gtm.scenarios ->
      Gtm.tiktok_preset config scenario
      = Gtm.tiktok_preset (Gtm.with_presets low mid high config) scenario' ->
      Gtm.run_gtm_simulation config months scenario
      = Gtm.run_gtm_simulation (Gtm.with_presets low mid high config) months scenario') /\
  (forall config months scenario rs i d,
      Gtm.run_gtm_simulation config months scenario = Py.Ok rs ->
      nth_error rs i = Some d ->
      exists preset,
        Gtm.tiktok_preset config scenario = Py.Ok preset /\
        (Z.of_nat i + 1 <= 4 -> Gtm.new_users_from_tiktok d = 0) /\
        (Z.of_nat i + 1 = 5 ->
         Py.truncated_product preset (Py.literal 5 1) = Py.Ok (Gtm.new_users_from_tiktok d)) /\
        (Z.of_nat i + 1 = 6 ->
         Py.truncated_product preset (Py.literal 10 1) = Py.Ok (Gtm.new_users_from_tiktok d)) /\
        (7 <= Z.of_nat i + 1 -> Gtm.new_users_from_tiktok d = preset)).
Proof.
  split; [|split; [|split; [|split]]].
  - intros config. repeat split; reflexivity.
  - intros config months scenario Hn. unfold Gtm.run_gtm_simulation.
    rewrite (Simulations.not_in_scenarios _ _ Hn). reflexivity.
  - intros config months scenario tiktok H. unfold Gtm.run_gtm_simulation.
    rewrite H. reflexivity.
  - intros config months scenario scenario' low mid high Hin Heq.
    apply (Simulations.in_scenarios config) in Hin. destruct Hin as [t Ht].
    unfold Gtm.run_gtm_simulation. rewrite <- Heq, Ht. cbn [Py.bind].
    apply Presets.for_each_ext. intros st m.
    symmetry. apply Presets.simulate_month_presets.
  - intros config months scenario rs i d H Hi.
    apply RunFacts.gtm_ok in H. destruct H as (preset & Hp & H).
    exists preset. split; [exact Hp|].
    destruct (Schedule.iterations_nth_body _ _ _ _ _ _ H Hi) as (m & st0 & st1 & Hm & Hb).
    apply RunFacts.months_range_nth in Hm. subst m.
    pose proof (proj1 (Schedule.simulate_month_plan _ _ _ _ _ _ Hb)) as P.
    split; [exact (Gtm.mp_tiktok_none _ _ _ _ P)|].
    split; [exact (Gtm.mp_tiktok_ramp _ _ _ _ P)|].
    split; [exact (Gtm.mp_tiktok_first _ _ _ _ P) | exact (Gtm.mp_tiktok_full _ _ _ _ P)].
Qed.

Lemma tiktok_scenario_selects_one_preset_witness :
  Gtm.run_gtm_simulation Gtm.default_config 12 "mid"
  = Gtm.run_gtm_simulation (Gtm.with_presets 200 1000 5000 Gtm.default_config) 12 "low" /\
  exists rs d,
    Gtm.run_gtm_simulation Gtm.default_config 12 "low" = Py.Ok rs /\
    nth_error rs 7 = Some d /\
    Gtm.new_users_from_tiktok d = Gtm.tiktok_monthly_installs_low Gtm.default_config.
Proof.
  split.
  - apply (proj1 (proj2 (proj2 (proj2 tiktok_scenario_selects_one_preset)))).
    + right. left. reflexivity.
    + reflexivity.
  - destruct (Gtm.run_gtm_simulation Gtm.default_config 12 "low") as [rs|e] eqn:Hrun;
      [|vm_compute in Hrun; discriminate Hrun].
    destruct (nth_error rs 7) as [d|] eqn:Hd;
      [|vm_compute in Hrun; injection Hrun as <-; discriminate Hd].
    exists rs, d. split; [reflexivity|]. split; [exact Hd|].
    destruct (proj2 (proj2 (proj2 (proj2 tiktok_scenario_selects_one_preset)))
                Gtm.default_config 12 "low"%string rs 7%nat d Hrun Hd)
      as (preset & Hp & _ & _ & _ & Hfull).
    injection Hp as <-. apply Hfull. lia.
Defined.

(** X1.  The app users of a record are the initial hosts plus the installs,
    from events and from the web album, of all the months so far. *)
Theorem app_users_are_the_installs_so_far config months rs n r :
  Growth.run_simulation config months = Py.Ok rs ->
  nth_error rs n = Some r ->
  Growth.total_app_users r
  = Growth.initial_hosts config
    + Py.int_sum (map Growth.new_installs (firstn (S n) rs)).
Proof.
  intros H Hn. apply RunFacts.growth_ok in H.
  refine (Counts.iterations_total (Growth.simulate_month config)
            Growth.r_total_app_users Growth.new_installs Growth.total_app_users
            (fun _ => True) _ _ _ _ _ H n r Hn).
  - intros st m r' st' _ Hb. apply GrowthFacts.simulate_month_ok in Hb.
    destruct Hb as [-> F]. split; [exact (GrowthFacts.mf_app_users _ _ _ _ F) | reflexivity].
  - apply Forall_forall. intros; exact I.
Qed.

Lemma app_users_are_the_installs_so_far_witness :
  exists rs r,
    Growth.run_simulation Growth.default_config 12 = Py.Ok rs /\
    nth_error rs 11 = Some r /\
    Growth.total_app_users r = 50 + Py.int_sum (map Growth.new_installs (firstn 12 rs)).
Proof.
  destruct (Growth.run_simulation Growth.default_config 12) as [rs|e] eqn:Hrun;
    [|vm_compute in Hrun; discriminate Hrun].
  destruct (nth_error rs 11) as [r|] eqn:Hr;
    [|vm_compute in Hrun; injection Hrun as <-; discriminate Hr].
  exists rs, r. split; [reflexivity|]. split; [exact Hr|].
  exact (app_users_are_the_installs_so_far Growth.default_config 12 rs 11 r Hrun Hr).
Defined.

(** X2.  The go-to-market run follows its plan: the record of month [m] is
    labelled with the phase of [m]; the seed users join in month 1 only;
    there are no B2B installs in months 1 and 2 and those of months 3 and 4
    are [int(attendees * raves * install rate)]; TikTok installs start in
    month 5 at [int(preset * 0.5)], are [int(preset * 1.0)] in month 6 and
    the preset itself from month 7; the festival installs are those of
    month 7 alone. *)
Theorem gtm_run_follows_the_plan config months scenario rs i d :
  Gtm.run_gtm_simulation config months scenario = Py.Ok rs ->
  nth_error rs i = Some d ->
  exists tiktok,
    Gtm.tiktok_preset config scenario = Py.Ok tiktok /\
    Gtm.month_plan config tiktok (Z.of_nat i + 1) d.
Proof.
  intros H Hi. apply RunFacts.gtm_ok in H. destruct H as (tiktok & Hp & H).
  exists tiktok. split; [exact Hp|].
  destruct (Schedule.iterations_nth_body _ _ _ _ _ _ H Hi) as (m & st0 & st1 & Hm & Hb).
  apply RunFacts.months_range_nth in Hm. subst m.
  exact (proj1 (Schedule.simulate_month_plan _ _ _ _ _ _ Hb)).
Qed.

Lemma gtm_run_follows_the_plan_witness :
  exists rs d,
    Gtm.run_gtm_simulation Gtm.default_config 12 "high" = Py.Ok rs /\
    nth_error rs 6 = Some d /\
    Gtm.phase d = "Festival + TikTok"%string /\ Gtm.new_users_from_tiktok d = 1000.
Proof.
  destruct (Gtm.run_gtm_simulation Gtm.default_config 12 "high") as [rs|e] eqn:Hrun;
    [|vm_compute in Hrun; discriminate Hrun].
  destruct (nth_error rs 6) as [d|] eqn:Hd;
    [|vm_compute in Hrun; injection Hrun as <-; discriminate Hd].
  exists rs, d. split; [reflexivity|]. split; [exact Hd|].
  destruct (gtm_run_follows_the_plan Gtm.default_config 12 "high" rs 6 d Hrun Hd)
    as (tiktok & Hp & P).
  injection Hp as <-.
  split; [exact (Gtm.mp_phase _ _ _ _ P) | apply (Gtm.mp_tiktok_full _ _ _ _ P); lia].
Defined.

(** X3.  The total users of a record of the go-to-market run are the new
    users, over the five channels, of all the months so far. *)
Theorem gtm_users_are_the_new_users_so_far config months scenario rs n d :
  Gtm.run_gtm_simulation config months scenario = Py.Ok rs ->
  nth_error rs n = Some d ->
  Gtm.total_users d = Py.int_sum (map Gtm.new_users (firstn (S n) rs)).
Proof.
  intros H Hn. pose proof (RunFacts.gtm_length _ _ _ _ H) as Hlen.
  apply RunFacts.gtm_ok in H. destruct H as (tiktok & _ & H).
  assert (Hmonths : 1 <= months).
  { destruct rs; [destruct n; discriminate | cbn [List.length] in Hlen; lia]. }
  rewrite (Schedule.months_range_head _ Hmonths) in H.
  inversion H as [|? ? ? d1 st1 rest Hb Hrest]; subst.
  destruct (proj2 (Schedule.simulate_month_plan _ _ _ _ _ _ Hb)) as [H1 H2];
    [reflexivity|].
  change (Gtm.pooled_users Gtm.initial) with 0 in H1.
  destruct n as [|n]; cbn in Hn.
  - injection Hn as <-. cbn [firstn map]. rewrite Counts.int_sum_cons.
    change (Py.int_sum []) with 0. lia.
  - change (firstn (S (S n)) (d1 :: rest)) with (d1 :: firstn (S n) rest).
    cbn [map]. rewrite Counts.int_sum_cons.
    rewrite (Counts.iterations_total (Gtm.simulate_month config tiktok)
               Gtm.pooled_users Gtm.new_users Gtm.total_users (fun m => 2 <= m)
               (Py.range 2 (months + 1))) with (st := st1) (rs := rest) (n := n) (r := d);
      try assumption.
    + lia.
    + intros st m r st' Hm Hb'.
      apply (proj2 (Schedule.simulate_month_plan _ _ _ _ _ _ Hb')). lia.
    + apply Counts.months_from.
Qed.

Lemma gtm_users_are_the_new_users_so_far_witness :
  exists rs d,
    Gtm.run_gtm_simulation Gtm.default_config 12 "mid" = Py.Ok rs /\
    nth_error rs 11 = Some d /\
    Gtm.total_users d = Py.int_sum (map Gtm.new_users (firstn 12 rs)).
Proof.
  destruct (Gtm.run_gtm_simulation Gtm.default_config 12 "mid") as [rs|e] eqn:Hrun;
    [|vm_compute in Hrun; discriminate Hrun].
  destruct (nth_error rs 11) as [d|] eqn:Hd;
    [|vm_compute in Hrun; injection Hrun as <-; discriminate Hd].
  exists rs, d. split; [reflexivity|]. split; [exact Hd|].
  exact (gtm_users_are_the_new_users_so_far Gtm.default_config 12 "mid" rs 11 d Hrun Hd).
Defined.

Module Horizon.
Import Py PyFacts.

(** An exception in a loop is the exception of any longer loop. *)
Lemma for_each_app_raise {S R : Type} (body : S -> Z -> result (R * S)) ms1 ms2 e :
  forall st acc,
    for_each body ms1 st acc = Raise e ->
    for_each body (ms1 ++ ms2) st acc = Raise e.
Proof.
  induction ms1 as [|m ms1 IH]; intros st acc H; cbn [for_each app] in *;
    [discriminate H|].
  destruct (body st m) as [[r st']|e']; cbn [bind] in *; [apply IH; exact H | exact H].
Qed.

Lemma months_range_split months longer :
  months <= longer ->
  exists rest, range 1 (longer + 1) = range 1 (months + 1) ++ rest.
Proof.
  intros H. exists (skipn (Z.to_nat months) (range 1 (longer + 1))).
  rewrite (RunFacts.months_range_prefix _ _ H). symmetry. apply firstn_skipn.
Qed.

End Horizon.

(** X4.  The months already simulated do not depend on the horizon: a run
    over fewer months returns the first records of a longer run, and a run
    that raises keeps raising the same exception when it is given more
    months. *)
Theorem longer_runs_extend_shorter_ones :
  (forall config months longer rs,
      months <= longer ->
      Growth.run_simulation config longer = Py.Ok rs ->
      Growth.run_simulation config months = Py.Ok (firstn (Z.to_nat months) rs)) /\
  (forall config months longer e,
      months <= longer ->
      Growth.run_simulation config months = Py.Raise e ->
      Growth.run_simulation config longer = Py.Raise e) /\
  (forall config months longer scenario rs,
      months <= longer ->
      Gtm.run_gtm_simulation config longer scenario = Py.Ok rs ->
      Gtm.run_gtm_simulation config months scenario
      = Py.Ok (firstn (Z.to_nat months) rs)) /\
  (forall config months longer scenario e,
      months <= longer ->
      Gtm.run_gtm_simulation config months scenario = Py.Raise e ->
      Gtm.run_gtm_simulation config longer scenario = Py.Raise e).
Proof.
  split; [|split; [|split]].
  - intros config months longer rs Hle H. eapply RunFacts.growth_prefix; eassumption.
  - intros config months longer e Hle H. unfold Growth.run_simulation in *.
    destruct (Horizon.months_range_split _ _ Hle) as [rest ->].
    now apply Horizon.for_each_app_raise.
  - intros config months longer scenario rs Hle H.
    eapply RunFacts.gtm_prefix; eassumption.
  - intros config months longer scenario e Hle H. unfold Gtm.run_gtm_simulation in *.
    destruct (Gtm.tiktok_preset config scenario) as [tiktok|e']; cbn [Py.bind] in *;
      [|exact H].
    destruct (Horizon.months_range_split _ _ Hle) as [rest ->].
    now apply Horizon.for_each_app_raise.
Qed.

Lemma longer_runs_extend_shorter_ones_witness :
  exists rs,
    Growth.run_simulation Growth.default_config 24 = Py.Ok rs /\
    Growth.run_simulation Growth.default_config 12 = Py.Ok (firstn 12 rs).
Proof.
  destruct (Growth.run_simulation Growth.default_config 24) as [rs|e] eqn:Hrun;
    [|vm_compute in Hrun; discriminate Hrun].
  exists rs. split; [reflexivity|].
  exact (proj1 longer_runs_extend_shorter_ones Growth.default_config 12 24 rs
           ltac:(lia) Hrun).
Defined.

(** ** Signs *)

Module Signs.
Import Py PyFacts Binary64.

(** Rounding a positive number gives a zero, a finite number or an infinity
    of the sign asked for. *)
Lemma binary_round_aux_shape s m e :
  (exists s', binary_round_aux prec emax s (Z.pos m) e loc_Exact = S754_zero s' /\ s' = s) \/
  (exists m2 e2, binary_round_aux prec emax s (Z.pos m) e loc_Exact = S754_finite s m2 e2) \/
  binary_round_aux prec emax s (Z.pos m) e loc_Exact = S754_infinity s.
Proof.
  unfold binary_round_aux.
  assert (H1 : exists mrs e', shr_fexp prec emax (Z.pos m) e loc_Exact = (mrs, e') /\
                              0 <= shr_m mrs).
  { unfold shr_fexp, shr. cbn [Zdigits2 shr_record_of_loc].
    destruct (SpecFloat.fexp prec emax (Z.pos (digits2_pos m) + e) - e) as [|p|p].
    - do 2 eexists. split; [reflexivity | cbn; lia].
    - do 2 eexists. split; [reflexivity|].
      destruct (iter_shr_1_spec p {| shr_m := Z.pos m; shr_r := false; shr_s := false |})
        as [Hq _]; [cbn; lia|].
      rewrite Hq. apply Z.div_pos; [cbn; lia | apply pow2_pos; lia].
    - do 2 eexists. split; [reflexivity | cbn; lia]. }
  destruct H1 as (mrs & e' & -> & Hm).
  destruct (round_nearest_even_bounds (shr_m mrs) (loc_of_shr_record mrs)) as [[Hlo _] _].
  set (m1 := round_nearest_even (shr_m mrs) (loc_of_shr_record mrs)) in *.
  assert (Hm1 : 0 <= m1) by lia. clearbody m1.
  assert (H2 : exists mrs2 e2, shr_fexp prec emax m1 e' loc_Exact = (mrs2, e2) /\
                               0 <= shr_m mrs2).
  { unfold shr_fexp, shr. cbn [shr_record_of_loc].
    destruct (SpecFloat.fexp prec emax (Zdigits2 m1 + e') - e') as [|p|p].
    - do 2 eexists. split; [reflexivity | cbn; lia].
    - do 2 eexists. split; [reflexivity|].
      destruct (iter_shr_1_spec p {| shr_m := m1; shr_r := false; shr_s := false |})
        as [Hq _]; [cbn; lia|].
      rewrite Hq. apply Z.div_pos; [cbn; lia | apply pow2_pos; lia].
    - do 2 eexists. split; [reflexivity | cbn; lia]. }
  destruct H2 as (mrs2 & e2 & -> & Hm2).
  destruct (shr_m mrs2) as [|p2|p2]; [left; eauto | | lia].
  right. destruct (e2 <=? emax - prec); [left; eauto | right; reflexivity].
Qed.

Lemma binary_normalize_nonneg d e :
  0 <= d -> float_le zero (binary_normalize prec emax d e false) = true.
Proof.
  intros Hd. destruct d as [|p|p]; [reflexivity | | lia].
  cbn [binary_normalize].
  destruct (binary_round_unfold false p e) as (mz & ez & -> & _).
  destruct (binary_round_aux_shape false mz ez)
    as [(s' & -> & ->) | [(m2 & e2 & ->) | ->]]; reflexivity.
Qed.

(** A non-negative number is a zero, a positive finite number or [+inf]. *)
Lemma nonneg_inv x :
  float_le zero x = true ->
  (exists s, x = S754_zero s) \/ (exists m e, x = S754_finite false m e) \/
  x = S754_infinity false.
Proof.
  destruct x as [s|s| |s m e]; intros H; try discriminate H.
  - left. eauto.
  - destruct s; [discriminate H|]. right. right. reflexivity.
  - destruct s; [discriminate H|]. right. left. eauto.
Qed.

Lemma float_of_int_nonneg a x :
  0 <= a -> float_of_int a = Ok x -> float_le zero x = true /\ is_finite x = true.
Proof.
  intros Ha H. destruct (Revenue.float_of_int_shape a x H) as [-> | (m & e & -> & _)];
    (replace (a <? 0) with false by (symmetry; apply Z.ltb_ge; lia));
    split; reflexivity.
Qed.

(** A product of non-negative numbers is not negative, when it is a number. *)
Lemma float_mul_nonneg x y :
  float_le zero x = true -> float_le zero y = true ->
  float_mul x y = S754_nan \/ float_le zero (float_mul x y) = true.
Proof.
  intros Hx Hy.
  destruct (nonneg_inv x Hx) as [[sx ->] | [(mx & ex & ->) | ->]];
    destruct (nonneg_inv y Hy) as [[sy ->] | [(my & ey & ->) | ->]];
    try (right; reflexivity); try (left; reflexivity).
  unfold float_mul, SFmul. cbn [xorb].
  destruct (binary_round_aux_shape false (mx * my) (ex + ey))
    as [(s' & -> & ->) | [(m2 & e2 & ->) | ->]]; right; reflexivity.
Qed.

(** And it is a number when both factors are finite. *)
Lemma float_mul_finite_nonneg x y :
  float_le zero x = true -> float_le zero y = true ->
  is_finite x = true -> is_finite y = true ->
  float_le zero (float_mul x y) = true.
Proof.
  intros Hx Hy Fx Fy.
  destruct (nonneg_inv x Hx) as [[sx ->] | [(mx & ex & ->) | ->]]; try discriminate Fx;
    destruct (nonneg_inv y Hy) as [[sy ->] | [(my & ey & ->) | ->]]; try discriminate Fy;
    try reflexivity.
  unfold float_mul, SFmul. cbn [xorb].
  destruct (binary_round_aux_shape false (mx * my) (ex + ey))
    as [(s' & -> & ->) | [(m2 & e2 & ->) | ->]]; reflexivity.
Qed.

Lemma int_of_float_nonneg x v :
  float_le zero x = true -> int_of_float x = Ok v -> 0 <= v.
Proof.
  intros Hx H. apply Truncation.int_of_float_truncates in H.
  destruct (nonneg_inv x Hx) as [[s ->] | [(m & e & ->) | ->]]; cbn [truncates] in H.
  - lia.
  - tauto.
  - destruct H.
Qed.

(** One step of a funnel at a non-negative rate gives a non-negative count. *)
Lemma truncated_product_nonneg a rate v :
  0 <= a -> float_le zero rate = true ->
  truncated_product a rate = Ok v -> 0 <= v.
Proof.
  intros Ha Hr H. apply truncated_product_ok in H. destruct H as (x & Hx & Hv).
  unfold int_mul_float in Hx. apply bind_ok in Hx. destruct Hx as (fa & Hfa & Hx).
  injection Hx as <-.
  destruct (float_of_int_nonneg a fa Ha Hfa) as [Hfa0 _].
  destruct (float_mul_nonneg fa rate Hfa0 Hr) as [Hnan | Hpos].
  - rewrite Hnan in Hv. discriminate Hv.
  - exact (int_of_float_nonneg _ _ Hpos Hv).
Qed.

(** [1 - x] is not negative when [x <= 1]. *)
Lemma one_minus_nonneg x y :
  valid x = true -> float_le x one = true ->
  int_sub_float 1 x = Ok y -> float_le zero y = true.
Proof.
  intros Hv Hle H. unfold int_sub_float in H.
  change (float_of_int 1) with (Ok one) in H. cbn [bind] in H. injection H as <-.
  destruct x as [s|s| |s m e]; try discriminate Hle.
  - reflexivity.
  - destruct s; [reflexivity | discriminate Hle].
  - destruct (shl_align_spec 4503599627370496 (-52) (Z.min (-52) e)) as [_ H1].
    destruct (shl_align_spec m e (Z.min (-52) e)) as [_ H2].
    change (float_le zero
              (binary_normalize prec emax
                 (Z.pos (fst (shl_align 4503599627370496 (-52) (Z.min (-52) e)))
                  - cond_Zopp s (Z.pos (fst (shl_align m e (Z.min (-52) e)))))
                 (Z.min (-52) e) false) = true).
    apply binary_normalize_nonneg.
    destruct s; cbn [cond_Zopp]; [lia|].
    assert (Hc : canonical_mantissa prec emax m e = true).
    { unfold valid, valid_binary in Hv. apply bounded_inv in Hv. tauto. }
    destruct (finite_le_one m e Hc Hle) as [He Hm].
    rewrite H1, H2.
    replace (Z.min (-52) (Z.min (-52) e)) with e by lia.
    replace (Z.min e (Z.min (-52) e)) with e by lia.
    rewrite Z.sub_diag, Z.pow_0_r, Z.mul_1_r.
    change (Z.pos 4503599627370496) with (2 ^ 52).
    rewrite <- Z.pow_add_r by lia. replace (52 + (-52 - e)) with (- e) by lia. lia.
Qed.

End Signs.

Module NonNegative.
Import Py PyFacts Growth.

Lemma non_negative_inv c :
  non_negative c = true ->
  0 <= initial_hosts c /\ 0 <= avg_attendees_per_event c /\
  0 <= non_app_viewers_per_share c /\
  float_le zero (events_per_host_per_month c) = true /\
  valid (attendees_already_have_app c) = true /\
  float_le (attendees_already_have_app c) one = true /\
  float_le zero (post_reveal_upgrade_rate c) = true /\
  float_le zero (web_album_share_rate c) = true /\
  float_le zero (web_viewer_download_rate c) = true /\
  float_le zero (download_to_install_rate c) = true /\
  float_le zero (new_install_becomes_host_rate c) = true /\
  float_le zero (host_monthly_retention c) = true /\
  float_le zero (premium_price_gbp c) = true /\
  is_finite (premium_price_gbp c) = true.
Proof.
  unfold non_negative. intros H.
  repeat (apply andb_true_iff in H; destruct H as [H ?]).
  rewrite !Z.leb_le in *. repeat split; assumption.
Qed.

(** The counts of a month entered with non-negative populations. *)
Lemma non_negative_month config st m r :
  non_negative config = true ->
  0 <= r_active_hosts st ->
  GrowthFacts.month_facts config st m r ->
  0 <= events_created r /\ 0 <= total_attendees r /\
  0 <= new_app_installs_from_events r /\ 0 <= premium_upgrades r /\
  0 <= web_albums_shared r /\ 0 <= web_album_views r /\ 0 <= web_downloads r /\
  0 <= installs_from_web r /\ 0 <= new_hosts_from_web r /\
  float_le zero (revenue_gbp r) = true /\
  r_total_hosts st <= total_hosts r /\
  r_total_app_users st <= total_app_users r /\
  0 <= active_hosts r.
Proof.
  intros Hc Ha F. apply non_negative_inv in Hc.
  destruct Hc as (C1 & C2 & C3 & C4 & C5 & C6 & C7 & C8 & C9 & C10 & C11 & C12 & C13 & C14).
  pose proof (Signs.truncated_product_nonneg _ _ _ Ha C4 (GrowthFacts.mf_events _ _ _ _ F))
    as He.
  pose proof (GrowthFacts.mf_attendees _ _ _ _ F) as Hatt.
  assert (Hatt0 : 0 <= total_attendees r) by nia.
  destruct (GrowthFacts.mf_installs _ _ _ _ F) as (y & without_app & I1 & I2 & I3).
  pose proof (Signs.one_minus_nonneg _ _ C5 C6 I1) as Hy.
  pose proof (Signs.truncated_product_nonneg _ _ _ Hatt0 Hy I2) as Hw.
  assert (L6 : float_le zero (literal 6 1) = true) by (vm_compute; reflexivity).
  assert (L2 : float_le zero (literal 2 1) = true) by (vm_compute; reflexivity).
  pose proof (Signs.truncated_product_nonneg _ _ _ Hw L6 I3) as Hi.
  pose proof (Signs.truncated_product_nonneg _ _ _ He C7 (GrowthFacts.mf_upgrades _ _ _ _ F))
    as Hu.
  pose proof (GrowthFacts.mf_chain _ _ _ _ F) as Hchain.
  unfold web_album_chain in Hchain.
  apply bind_ok in Hchain. destruct Hchain as (shares & E1 & Hchain).
  apply bind_ok in Hchain. destruct Hchain as (downloads & E2 & Hchain).
  apply bind_ok in Hchain. destruct Hchain as (installs & E3 & Hchain).
  apply bind_ok in Hchain. destruct Hchain as (hosts & E4 & Hchain).
  injection Hchain as -> Hviews -> -> ->.
  pose proof (Signs.truncated_product_nonneg _ _ _ Hu C8 E1) as Hs.
  assert (Hv : 0 <= web_album_views r) by (rewrite <- Hviews; nia).
  rewrite Hviews in E2.
  pose proof (Signs.truncated_product_nonneg _ _ _ Hv C9 E2) as Hd.
  pose proof (Signs.truncated_product_nonneg _ _ _ Hd C10 E3) as Hin.
  pose proof (Signs.truncated_product_nonneg _ _ _ Hin C11 E4) as Hh.
  destruct (GrowthFacts.mf_hosts _ _ _ _ F)
    as (retained & from_events & H1 & H2 & H3 & H4 & _).
  pose proof (Signs.truncated_product_nonneg _ _ _ Ha C12 H1) as Hr.
  pose proof (Signs.truncated_product_nonneg _ _ _ Hi L2 H2) as Hf.
  pose proof (GrowthFacts.mf_app_users _ _ _ _ F) as Happ.
  assert (Hrev : float_le zero (revenue_gbp r) = true).
  { pose proof (GrowthFacts.mf_revenue _ _ _ _ F) as Hm.
    unfold int_mul_float in Hm. apply bind_ok in Hm. destruct Hm as (fa & Hfa & Hm).
    injection Hm as <-.
    destruct (Signs.float_of_int_nonneg _ _ Hu Hfa) as [Hfa0 Hfin].
    apply Signs.float_mul_finite_nonneg; assumption. }
  repeat split; try assumption; lia.
Qed.

(** The running state entering each month of a run, and the month itself. *)
Lemma non_negative_run config months rs :
  non_negative config = true ->
  run_simulation config months = Ok rs ->
  forall i r, nth_error rs i = Some r ->
    0 <= r_active_hosts (entering config rs i) /\
    GrowthFacts.month_facts config (entering config rs i) (Z.of_nat i + 1) r.
Proof.
  intros Hc Hrun. induction i as [|i IH]; intros r Hi;
    pose proof (RunFacts.growth_facts _ _ _ _ _ Hrun Hi) as F; (split; [|exact F]).
  - cbn. apply non_negative_inv in Hc. tauto.
  - destruct (nth_error rs i) as [p|] eqn:Hp.
    + destruct (IH p eq_refl) as [Ha Fp].
      unfold entering. cbn [state_before]. rewrite Hp.
      cbn [running_after r_active_hosts].
      pose proof (non_negative_month _ _ _ _ Hc Ha Fp). tauto.
    + apply nth_error_None in Hp.
      assert (Hnone : nth_error rs (S i) = None) by (apply nth_error_None; lia).
      congruence.
Qed.

End NonNegative.

(** C6 (amended).  Along the sequence returned by [run_simulation] the
    cumulative revenue does not decrease from one record to the next, for
    every configuration whose counts and rates are not negative (nor NaN),
    with at most all the attendees having the app already, and whose price
    is finite and not negative; and, more generally, in every run none of
    whose monthly revenues is negative or NaN. *)
Theorem cumulative_revenue_non_decreasing config months rs :
  Growth.run_simulation config months = Py.Ok rs ->
  Growth.non_negative config = true \/
  (forall r, In r rs -> Py.float_le Py.zero (Growth.revenue_gbp r) = true) ->
  forall i r1 r2,
    nth_error rs i = Some r1 -> nth_error rs (S i) = Some r2 ->
    Py.float_le (Growth.cumulative_revenue_gbp r1) (Growth.cumulative_revenue_gbp r2) = true.
Proof.
  intros Hrun Hcond i r1 r2 H1 H2.
  assert (Hrev : forall r, In r rs -> Py.float_le Py.zero (Growth.revenue_gbp r) = true).
  { destruct Hcond as [Hc | Hrev]; [|exact Hrev].
    intros r Hin. apply In_nth_error in Hin. destruct Hin as [j Hj].
    destruct (NonNegative.non_negative_run config months rs Hc Hrun j r Hj) as [Ha F].
    pose proof (NonNegative.non_negative_month _ _ _ _ Hc Ha F). tauto. }
  destruct (Revenue.cumulative_nonneg config months rs Hrun Hrev (S i) r2 H2) as (_ & _ & H).
  unfold Growth.entering in H. cbn [Py.state_before] in H. rewrite H1 in H. exact H.
Qed.

Lemma cumulative_revenue_non_decreasing_witness :
  exists rs r1 r2,
    Growth.run_simulation Growth.default_config 12 = Py.Ok rs /\
    nth_error rs 4 = Some r1 /\ nth_error rs 5 = Some r2 /\
    Py.float_le (Growth.cumulative_revenue_gbp r1) (Growth.cumulative_revenue_gbp r2) = true.
Proof.
  destruct (Growth.run_simulation Growth.default_config 12) as [rs|e] eqn:Hrun;
    [|vm_compute in Hrun; discriminate Hrun].
  destruct (nth_error rs 4) as [r1|] eqn:H1;
    [|vm_compute in Hrun; injection Hrun as <-; discriminate H1].
  destruct (nth_error rs 5) as [r2|] eqn:H2;
    [|vm_compute in Hrun; injection Hrun as <-; discriminate H2].
  exists rs, r1, r2. repeat split; try assumption.
  exact (cumulative_revenue_non_decreasing Growth.default_config 12 rs Hrun
           (or_introl eq_refl) 4%nat r1 r2 H1 H2).
Defined.

(** X5.  From a configuration whose counts and rates are not negative (at
    most all the attendees having the app already) and whose price is finite,
    nothing negative comes out: every count of every record is non-negative,
    so is the month's revenue, and the totals of hosts and of app users never
    go down from what they were when the month began. *)
Theorem populations_are_never_negative config months rs i r :
  Growth.non_negative config = true ->
  Growth.run_simulation config months = Py.Ok rs ->
  nth_error rs i = Some r ->
  0 <= Growth.events_created r /\ 0 <= Growth.total_attendees r /\
  0 <= Growth.new_app_installs_from_events r /\ 0 <= Growth.premium_upgrades r /\
  0 <= Growth.web_albums_shared r /\ 0 <= Growth.web_album_views r /\
  0 <= Growth.web_downloads r /\ 0 <= Growth.installs_from_web r /\
  0 <= Growth.new_hosts_from_web r /\
  Py.float_le Py.zero (Growth.revenue_gbp r) = true /\
  Growth.r_total_hosts (Growth.entering config rs i) <= Growth.total_hosts r /\
  Growth.r_total_app_users (Growth.entering config rs i) <= Growth.total_app_users r /\
  0 <= Growth.active_hosts r.
Proof.
  intros Hc Hrun Hi.
  destruct (NonNegative.non_negative_run config months rs Hc Hrun i r Hi) as [Ha F].
  exact (NonNegative.non_negative_month _ _ _ _ Hc Ha F).
Qed.

Lemma populations_are_never_negative_witness :
  exists rs r,
    Growth.run_simulation Growth.default_config 12 = Py.Ok rs /\
    nth_error rs 7 = Some r /\
    0 <= Growth.events_created r /\ 0 <= Growth.active_hosts r.
Proof.
  destruct (Growth.run_simulation Growth.default_config 12) as [rs|e] eqn:Hrun;
    [|vm_compute in Hrun; discriminate Hrun].
  destruct (nth_error rs 7) as [r|] eqn:Hr;
    [|vm_compute in Hrun; injection Hrun as <-; discriminate Hr].
  exists rs, r. split; [reflexivity|]. split; [exact Hr|].
  pose proof (populations_are_never_negative Growth.default_config 12 rs 7 r
                eq_refl Hrun Hr) as H.
  tauto.
Defined.

(** X6.  From such a configuration the cumulative revenue never goes down
    from one record to the next. *)
Theorem revenue_accumulates_from_a_non_negative_configuration config months rs i r1 r2 :
  Growth.non_negative config = true ->
  Growth.run_simulation config months = Py.Ok rs ->
  nth_error rs i = Some r1 -> nth_error rs (S i) = Some r2 ->
  Py.float_le (Growth.cumulative_revenue_gbp r1) (Growth.cumulative_revenue_gbp r2) = true.
Proof.
  intros Hc Hrun H1 H2.
  assert (Hrev : forall r, In r rs -> Py.float_le Py.zero (Growth.revenue_gbp r) = true).
  { intros r Hin. apply In_nth_error in Hin. destruct Hin as [j Hj].
    destruct (NonNegative.non_negative_run config months rs Hc Hrun j r Hj) as [Ha F].
    pose proof (NonNegative.non_negative_month _ _ _ _ Hc Ha F). tauto. }
  destruct (Revenue.cumulative_nonneg config months rs Hrun Hrev (S i) r2 H2) as (_ & _ & H).
  unfold Growth.entering in H. cbn [Py.state_before] in H. rewrite H1 in H. exact H.
Qed.

Lemma revenue_accumulates_from_a_non_negative_configuration_witness :
  exists rs r1 r2,
    Growth.run_simulation Growth.default_config 12 = Py.Ok rs /\
    nth_error rs 10 = Some r1 /\ nth_error rs 11 = Some r2 /\
    Py.float_le (Growth.cumulative_revenue_gbp r1) (Growth.cumulative_revenue_gbp r2) = true.
Proof.
  destruct (Growth.run_simulation Growth.default_config 12) as [rs|e] eqn:Hrun;
    [|vm_compute in Hrun; discriminate Hrun].
  destruct (nth_error rs 10) as [r1|] eqn:H1;
    [|vm_compute in Hrun; injection Hrun as <-; discriminate H1].
  destruct (nth_error rs 11) as [r2|] eqn:H2;
    [|vm_compute in Hrun; injection Hrun as <-; discriminate H2].
  exists rs, r1, r2. repeat split; try assumption.
  exact (revenue_accumulates_from_a_non_negative_configuration
           Growth.default_config 12 rs 10 r1 r2 eq_refl Hrun H1 H2).
Defined.

Module Narrowing.
Import Py PyFacts Growth.

Lemma share_inv x :
  share x = true ->
  valid x = true /\ float_le zero x = true /\ float_le x one = true.
Proof.
  unfold share. intros H.
  apply andb_true_iff in H. destruct H as [H H1].
  apply andb_true_iff in H. destruct H as [Hv H0]. tauto.
Qed.

Lemma step a rate v :
  0 <= a < 2 ^ 53 -> share rate = true -> truncated_product a rate = Ok v ->
  0 <= v <= a.
Proof.
  intros Ha Hs H. destruct (share_inv _ Hs) as (Hv & H0 & H1).
  exact (Funnel.truncated_product_le _ _ _ Ha Hv H0 H1 H).
Qed.

End Narrowing.

(** X7.  When the rates of the funnel are shares (numbers between 0 and 1)
    and the month's events and web-album views are counts below 2^53, each
    stage of the funnel keeps at most what entered it: the upgrades are at
    most the events, the shared albums at most the upgrades, the downloads at
    most the views, the installs at most the downloads and the new hosts at
    most the installs. *)
Theorem funnel_narrows_at_every_stage config months rs i r :
  Growth.funnel_rates_are_shares config = true ->
  Growth.run_simulation config months = Py.Ok rs ->
  nth_error rs i = Some r ->
  0 <= Growth.events_created r < 2 ^ 53 ->
  0 <= Growth.web_album_views r < 2 ^ 53 ->
  0 <= Growth.web_albums_shared r <= Growth.premium_upgrades r /\
  Growth.premium_upgrades r <= Growth.events_created r /\
  0 <= Growth.new_hosts_from_web r <= Growth.installs_from_web r /\
  Growth.installs_from_web r <= Growth.web_downloads r /\
  Growth.web_downloads r <= Growth.web_album_views r.
Proof.
  intros Hc Hrun Hi He Hv.
  pose proof (RunFacts.growth_facts _ _ _ _ _ Hrun Hi) as F.
  unfold Growth.funnel_rates_are_shares in Hc.
  do 4 (apply andb_true_iff in Hc; destruct Hc as [Hc ?]).
  pose proof (Narrowing.step _ _ _ He Hc (GrowthFacts.mf_upgrades _ _ _ _ F)) as Hu.
  pose proof (GrowthFacts.mf_chain _ _ _ _ F) as Hchain.
  unfold Growth.web_album_chain in Hchain.
  apply PyFacts.bind_ok in Hchain. destruct Hchain as (shares & E1 & Hchain).
  apply PyFacts.bind_ok in Hchain. destruct Hchain as (downloads & E2 & Hchain).
  apply PyFacts.bind_ok in Hchain. destruct Hchain as (installs & E3 & Hchain).
  apply PyFacts.bind_ok in Hchain. destruct Hchain as (hosts & E4 & Hchain).
  injection Hchain as -> Hviews -> -> ->.
  rewrite Hviews in E2.
  assert (Hs : 0 <= Growth.web_albums_shared r <= Growth.premium_upgrades r)
    by (apply (Narrowing.step _ (Growth.web_album_share_rate config)); [lia | assumption..]).
  assert (Hd : 0 <= Growth.web_downloads r <= Growth.web_album_views r)
    by (apply (Narrowing.step _ (Growth.web_viewer_download_rate config)); assumption).
  assert (Hin : 0 <= Growth.installs_from_web r <= Growth.web_downloads r)
    by (apply (Narrowing.step _ (Growth.download_to_install_rate config));
        [lia | assumption..]).
  assert (Hh : 0 <= Growth.new_hosts_from_web r <= Growth.installs_from_web r)
    by (apply (Narrowing.step _ (Growth.new_install_becomes_host_rate config));
        [lia | assumption..]).
  lia.
Qed.

Lemma funnel_narrows_at_every_stage_witness :
  exists rs r,
    Growth.run_simulation Growth.default_config 12 = Py.Ok rs /\
    nth_error rs 11 = Some r /\
    Growth.premium_upgrades r <= Growth.events_created r /\
    Growth.web_downloads r <= Growth.web_album_views r.
Proof.
  destruct (Growth.run_simulation Growth.default_config 12) as [rs|e] eqn:Hrun;
    [|vm_compute in Hrun; discriminate Hrun].
  destruct (nth_error rs 11) as [r|] eqn:Hr;
    [|vm_compute in Hrun; injection Hrun as <-; discriminate Hr].
  exists rs, r. split; [reflexivity|]. split; [exact Hr|].
  assert (He : 0 <= Growth.events_created r < 2 ^ 53 /\
               0 <= Growth.web_album_views r < 2 ^ 53).
  { vm_compute in Hrun. injection Hrun as <-. injection Hr as <-.
    cbn. repeat split; (discriminate || reflexivity). }
  pose proof (funnel_narrows_at_every_stage Growth.default_config 12 rs 11 r
                eq_refl Hrun Hr (proj1 He) (proj2 He)) as H.
  tauto.
Defined.

Module Hosts.
Import Py PyFacts Growth.

(** The active hosts stay within the hosts ever made, as long as the latter
    are a count below 2^53. *)
Lemma active_within_total config months rs :
  non_negative config = true ->
  share (host_monthly_retention config) = true ->
  run_simulation config months = Ok rs ->
  forall i r, nth_error rs i = Some r ->
    total_hosts r < 2 ^ 53 ->
    0 <= r_active_hosts (entering config rs i)
      <= r_total_hosts (entering config rs i) /\
    r_total_hosts (entering config rs i) < 2 ^ 53 /\
    0 <= active_hosts r <= total_hosts r.
Proof.
  intros Hc Hs Hrun.
  assert (Hmonth : forall i r, nth_error rs i = Some r ->
            total_hosts r < 2 ^ 53 ->
            0 <= r_active_hosts (entering config rs i)
              <= r_total_hosts (entering config rs i) ->
            r_total_hosts (entering config rs i) < 2 ^ 53 /\
            0 <= active_hosts r <= total_hosts r).
  { intros i r Hi Hlt Hst.
    pose proof (RunFacts.growth_facts _ _ _ _ _ Hrun Hi) as F.
    pose proof (NonNegative.non_negative_month _ _ _ _ Hc (proj1 Hst) F) as N.
    destruct N as (_ & _ & _ & _ & _ & _ & _ & _ & _ & _ & Nt & _ & Na).
    destruct (GrowthFacts.mf_hosts _ _ _ _ F)
      as (retained & from_events & H1 & _ & H3 & H4 & _).
    split; [lia|].
    assert (Hr : 0 <= retained <= r_active_hosts (entering config rs i))
      by (apply (Narrowing.step _ (host_monthly_retention config)); [lia | assumption..]).
    lia. }
  induction i as [|i IH]; intros r Hi Hlt.
  - assert (Hst : 0 <= r_active_hosts (entering config rs 0)
                    <= r_total_hosts (entering config rs 0)).
    { cbn. apply NonNegative.non_negative_inv in Hc. lia. }
    destruct (Hmonth 0%nat r Hi Hlt Hst). tauto.
  - destruct (nth_error rs i) as [p|] eqn:Hp.
    + assert (Hst : 0 <= r_active_hosts (entering config rs (S i))
                      <= r_total_hosts (entering config rs (S i)) ->
                    0 <= r_active_hosts (entering config rs (S i))
                      <= r_total_hosts (entering config rs (S i)) /\
                    r_total_hosts (entering config rs (S i)) < 2 ^ 53 /\
                    0 <= active_hosts r <= total_hosts r).
      { intros Hst. destruct (Hmonth (S i) r Hi Hlt Hst). tauto. }
      apply Hst. unfold entering. cbn [state_before]. rewrite Hp.
      cbn [running_after r_active_hosts r_total_hosts].
      apply (IH p eq_refl).
      destruct (NonNegative.non_negative_run config months rs Hc Hrun (S i) r Hi)
        as [Ha F].
      pose proof (NonNegative.non_negative_month _ _ _ _ Hc Ha F) as N.
      destruct N as (_ & _ & _ & _ & _ & _ & _ & _ & _ & _ & Nt & _).
      unfold entering in Nt. cbn [state_before] in Nt. rewrite Hp in Nt.
      cbn [running_after r_total_hosts] in Nt. lia.
    + apply nth_error_None in Hp.
      assert (Hnone : nth_error rs (S i) = None) by (apply nth_error_None; lia).
      congruence.
Qed.

End Hosts.

(** X8.  With a non-negative configuration whose monthly retention is a share
    (between 0 and 1), the active hosts of a record never exceed the hosts
    ever made, as long as these are fewer than 2^53: retention only removes
    hosts, and every new host counts in both. *)
Theorem active_hosts_are_among_all_hosts config months rs i r :
  Growth.non_negative config = true ->
  Growth.share (Growth.host_monthly_retention config) = true ->
  Growth.run_simulation config months = Py.Ok rs ->
  nth_error rs i = Some r ->
  Growth.total_hosts r < 2 ^ 53 ->
  0 <= Growth.active_hosts r <= Growth.total_hosts r.
Proof.
  intros Hc Hs Hrun Hi Hlt.
  destruct (Hosts.active_within_total config months rs Hc Hs Hrun i r Hi Hlt)
    as (_ & _ & H).
  exact H.
Qed.

Lemma active_hosts_are_among_all_hosts_witness :
  exists rs r,
    Growth.run_simulation Growth.default_config 12 = Py.Ok rs /\
    nth_error rs 11 = Some r /\
    0 <= Growth.active_hosts r <= Growth.total_hosts r.
Proof.
  destruct (Growth.run_simulation Growth.default_config 12) as [rs|e] eqn:Hrun;
    [|vm_compute in Hrun; discriminate Hrun].
  destruct (nth_error rs 11) as [r|] eqn:Hr;
    [|vm_compute in Hrun; injection Hrun as <-; discriminate Hr].
  exists rs, r. split; [reflexivity|]. split; [exact Hr|].
  assert (Hlt : Growth.total_hosts r < 2 ^ 53).
  { vm_compute in Hrun. injection Hrun as <-. injection Hr as <-. reflexivity. }
  exact (active_hosts_are_among_all_hosts Growth.default_config 12 rs 11 r
           eq_refl eq_refl Hrun Hr Hlt).
Defined.

Module LifetimeValue.
Import Py PyFacts Growth Binary64.

Local Abbreviation fexp := (SpecFloat.fexp prec emax).
Local Abbreviation digits m := (Z.pos (digits2_pos m)).

(** The exact product of two binary64 data is fine enough to be rounded. *)
Lemma mul_pre mx ex my ey :
  canonical_mantissa prec emax mx ex = true ->
  canonical_mantissa prec emax my ey = true ->
  ex + ey <= fexp (digits (mx * my) + (ex + ey)).
Proof.
  intros Hx Hy.
  destruct (canonical_inv _ _ Hx) as (Hxmin & Hxd & Hxn).
  destruct (canonical_inv _ _ Hy) as (Hymin & Hyd & Hyn).
  rewrite fexp_eq.
  destruct (Z.eq_dec ex (-1074)) as [Ex|Ex].
  - destruct (Z.eq_dec ey (-1074)) as [Ey|Ey]; [lia|].
    pose proof (digits_bounds my) as [Hlo _]. rewrite Hyn in Hlo by lia.
    change (2 ^ (53 - 1)) with (2 ^ 52) in Hlo.
    assert (52 < digits (mx * my)).
    { apply digits_ge; [lia|]. rewrite Pos2Z.inj_mul. nia. }
    lia.
  - pose proof (digits_bounds mx) as [Hlo _]. rewrite Hxn in Hlo by lia.
    change (2 ^ (53 - 1)) with (2 ^ 52) in Hlo.
    assert (52 < digits (mx * my)).
    { apply digits_ge; [lia|]. rewrite Pos2Z.inj_mul. nia. }
    lia.
Qed.

(** A product of binary64 data is a binary64 datum. *)
Lemma float_mul_valid x y :
  valid x = true -> valid y = true -> valid (float_mul x y) = true.
Proof.
  intros Hx Hy.
  destruct x as [sx|sx| |sx mx ex]; destruct y as [sy|sy| |sy my ey]; try reflexivity.
  unfold valid, valid_binary in Hx, Hy.
  destruct (bounded_inv _ _ Hx) as [Cx _]. destruct (bounded_inv _ _ Hy) as [Cy _].
  unfold float_mul, SFmul.
  destruct (binary_round_aux_spec (xorb sx sy) (mx * my) (ex + ey) (mul_pre _ _ _ _ Cx Cy))
    as (m1 & _ & _ & [[_ ->] | (m2 & e2 & _ & _ & Hc2 & ->)]); [reflexivity|].
  destruct (e2 <=? emax - prec) eqn:Hfit; [|reflexivity].
  unfold valid, valid_binary, bounded. rewrite Hc2, Hfit. reflexivity.
Qed.

(** Multiplying a non-negative number by a factor of at least 1 does not
    decrease it. *)
Lemma float_mul_ge_left ml el mv ev :
  bounded prec emax ml el = true ->
  canonical_mantissa prec emax mv ev = true ->
  ev <= 0 -> 2 ^ (- ev) <= Z.pos mv ->
  float_le (S754_finite false ml el)
           (float_mul (S754_finite false ml el) (S754_finite false mv ev)) = true.
Proof.
  intros Hb Hcv Hev Hmv. destruct (bounded_inv _ _ Hb) as [Hc _].
  unfold float_mul, SFmul. cbn [xorb].
  destruct (binary_round_aux_ge false (ml * mv) (el + ev) ml el
              (mul_pre _ _ _ _ Hc Hcv) Hc)
    as [-> | (m2 & e2 & -> & Hb2 & He2 & Hle)].
  - lia.
  - rewrite Pos2Z.inj_mul. replace (el - (el + ev)) with (- ev) by lia. nia.
  - reflexivity.
  - destruct (bounded_inv _ _ Hb2) as [Hc2 _].
    apply (finite_le ml el m2 e2 (el + ev) Hc Hc2); [lia | exact He2 | exact Hle].
Qed.

(** The multiplier [1 / (1 - 0.1)]. *)
Lemma viral_multiplier_value :
  bind (int_sub_float 1 (literal 1 1)) (int_div_float 1)
  = Ok (S754_finite false 5003999585967218 (-52)).
Proof. vm_compute. reflexivity. Qed.

Lemma ltv_chain x y z :
  valid x = true -> valid y = true -> valid z = true ->
  float_le zero x = true -> float_le zero y = true -> float_le zero z = true ->
  forall six, valid six = true -> float_le zero six = true ->
  let ltv := float_mul (float_mul (float_mul x six) y) z in
  ltv = S754_nan \/ (valid ltv = true /\ float_le zero ltv = true).
Proof.
  intros Vx Vy Vz Px Py Pz six V6 P6 ltv. unfold ltv.
  destruct (Signs.float_mul_nonneg x six Px P6) as [-> | P1]; [left; reflexivity|].
  destruct (Signs.float_mul_nonneg _ y P1 Py) as [-> | P2]; [left; reflexivity|].
  destruct (Signs.float_mul_nonneg _ z P2 Pz) as [-> | P3]; [left; reflexivity|].
  right. split; [|exact P3].
  apply float_mul_valid; [|exact Vz].
  apply float_mul_valid; [|exact Vy].
  apply float_mul_valid; assumption.
Qed.

End LifetimeValue.

(** X9.  [calculate_ltv_and_cac_ceiling] returns its four figures for every
    configuration of non-negative numbers, and the lifetime value with
    virality is never below the direct one: unless the direct value is NaN
    (an infinity met a zero), it is not negative and multiplying it by
    [1 / (1 - 0.1)] does not lower it. *)
Theorem virality_never_lowers_the_lifetime_value config :
  Py.valid (Growth.events_per_host_per_month config) = true ->
  Py.valid (Growth.post_reveal_upgrade_rate config) = true ->
  Py.valid (Growth.premium_price_gbp config) = true ->
  Py.float_le Py.zero (Growth.events_per_host_per_month config) = true ->
  Py.float_le Py.zero (Growth.post_reveal_upgrade_rate config) = true ->
  Py.float_le Py.zero (Growth.premium_price_gbp config) = true ->
  exists d ltv adjusted,
    Growth.calculate_ltv_and_cac_ceiling config = Py.Ok d /\
    Py.item d "ltv_direct" = Py.Ok ltv /\
    Py.item d "ltv_with_virality" = Py.Ok adjusted /\
    (ltv = S754_nan \/
     (Py.float_le Py.zero ltv = true /\ Py.float_le ltv adjusted = true)).
Proof.
  intros Vx Vy Vz Px Py Pz.
  unfold Growth.calculate_ltv_and_cac_ceiling.
  assert (E6 : forall x, Py.float_mul_int x 6
               = Py.Ok (Py.float_mul x (S754_finite false 6755399441055744 (-50)))).
  { intros x. unfold Py.float_mul_int.
    change (Py.float_of_int 6) with (Py.Ok (S754_finite false 6755399441055744 (-50))).
    reflexivity. }
  assert (E3 : forall x, Py.float_div_int x 3
               = Py.Ok (SFdiv Py.prec Py.emax x (S754_finite false 6755399441055744 (-51)))).
  { intros x. unfold Py.float_div_int.
    change (Py.float_of_int 3) with (Py.Ok (S754_finite false 6755399441055744 (-51))).
    reflexivity. }
  rewrite E6. cbn [Py.bind].
  pose proof LifetimeValue.viral_multiplier_value as Ev.
  destruct (Py.int_sub_float 1 (Py.literal 1 1)) as [c|e]; [|discriminate Ev].
  cbn [Py.bind] in Ev |- *. rewrite Ev. cbn [Py.bind].
  rewrite E3. cbn [Py.bind].
  set (six := S754_finite false 6755399441055744 (-50)).
  set (ltv := Py.float_mul
                (Py.float_mul
                   (Py.float_mul (Growth.events_per_host_per_month config) six)
                   (Growth.post_reveal_upgrade_rate config))
                (Growth.premium_price_gbp config)).
  eexists. exists ltv. eexists.
  split; [reflexivity|]. split; [reflexivity|]. split; [reflexivity|].
  destruct (LifetimeValue.ltv_chain _ _ _ Vx Vy Vz Px Py Pz six eq_refl eq_refl)
    as [Hn | [V P]]; [left; exact Hn|].
  fold ltv in V, P. right. split; [exact P|]. clearbody ltv.
  destruct (Signs.nonneg_inv ltv P) as [[s ->] | [(m & e & ->) | ->]].
  - destruct s; reflexivity.
  - apply LifetimeValue.float_mul_ge_left.
    + exact V.
    + vm_compute. reflexivity.
    + discriminate.
    + vm_compute. discriminate.
  - reflexivity.
Qed.

Lemma virality_never_lowers_the_lifetime_value_witness :
  exists d ltv adjusted,
    Growth.calculate_ltv_and_cac_ceiling Growth.default_config = Py.Ok d /\
    Py.item d "ltv_direct" = Py.Ok ltv /\
    Py.item d "ltv_with_virality" = Py.Ok adjusted /\
    (ltv = S754_nan \/
     (Py.float_le Py.zero ltv = true /\ Py.float_le ltv adjusted = true)).
Proof.
  apply (virality_never_lowers_the_lifetime_value Growth.default_config);
    vm_compute; reflexivity.
Defined.

Module Milestones.
Import Py PyFacts Gtm.

(** What reaches a target reaches every lower one. *)
Lemma float_ge_int_mono x t1 t2 :
  t1 <= t2 -> float_ge_int x t2 = true -> float_ge_int x t1 = true.
Proof.
  intros Ht. destruct x as [s|s| |s m e]; cbn [float_ge_int]; try (intros H; exact H).
  - rewrite !Z.leb_le. lia.
  - destruct (0 <=? e) eqn:He.
    + rewrite !Z.leb_le. lia.
    + apply Z.leb_gt in He. rewrite !Z.leb_le.
      assert (0 < 2 ^ (- e)) by (apply Z.pow_pos_nonneg; lia). nia.
Qed.

Lemma number_ge_int_mono v t1 t2 :
  t1 <= t2 -> number_ge_int v t2 = true -> number_ge_int v t1 = true.
Proof.
  intros Ht. destruct v as [z|x]; cbn [number_ge_int].
  - rewrite !Z.leb_le. lia.
  - apply float_ge_int_mono. exact Ht.
Qed.

(** The record at which the search stops is the first one at the target. *)
Lemma first_reaching_some target metric results m :
  first_reaching target metric results = Some m <->
  exists i, nth_error results i = Some m /\
    number_ge_int (milestone_value metric m) target = true /\
    forall j p, (j < i)%nat -> nth_error results j = Some p ->
      number_ge_int (milestone_value metric p) target = false.
Proof.
  induction results as [|d rest IH]; cbn [first_reaching].
  - split; [discriminate|]. intros (i & Hi & _). destruct i; discriminate Hi.
  - destruct (number_ge_int (milestone_value metric d) target) eqn:Hd.
    + split.
      * intros H. injection H as <-. exists 0%nat.
        split; [reflexivity|]. split; [exact Hd|]. intros j p Hj. lia.
      * intros (i & Hi & Hm & Hbefore). destruct i as [|i].
        -- exact Hi.
        -- specialize (Hbefore 0%nat d ltac:(lia) eq_refl). congruence.
    + rewrite IH. split.
      * intros (i & Hi & Hm & Hbefore). exists (S i).
        split; [exact Hi|]. split; [exact Hm|].
        intros [|j] p Hj Hp.
        -- injection Hp as <-. exact Hd.
        -- apply (Hbefore j p); [lia | exact Hp].
      * intros (i & Hi & Hm & Hbefore). destruct i as [|i].
        -- injection Hi as ->. congruence.
        -- exists i. split; [exact Hi|]. split; [exact Hm|].
           intros j p Hj Hp. apply (Hbefore (S j) p); [lia | exact Hp].
Qed.

Lemma first_reaching_none target metric results :
  first_reaching target metric results = None <->
  forall m, In m results -> number_ge_int (milestone_value metric m) target = false.
Proof.
  induction results as [|d rest IH]; cbn [first_reaching].
  - split; [intros _ m []| reflexivity].
  - destruct (number_ge_int (milestone_value metric d) target) eqn:Hd.
    + split; [discriminate|]. intros H. specialize (H d (or_introl eq_refl)). congruence.
    + rewrite IH. split.
      * intros H m [<-|Hin]; [exact Hd | exact (H m Hin)].
      * intros H m Hin. apply H. right. exact Hin.
Qed.

End Milestones.

(** X10.  A row of the milestone table names the first record at or above
    its target: when [print_milestones] prints a month and a phase for a
    target, they are those of a record of the results whose value (the users
    in total, or the cumulative revenue, compared exactly) is at least the
    target while every record before it is below; and it prints "N/A" only
    when no record reaches the target. *)
Theorem milestone_rows_name_the_first_record_at_the_target results target metric row :
  In (target, metric, row) (Gtm.print_milestones results) ->
  match row with
  | Some (mo, ph) =>
      exists i m, nth_error results i = Some m /\
        Gtm.month m = mo /\ Gtm.phase m = ph /\
        Py.number_ge_int (Gtm.milestone_value metric m) target = true /\
        forall j p, (j < i)%nat -> nth_error results j = Some p ->
          Py.number_ge_int (Gtm.milestone_value metric p) target = false
  | None =>
      forall m, In m results ->
        Py.number_ge_int (Gtm.milestone_value metric m) target = false
  end.
Proof.
  unfold Gtm.print_milestones. intros Hin. apply in_map_iff in Hin.
  destruct Hin as ([t me] & Hrow & _). injection Hrow as -> -> <-.
  destruct (Gtm.first_reaching target metric results) as [m|] eqn:Hf.
  - apply Milestones.first_reaching_some in Hf. destruct Hf as (i & Hi & Hm & Hb).
    exists i, m. repeat split; assumption.
  - apply Milestones.first_reaching_none. exact Hf.
Qed.

Lemma milestone_rows_name_the_first_record_at_the_target_witness :
  exists rs i m,
    Gtm.run_gtm_simulation Gtm.default_config 12 "mid" = Py.Ok rs /\
    nth_error rs i = Some m /\ Gtm.month m = 3 /\
    Py.number_ge_int (Gtm.milestone_value "users" m) 100 = true.
Proof.
  destruct (Gtm.run_gtm_simulation Gtm.default_config 12 "mid") as [rs|e] eqn:Hrun;
    [|vm_compute in Hrun; discriminate Hrun].
  assert (Hin : In (100, "users"%string, Some (3, "Hijack B2B"%string))
                   (Gtm.print_milestones rs)).
  { vm_compute in Hrun. injection Hrun as <-. left. vm_compute. reflexivity. }
  pose proof (milestone_rows_name_the_first_record_at_the_target
                rs 100 "users"%string _ Hin) as H.
  cbv beta iota in H. destruct H as (i & m & Hi & Hmo & _ & Hm & _).
  exists rs, i, m. repeat split; assumption.
Defined.

(** X11.  In the milestone table of a run, a lower target of the same metric
    is never reported later than a higher one: whenever the higher target is
    reached at some record, the lower one is reached too, at a month that is
    not later. *)
Theorem lower_milestones_come_no_later config months scenario rs metric t1 t2 m2 :
  Gtm.run_gtm_simulation config months scenario = Py.Ok rs ->
  t1 <= t2 ->
  Gtm.first_reaching t2 metric rs = Some m2 ->
  exists m1, Gtm.first_reaching t1 metric rs = Some m1 /\ Gtm.month m1 <= Gtm.month m2.
Proof.
  intros Hrun Ht H2.
  apply Milestones.first_reaching_some in H2. destruct H2 as (j & Hj & Hm2 & _).
  destruct (Gtm.first_reaching t1 metric rs) as [m1|] eqn:H1.
  - exists m1. split; [reflexivity|].
    apply Milestones.first_reaching_some in H1. destruct H1 as (i & Hi & Hm1 & Hb).
    rewrite (RunFacts.gtm_month _ _ _ _ _ _ Hrun Hi),
            (RunFacts.gtm_month _ _ _ _ _ _ Hrun Hj).
    destruct (Nat.le_gt_cases i j) as [Hle|Hgt]; [lia|].
    specialize (Hb j m2 Hgt Hj).
    rewrite (Milestones.number_ge_int_mono _ _ _ Ht Hm2) in Hb. discriminate Hb.
  - exfalso.
    pose proof (proj1 (Milestones.first_reaching_none t1 metric rs) H1 m2
                  (nth_error_In _ _ Hj)) as Hb.
    rewrite (Milestones.number_ge_int_mono _ _ _ Ht Hm2) in Hb. discriminate Hb.
Qed.

Lemma lower_milestones_come_no_later_witness :
  exists rs m1 m2,
    Gtm.run_gtm_simulation Gtm.default_config 12 "mid" = Py.Ok rs /\
    Gtm.first_reaching 1000 "users" rs = Some m2 /\
    Gtm.first_reaching 500 "users" rs = Some m1 /\
    Gtm.month m1 <= Gtm.month m2.
Proof.
  destruct (Gtm.run_gtm_simulation Gtm.default_config 12 "mid") as [rs|e] eqn:Hrun;
    [|vm_compute in Hrun; discriminate Hrun].
  destruct (Gtm.first_reaching 1000 "users" rs) as [m2|] eqn:H2;
    [|vm_compute in Hrun; injection Hrun as <-; vm_compute in H2; discriminate H2].
  destruct (lower_milestones_come_no_later Gtm.default_config 12 "mid"%string rs
              "users"%string 500 1000 m2 Hrun ltac:(lia) H2) as (m1 & H1 & Hle).
  exists rs, m1, m2. repeat split; assumption.
Defined.
